(** * haxorport-go-client: a shallow embedding and its properties

    The development follows the Go sources of the client:
    - [GoStrings]    the functions of Go's [strings] and [strconv] packages
                     the client calls (HasPrefix, Contains, ReplaceAll,
                     Split, Atoi);
    - [HTMLRewrite]  the URL rewriting of [Client.HandleHTTPRequestMessage]
                     (internal/infrastructure/transport/client_http.go);
    - [Eff]          calls that return or block for ever;
    - [Auth]         [authService.ValidateToken] and
                     [authService.ValidateTokenWithResponse]
                     (internal/domain/service/auth_service.go);
    - [Session]      the WebSocket session [Client]
                     (internal/infrastructure/transport/client.go);
    - [Registry]     the WebSocket-mode [TunnelRepository]: [Unregister],
                     [HandleData], [handleDataMessage];
    - [Forwarder]    [TunnelRepository.handleConnection] with its sender
                     goroutines, as a transition system;
    - [Direct]       [DirectTunnel.Start]
                     (internal/infrastructure/transport/direct_tunnel.go);
    - [Cmd]          the [tcp] command of the command-line front end.

    Go strings are byte sequences: they are [string] where the code only
    compares or stores them and [list ascii] where it scans them.  What
    the network, the clock and the libraries answer is an argument of the
    operation that asks; what an operation does to the outside is
    recorded in an event list of its state. *)

From Stdlib Require Import ZArith Ascii String DecimalString DecimalPos.
From stdpp Require Import gmap strings list.

Local Open Scope Z_scope.

(** ** Go's [strings] and [strconv] functions used by the client *)

Module GoStrings.

Abbreviation bytes := (list ascii).

Definition B (s : string) : bytes := list_ascii_of_string s.

(** [strings.HasPrefix(s, p)]. *)
Fixpoint HasPrefix (s p : bytes) {struct p} : bool :=
  match p, s with
  | [], _ => true
  | _ :: _, [] => false
  | a :: p', b :: s' => if decide (a = b) then HasPrefix s' p' else false
  end.

(** [strings.Contains(s, sub)]: [sub] occurs in [s] as a contiguous block. *)
Fixpoint Contains (s sub : bytes) : bool :=
  HasPrefix s sub ||
  match s with
  | [] => false
  | _ :: s' => Contains s' sub
  end.

(** The scan of [strings.ReplaceAll] for a non-empty [old]: matches are
    found left to right and do not overlap; [skip] counts the bytes of
    the current match that are still to be dropped. *)
Fixpoint replace_scan (old new s : bytes) (skip : nat) : bytes :=
  match s with
  | [] => []
  | c :: s' =>
      match skip with
      | S k => replace_scan old new s' k
      | O =>
          if HasPrefix s old
          then new ++ replace_scan old new s' (length old - 1)
          else c :: replace_scan old new s' 0
      end
  end.

(** With an empty [old], Go inserts [new] before every character and at
    the end of the string. *)
Fixpoint insert_around (new s : bytes) : bytes :=
  match s with
  | [] => new
  | c :: s' => new ++ c :: insert_around new s'
  end.

(** [strings.ReplaceAll(s, old, new)]; like Go's, it returns [s] itself
    when [old == new]. *)
Definition ReplaceAll (s old new : bytes) : bytes :=
  if decide (old = new) then s
  else match old with
       | [] => insert_around new s
       | _ :: _ => replace_scan old new s 0
       end.

(** The scan of [strings.Split] for a non-empty separator: [cur] holds the
    current piece in reverse. *)
Fixpoint split_scan (sep s : bytes) (skip : nat) (cur : bytes) : list bytes :=
  match s with
  | [] => [rev cur]
  | c :: s' =>
      match skip with
      | S k => split_scan sep s' k cur
      | O =>
          if HasPrefix s sep
          then rev cur :: split_scan sep s' (length sep - 1) []
          else split_scan sep s' 0 (c :: cur)
      end
  end.

(** [strings.Split(s, sep)]; with an empty separator Go splits after every
    character. *)
Definition Split (s sep : bytes) : list bytes :=
  match sep with
  | [] => map (fun c => [c]) s
  | _ :: _ => split_scan sep s 0 []
  end.

Definition digit (c : ascii) : option Z :=
  let n := Z.of_nat (nat_of_ascii c) in
  if (48 <=? n) && (n <=? 57) then Some (n - 48) else None.

Fixpoint digits (s : bytes) (acc : Z) : option Z :=
  match s with
  | [] => Some acc
  | c :: s' =>
      match digit c with
      | Some d => digits s' (10 * acc + d)
      | None => None
      end
  end.

(** [strconv.Atoi] on a 64-bit platform: an optional sign, then decimal
    digits only; [None] stands for its error. *)
Definition Atoi (s : bytes) : option Z :=
  let '(neg, body) :=
    match s with
    | c :: r =>
        if decide (c = "+"%char) then (false, r)
        else if decide (c = "-"%char) then (true, r)
        else (false, s)
    | [] => (false, s)
    end in
  match body with
  | [] => None
  | _ :: _ =>
      match digits body 0 with
      | Some n =>
          let v := if neg : bool then - n else n in
          if (- 2 ^ 63 <=? v) && (v <? 2 ^ 63) then Some v else None
      | None => None
      end
  end.

(** [fmt.Sprintf("%d", n)]. *)
Definition itoa (n : Z) : string := NilZero.string_of_int (Z.to_int n).

End GoStrings.

(** ** The HTML rewriting of the HTTP request proxy *)

Module HTMLRewrite.
Import GoStrings.

(** [tunnelScheme]: "https" when the request says so, "http" otherwise. *)
Definition tunnelScheme (scheme : string) : string :=
  if decide (scheme = "https"%string) then "https"%string else "http"%string.

(** The hostname used for the replacement: the first [Host] value, else the
    first [X-Forwarded-Host] value, else the subdomain of the session, else
    the tunnel id, the last two under [.haxorport.online]. *)
Definition firstHeader (headers : gmap string (list string)) (key : string) : string :=
  match headers !! key with
  | Some (h :: _) => h
  | _ => EmptyString
  end.

Definition deriveHostname (headers : gmap string (list string))
    (subdomain tunnelID : string) : string :=
  let hostname := firstHeader headers "Host" in
  let hostname :=
    if decide (hostname = EmptyString) then firstHeader headers "X-Forwarded-Host"
    else hostname in
  if decide (hostname = EmptyString) then
    if decide (subdomain <> EmptyString)
    then (subdomain +:+ ".haxorport.online")%string
    else (tunnelID +:+ ".haxorport.online")%string
  else hostname.

Definition localURLPrefix (localPort : Z) : bytes :=
  B ("http://localhost:" +:+ itoa localPort).
Definition localURLPrefixSecure (localPort : Z) : bytes :=
  B ("https://localhost:" +:+ itoa localPort).
Definition tunnelURLPrefix (scheme hostname : string) : bytes :=
  B (tunnelScheme scheme +:+ "://" +:+ hostname).

(** The double quote character of [href="/] and [src="/]. *)
Definition dquote : ascii := "034"%char.

Definition hrefOld : bytes := B "href=" ++ dquote :: B "/".
Definition srcOld : bytes := B "src=" ++ dquote :: B "/".
Definition hrefNew (t : bytes) : bytes := B "href=" ++ dquote :: t ++ B "/".
Definition srcNew (t : bytes) : bytes := B "src=" ++ dquote :: t ++ B "/".

(** The four [strings.ReplaceAll] calls applied to a [text/html] body. *)
Definition rewriteBody (localPort : Z) (scheme hostname : string) (body : bytes) : bytes :=
  let t := tunnelURLPrefix scheme hostname in
  let bodyStr := body in
  let bodyStr := ReplaceAll bodyStr (localURLPrefix localPort) t in
  let bodyStr := ReplaceAll bodyStr (localURLPrefixSecure localPort) t in
  let bodyStr := ReplaceAll bodyStr hrefOld (hrefNew t) in
  let bodyStr := ReplaceAll bodyStr srcOld (srcNew t) in
  bodyStr.

End HTMLRewrite.

(** ** Results of blocking code

    A Go call either returns or blocks for ever (a goroutine that locks a
    [sync.Mutex] it already holds never wakes up: the mutex is not
    re-entrant).  [M S A] is a state monad over [S] whose computations may
    block; a blocked computation keeps the state it blocked in. *)

Module Eff.

Inductive result (S A : Type) : Type :=
| Ret (a : A) (s : S)
| Blocked (s : S).
Arguments Ret {S A} a s.
Arguments Blocked {S A} s.

Definition M (S A : Type) : Type := S -> result S A.

Definition ret {S A} (a : A) : M S A := fun s => Ret a s.

Definition bind {S A B} (m : M S A) (k : A -> M S B) : M S B :=
  fun s => match m s with
           | Ret a s' => k a s'
           | Blocked s' => Blocked s'
           end.

Definition get {S} : M S S := fun s => Ret s s.
Definition put {S} (s : S) : M S unit := fun _ => Ret tt s.
Definition modify {S} (f : S -> S) : M S unit := fun s => Ret tt (f s).
Definition block {S A} : M S A := fun s => Blocked s.

Definition final {S A} (r : result S A) : S :=
  match r with Ret _ s => s | Blocked s => s end.

Definition returned {S A} (r : result S A) : option A :=
  match r with Ret a _ => Some a | Blocked _ => None end.

Declare Scope eff_scope.
Delimit Scope eff_scope with eff.
Notation "x <- m ;; k" := (bind m (fun x => k))
  (at level 100, m at next level, right associativity) : eff_scope.
Notation "m ;; k" := (bind m (fun _ => k))
  (at level 100, right associativity) : eff_scope.

End Eff.

(** ** The auth validator (internal/domain/service/auth_service.go) *)

Module Auth.
Import GoStrings.

(** model/auth_response.go *)
Record ResourceLimit := { Limit : Z; Used : Z; Reached : bool }.
Record SubscriptionLimits := {
  Tunnels : ResourceLimit; Ports : ResourceLimit;
  Bandwidth : ResourceLimit; Requests : ResourceLimit }.
Record SubscriptionFeatures := {
  CustomDomains : bool; Analytics : bool; PrioritySupport : bool }.
Record Subscription := {
  Name : string; Limits : SubscriptionLimits; Features : SubscriptionFeatures }.
Record AuthData := {
  UserID : string; Fullname : string; Username : string; Email : string;
  Subscription_ : Subscription }.
Record AuthMeta := { HeaderStatusCode : Z }.
Record AuthResponse := {
  Code : Z; Status : string; Message : string; Data : AuthData; Meta : AuthMeta }.

(** The request the validator builds. *)
Record Request := {
  Method : string; URL : string; ContentType : string; UserAgent : string;
  Body : string }.

(** What [http.Client.Do] followed by [io.ReadAll] can give: no response at
    all, or a status code with the body (or a failure to read it). *)
Inductive Reply :=
| NoReply (err : string)
| Reply_ (statusCode : Z) (body : option bytes).

(** The world outside the validator: URL parsing of [http.NewRequest], the
    form encoding of [url.Values], the HTTP exchange and [encoding/json]. *)
Record World := {
  newRequestOk : string -> bool;
  formEncode : string -> string;
  roundTrip : Request -> Reply;
  json_Valid : bytes -> bool;
  json_Unmarshal : bytes -> option AuthResponse }.

(** The errors of [ValidateTokenWithResponse], one per [fmt.Errorf]. *)
Inductive Error :=
| ErrEmptyToken                      (* token cannot be empty *)
| ErrCreateRequest                   (* failed to create request *)
| ErrSendRequest (err : string)      (* failed to send request *)
| ErrStatusCode (code : Z)           (* token validation failed with status code *)
| ErrReadBody                        (* failed to read response body *)
| ErrNotJSON (preview : bytes)       (* response is not valid JSON *)
| ErrParse.                          (* failed to parse response *)

Record authService := { validationURL : string }.
Definition NewAuthService (url : string) : authService := {| validationURL := url |}.

Definition StatusOK : Z := 200.

(** [preview[:100] + "..."] for bodies longer than 100 bytes. *)
Definition preview (respBody : bytes) : bytes :=
  if (100 <? Z.of_nat (length respBody))
  then firstn 100 respBody ++ B "..." else respBody.

(** The POST request with the form body [token=...] and its two headers. *)
Definition buildRequest (w : World) (s : authService) (token : string) : Request :=
  let data := ("token=" +:+ formEncode w token)%string in
  {| Method := "POST"; URL := validationURL s;
     ContentType := "application/x-www-form-urlencoded";
     UserAgent := "HaxorportClient/1.0"; Body := data |}.

(** [ValidateTokenWithResponse]; the first component lists the HTTP requests
    that were sent. *)
Definition ValidateTokenWithResponse (w : World) (s : authService) (token : string)
  : list Request * (Error + AuthResponse) :=
  if decide (token = EmptyString) then ([], inl ErrEmptyToken)
  else
    if negb (newRequestOk w (validationURL s)) then ([], inl ErrCreateRequest)
    else
      let req := buildRequest w s token in
      match roundTrip w req with
      | NoReply err => ([req], inl (ErrSendRequest err))
      | Reply_ statusCode body =>
          if negb (statusCode =? StatusOK) then ([req], inl (ErrStatusCode statusCode))
          else match body with
               | None => ([req], inl ErrReadBody)
               | Some respBody =>
                   if negb (json_Valid w respBody)
                   then ([req], inl (ErrNotJSON (preview respBody)))
                   else match json_Unmarshal w respBody with
                        | None => ([req], inl ErrParse)
                        | Some authResponse => ([req], inr authResponse)
                        end
               end
      end.

(** [response.Status == "success" && response.Code == 200] *)
Definition isSuccess (response : AuthResponse) : bool :=
  bool_decide (Status response = "success"%string) && (Code response =? 200).

(** [ValidateToken]: the pair [(bool, error)] with the requests sent. *)
Definition ValidateToken (w : World) (s : authService) (token : string)
  : list Request * (bool * option Error) :=
  match ValidateTokenWithResponse w s token with
  | (reqs, inl err) => (reqs, (false, Some err))
  | (reqs, inr response) => (reqs, (isSuccess response, None))
  end.

End Auth.

(** ** The WebSocket session (internal/infrastructure/transport/client.go) *)

Module Session.
Import GoStrings Eff.
Local Open Scope eff_scope.

(** model/message.go *)
Inductive MessageType :=
| MessageTypeAuth | MessageTypeRegister | MessageTypeUnregister
| MessageTypeData | MessageTypePing | MessageTypePong | MessageTypeError
| MessageTypeHTTPRequest | MessageTypeHTTPResponse.

Inductive Payload :=
| AuthPayload (Token : string)
| UnregisterPayload (TunnelID : string)
| DataPayload (TunnelID ConnectionID : string) (Data : bytes).

Record Message := {
  Type_ : MessageType; Version : string; Timestamp : Z;
  MsgPayload : option Payload }.

Inductive ConnectionMode := ConnectionModeWebSocket | ConnectionModeDirectTCP
                          | ConnectionModeOther (name : string).

(** model.Config, the fields the client reads. *)
Record Config := {
  ServerAddress : string; ControlPort : Z; DataPort : Z;
  AuthEnabled : bool; AuthToken : string; AuthValidationURL : string;
  TLSEnabled : bool; TLSCert : string; TLSKey : string;
  BaseDomain : string; Mode : ConnectionMode }.

(** What the session did to the outside: frames written to a socket,
    sockets closed, time slept (in nanoseconds, as [time.Duration]). *)
Inductive Event :=
| Wrote (sock : nat) (msg : Message)
| ClosedSock (sock : nat)
| Slept (d : Z).

(** The fields copied out of the configuration by [NewClient]. *)
Record Settings := {
  serverAddr : string; controlPort : Z; dataPort : Z;
  authEnabled : bool; authToken : string;
  tlsEnabled : bool; tlsCert : string; tlsKey : string; baseDomain : string }.

Record Client := {
  settings : Settings;
  config : Config;
  conn : option nat;
  isConnected : bool;
  reconnecting : bool;
  mutex : bool;                      (* true while some goroutine holds it *)
  subdomain : string;
  userData : option Auth.AuthData;
  trace : list Event }.

Definition set_conn (v : option nat) (c : Client) : Client :=
  {| settings := settings c; config := config c; conn := v;
     isConnected := isConnected c; reconnecting := reconnecting c;
     mutex := mutex c; subdomain := subdomain c; userData := userData c;
     trace := trace c |}.
Definition set_isConnected (v : bool) (c : Client) : Client :=
  {| settings := settings c; config := config c; conn := conn c;
     isConnected := v; reconnecting := reconnecting c;
     mutex := mutex c; subdomain := subdomain c; userData := userData c;
     trace := trace c |}.
Definition set_mutex (v : bool) (c : Client) : Client :=
  {| settings := settings c; config := config c; conn := conn c;
     isConnected := isConnected c; reconnecting := reconnecting c;
     mutex := v; subdomain := subdomain c; userData := userData c;
     trace := trace c |}.
Definition set_userData (v : option Auth.AuthData) (c : Client) : Client :=
  {| settings := settings c; config := config c; conn := conn c;
     isConnected := isConnected c; reconnecting := reconnecting c;
     mutex := mutex c; subdomain := subdomain c; userData := v;
     trace := trace c |}.
Definition emit (e : Event) (c : Client) : Client :=
  {| settings := settings c; config := config c; conn := conn c;
     isConnected := isConnected c; reconnecting := reconnecting c;
     mutex := mutex c; subdomain := subdomain c; userData := userData c;
     trace := trace c ++ [e] |}.

Definition NewClient (cfg : Config) : Client :=
  {| settings := {| serverAddr := ServerAddress cfg; controlPort := ControlPort cfg;
                    dataPort := DataPort cfg; authEnabled := AuthEnabled cfg;
                    authToken := AuthToken cfg; tlsEnabled := TLSEnabled cfg;
                    tlsCert := TLSCert cfg; tlsKey := TLSKey cfg;
                    baseDomain := BaseDomain cfg |};
     config := cfg; conn := None; isConnected := false; reconnecting := false;
     mutex := false; subdomain := EmptyString; userData := None; trace := [] |}.

(** The libraries around the session. *)
Record World := {
  auth : Auth.World;
  payloadMarshals : Payload -> bool;       (* json.Marshal(payload) succeeds *)
  messageMarshals : Message -> bool;       (* json.Marshal(msg) succeeds *)
  loadX509KeyPair : string -> string -> bool;
  urlParses : string -> bool }.

Inductive Error :=
| ErrValidate (err : Auth.Error)     (* failed to validate token *)
| ErrInvalidToken                    (* Authentication failed: invalid token *)
| ErrLoadCert                        (* failed to load TLS certificate *)
| ErrInvalidURL                      (* invalid URL *)
| ErrDial                            (* failed to connect to server *)
| ErrAuthMessage                     (* failed to create authentication message *)
| ErrAuthJSON                        (* failed to convert authentication message to JSON *)
| ErrSendAuth                        (* failed to send authentication *)
| ErrNotConnected                    (* not connected to server *)
| ErrToJSON                          (* failed to convert message to JSON *)
| ErrSendMessage                     (* failed to send message *)
| ErrCreateMessage                   (* failed to create message *)
| ErrSendData (attempts : Z).        (* failed to send data after n attempts *)

(** [c.mutex.Lock()] and [c.mutex.Unlock()]. *)
Definition lock : M Client unit :=
  fun c => if mutex c then Blocked c else Ret tt (set_mutex true c).
Definition unlock : M Client unit := modify (set_mutex false).

(** [c.mutex.Lock(); defer c.mutex.Unlock(); body]. *)
Definition locked {A} (body : M Client A) : M Client A :=
  lock ;; a <- body ;; unlock ;; ret a.

(** [model.NewMessage(msgType, payload)] at time [now] (milliseconds). *)
Definition NewMessage (w : World) (now : Z) (msgType : MessageType)
    (payload : option Payload) : option Message :=
  match payload with
  | Some p =>
      if payloadMarshals w p
      then Some {| Type_ := msgType; Version := "1.0.0"; Timestamp := now;
                   MsgPayload := Some p |}
      else None
  | None => Some {| Type_ := msgType; Version := "1.0.0"; Timestamp := now;
                    MsgPayload := None |}
  end.

Definition Close : M Client unit :=
  locked (
    c <- get ;;
    if negb (isConnected c) then ret tt
    else
      (match conn c with
       | Some k => modify (emit (ClosedSock k)) ;; modify (set_conn None)
       | None => ret tt
       end) ;;
      modify (set_isConnected false)).

Definition IsConnected : M Client bool :=
  locked (c <- get ;; ret (isConnected c)).

(** What the network answers to one [Connect]: the socket the dialer
    returns (if any), the clock, and whether the write of the [auth]
    frame succeeds. *)
Record ConnectEnv := { dialed : option nat; connectNow : Z; authWriteOk : bool }.

Definition validationURLOf (cfg : Config) : string :=
  if decide (AuthValidationURL cfg = EmptyString) then
    if TLSEnabled cfg
    then ("https://" +:+ ServerAddress cfg +:+ "/AuthToken/validate")%string
    else ("http://" +:+ ServerAddress cfg +:+ "/AuthToken/validate")%string
  else AuthValidationURL cfg.

Definition serverURL (s : Settings) : string :=
  ((if tlsEnabled s then "wss" else "ws") +:+ "://" +:+ serverAddr s +:+ ":"
     +:+ itoa (controlPort s) +:+ "/control")%string.

(** The part of [Connect] after the token validation. *)
Definition connectSocket (w : World) (e : ConnectEnv) : M Client (option Error) :=
  c <- get ;;
  let s := settings c in
  if tlsEnabled s && negb (bool_decide (tlsCert s = EmptyString))
     && negb (bool_decide (tlsKey s = EmptyString))
     && negb (loadX509KeyPair w (tlsCert s) (tlsKey s))
  then ret (Some ErrLoadCert)
  else if negb (urlParses w (serverURL s)) then ret (Some ErrInvalidURL)
  else match dialed e with
       | None => ret (Some ErrDial)
       | Some k =>
           modify (set_conn (Some k)) ;;
           modify (set_isConnected true) ;;
           match NewMessage w (connectNow e) MessageTypeAuth
                   (Some (AuthPayload (authToken s))) with
           | None => Close ;; ret (Some ErrAuthMessage)
           | Some authMessage =>
               if negb (messageMarshals w authMessage)
               then Close ;; ret (Some ErrAuthJSON)
               else if authEnabled s then
                      if authWriteOk e
                      then modify (emit (Wrote k authMessage)) ;; ret None
                      else Close ;; ret (Some ErrSendAuth)
                    else ret None
           end
       end.

Definition Connect (w : World) (e : ConnectEnv) : M Client (option Error) :=
  locked (
    c <- get ;;
    if isConnected c then ret None
    else
      let cfg := config c in
      if AuthEnabled cfg && negb (bool_decide (AuthToken cfg = EmptyString)) then
        match snd (Auth.ValidateTokenWithResponse (auth w)
                     (Auth.NewAuthService (validationURLOf cfg)) (AuthToken cfg)) with
        | inl err => ret (Some (ErrValidate err))
        | inr response =>
            if negb (Auth.isSuccess response) then ret (Some ErrInvalidToken)
            else modify (set_userData (Some (Auth.Data response))) ;;
                 connectSocket w e
        end
      else connectSocket w e).

(** [sendMessage]; [writeOk] is the outcome of [conn.WriteMessage] if it is
    called. *)
Definition sendMessage (w : World) (writeOk : bool) (msg : Message)
  : M Client (option Error) :=
  locked (
    c <- get ;;
    match isConnected c, conn c with
    | true, Some k =>
        if negb (messageMarshals w msg) then ret (Some ErrToJSON)
        else if writeOk then modify (emit (Wrote k msg)) ;; ret None
             else modify (set_isConnected false) ;; ret (Some ErrSendMessage)
    | _, _ => ret (Some ErrNotConnected)
    end).

Definition SendUnregisterTunnel (w : World) (now : Z) (writeOk : bool)
    (tunnelID : string) : M Client (option Error) :=
  match NewMessage w now MessageTypeUnregister (Some (UnregisterPayload tunnelID)) with
  | None => ret (Some ErrCreateMessage)
  | Some msg => sendMessage w writeOk msg
  end.

Definition millisecond : Z := 1000000.
Definition second : Z := 1000 * millisecond.

(** The retry loop of [SendData]: [attempt] counts from 0, [left] is
    [maxRetries - attempt]; [env attempt] gives the clock and the outcome of
    the write of that attempt.  The back-off grows by the factor 1.5
    (exact on the values that occur) up to [maxBackoff]. *)
Fixpoint sendDataLoop (w : World) (env : nat -> Z * bool) (payload : Payload)
    (left attempt : nat) (backoff : Z)
  : M Client (option Error) :=
  match left with
  | O => ret (Some (ErrSendData 3))
  | S left' =>
      match NewMessage w (fst (env attempt)) MessageTypeData (Some payload) with
      | None => ret (Some ErrCreateMessage)
      | Some msg =>
          err <- sendMessage w (snd (env attempt)) msg ;;
          match err with
          | None => ret None
          | Some _ =>
              modify (emit (Slept backoff)) ;;
              let backoff := backoff * 3 / 2 in
              let backoff := if 2 * second <? backoff then 2 * second else backoff in
              sendDataLoop w env payload left' (S attempt) backoff
          end
      end
  end.

Definition SendData (w : World) (env : nat -> Z * bool)
    (tunnelID connectionID : string) (data : bytes) : M Client (option Error) :=
  sendDataLoop w env (DataPayload tunnelID connectionID data) 3 0
    (100 * millisecond).

Definition GetUserData (c : Client) : option Auth.AuthData := userData c.

Definition CheckTunnelLimit (c : Client) : bool * Z * Z :=
  match userData c with
  | None => (false, 0, 0)
  | Some u =>
      let limits := Auth.Tunnels (Auth.Limits (Auth.Subscription_ u)) in
      let reached := Auth.Reached limits || (Auth.Limit limits <=? Auth.Used limits) in
      (reached, Auth.Used limits, Auth.Limit limits)
  end.

End Session.

(** ** The WebSocket-mode tunnel registry ([TunnelRepository]) *)

Module Registry.
Import GoStrings Eff.
Local Open Scope eff_scope.

(** model/tunnel.go *)
Inductive TunnelType := TunnelTypeHTTP | TunnelTypeTCP.

Record TunnelConfig := {
  Name : string; Type_ : TunnelType; LocalPort : Z; LocalAddr : string;
  Subdomain : string; RemotePort : Z }.

Record Tunnel := {
  ID : string; Config : TunnelConfig; URL : string; TunnelRemotePort : Z;
  Active : bool }.

(** What the registry does to local sockets (durations in nanoseconds). *)
Inductive Event :=
| SetWriteDeadline (sock : nat) (d : option Z)   (* [None]: deadline cleared *)
| Write (sock : nat) (data : bytes)
| Sleep (d : Z)
| CloseSock (sock : nat)
| Dial (addr : string) (timeout : Z)
| Tune (sock : nat) (bufferSize : Z)             (* NoDelay, KeepAlive, buffers *)
| Spawn (tunnelID connectionID : string) (sock : nat). (* go r.handleConnection *)

Record TunnelRepository := {
  client : Session.Client;
  tunnels : gmap string Tunnel;
  connections : gmap string nat;
  events : list Event }.

Definition set_client (v : Session.Client) (r : TunnelRepository) :=
  {| client := v; tunnels := tunnels r; connections := connections r;
     events := events r |}.
Definition set_tunnels (v : gmap string Tunnel) (r : TunnelRepository) :=
  {| client := client r; tunnels := v; connections := connections r;
     events := events r |}.
Definition set_connections (v : gmap string nat) (r : TunnelRepository) :=
  {| client := client r; tunnels := tunnels r; connections := v;
     events := events r |}.
Definition emit (e : Event) (r : TunnelRepository) :=
  {| client := client r; tunnels := tunnels r; connections := connections r;
     events := events r ++ [e] |}.

Definition NewTunnelRepository (c : Session.Client) : TunnelRepository :=
  {| client := c; tunnels := ∅; connections := ∅; events := [] |}.

(** Run a session operation on the registry's client. *)
Definition onClient {A} (m : M Session.Client A) : M TunnelRepository A :=
  fun r => match m (client r) with
           | Ret a c => Ret a (set_client c r)
           | Blocked c => Blocked (set_client c r)
           end.

Inductive Error :=
| ErrConnect (err : Session.Error)     (* failed to connect to server *)
| ErrRemove (err : Session.Error)      (* failed to remove tunnel *)
| ErrConnNotFound                      (* connection not found *)
| ErrWriteFailed                       (* failed to write data to connection after multiple attempts *)
| ErrParsePayload                      (* failed to parse data payload *)
| ErrTunnelNotFound                    (* tunnel not found *)
| ErrDialFailed.                       (* failed to connect to local service after multiple attempts *)

(** The network's answers to one [Unregister]. *)
Record UnregisterEnv := {
  connectEnv : Session.ConnectEnv; now : Z; writeOk : bool }.

(** The second half of [Unregister]: send the frame, then delete the record. *)
Definition sendAndRemove (w : Session.World) (e : UnregisterEnv) (tunnelID : string)
  : M TunnelRepository (option Error) :=
  err <- onClient (Session.SendUnregisterTunnel w (now e) (writeOk e) tunnelID) ;;
  match err with
  | Some err => ret (Some (ErrRemove err))
  | None =>
      modify (fun r => set_tunnels (delete tunnelID (tunnels r)) r) ;;
      ret None
  end.

Definition Unregister (w : Session.World) (e : UnregisterEnv) (tunnelID : string)
  : M TunnelRepository (option Error) :=
  connected <- onClient Session.IsConnected ;;
  err <- (if negb connected then onClient (Session.Connect w (connectEnv e))
          else ret None) ;;
  match err with
  | Some err => ret (Some (ErrConnect err))
  | None => sendAndRemove w e tunnelID
  end.

Definition GetByID (tunnelID : string) (r : TunnelRepository) : option Tunnel :=
  tunnels r !! tunnelID.

Definition millisecond : Z := Session.millisecond.
Definition second : Z := Session.second.

(** Constants of the file. *)
Definition maxRetries : nat := 5.
Definition dialTimeout : Z := 5 * second.
Definition bufferSize : Z := 128 * 1024.
Definition writeTimeout : Z := 30 * second.
Definition sshHandshakeTimeout : Z := 15 * second.

(** One [conn.Write]: the number of bytes written and whether it failed.
    [wr k] is the answer to the [k]-th write of a handler run. *)
Abbreviation WriteOracle := (nat -> Z * bool).

(** The loop [for attempts := 0; attempts < 3; attempts++] of [HandleData];
    returns the last [(n, writeErr)]. *)
Fixpoint writeAttempts (wr : WriteOracle) (sock : nat) (data : bytes)
    (left attempts : nat) (last : Z * bool) : M TunnelRepository (Z * bool) :=
  match left with
  | O => ret last
  | S left' =>
      modify (emit (Write sock data)) ;;
      let res := wr attempts in
      if negb (snd res) then ret res
      else modify (emit (Sleep (100 * millisecond))) ;;
           writeAttempts wr sock data left' (S attempts) res
  end.

Definition HandleData (wr : WriteOracle) (tunnelID connectionID : string)
    (data : bytes) : M TunnelRepository (option Error) :=
  r <- get ;;
  match connections r !! connectionID with
  | None => ret (Some ErrConnNotFound)
  | Some sock =>
      modify (emit (SetWriteDeadline sock (Some (5 * second)))) ;;
      res <- writeAttempts wr sock data 3 0 (0, false) ;;
      modify (emit (SetWriteDeadline sock None)) ;;
      let n := fst res in
      if snd res then ret (Some ErrWriteFailed)
      else if (n <? Z.of_nat (length data)) && (0 <? n) then
             let remaining := skipn (Z.to_nat n) data in
             modify (emit (SetWriteDeadline sock (Some (5 * second)))) ;;
             modify (emit (Write sock remaining)) ;;
             modify (emit (SetWriteDeadline sock None)) ;;
             ret None
           else ret None
  end.

(** The retries [for i := 0; i < maxRetries; i++] of [handleDataMessage]
    after a failed first write; returns whether the last write failed. *)
Fixpoint writeRetries (wr : WriteOracle) (sock : nat) (data : bytes)
    (left i : nat) : M TunnelRepository bool :=
  match left with
  | O => ret true
  | S left' =>
      modify (emit (Sleep (Z.of_nat (i + 1) * 100 * millisecond))) ;;
      modify (emit (Write sock data)) ;;
      if negb (snd (wr (S i))) then ret false
      else writeRetries wr sock data left' (S i)
  end.

(** [conn.Write(payload.Data)] with its retries, between setting the write
    deadline to [deadline] and clearing it. *)
Definition writeWithRetries (wr : WriteOracle) (sock : nat) (data : bytes)
    (deadline : Z) : M TunnelRepository bool :=
  modify (emit (SetWriteDeadline sock (Some deadline))) ;;
  modify (emit (Write sock data)) ;;
  failed <- (if snd (wr O) then writeRetries wr sock data maxRetries 0
             else ret false) ;;
  modify (emit (SetWriteDeadline sock None)) ;;
  ret failed.

(** The dial loop [for attempts := 0; attempts < 5; attempts++]. *)
Fixpoint dialAttempts (dial : nat -> option nat) (localAddr : string)
    (left attempts : nat) : M TunnelRepository (option nat) :=
  match left with
  | O => ret None
  | S left' =>
      modify (emit (Dial localAddr dialTimeout)) ;;
      match dial attempts with
      | Some sock => ret (Some sock)
      | None =>
          modify (emit (Sleep (Z.of_nat (attempts + 1) * 200 * millisecond))) ;;
          dialAttempts dial localAddr left' (S attempts)
      end
  end.

(** [net.JoinHostPort(host, port)] *)
Definition JoinHostPort (host port : string) : string :=
  if Contains (B host) (B ":")
  then ("[" +:+ host +:+ "]:" +:+ port)%string
  else (host +:+ ":" +:+ port)%string.

(** [handleDataMessage]; [payload] is the result of [msg.ParsePayload]. *)
Definition handleDataMessage (dial : nat -> option nat) (wr : WriteOracle)
    (payload : option (string * string * bytes)) : M TunnelRepository (option Error) :=
  match payload with
  | None => ret (Some ErrParsePayload)
  | Some (tunnelID, connectionID, data) =>
      r <- get ;;
      match connections r !! connectionID with
      | None =>
          match GetByID tunnelID r with
          | None => ret (Some ErrTunnelNotFound)
          | Some tunnel =>
              let localAddr := JoinHostPort (LocalAddr (Config tunnel))
                                 (itoa (LocalPort (Config tunnel))) in
              conn <- dialAttempts dial localAddr 5 0 ;;
              match conn with
              | None => ret (Some ErrDialFailed)
              | Some sock =>
                  modify (emit (Tune sock bufferSize)) ;;
                  modify (fun r => set_connections
                                     (<[connectionID := sock]> (connections r)) r) ;;
                  modify (emit (Spawn tunnelID connectionID sock)) ;;
                  (if (0 <? Z.of_nat (length data))
                   then writeWithRetries wr sock data sshHandshakeTimeout ;; ret tt
                   else ret tt) ;;
                  ret None
              end
          end
      | Some sock =>
          (if (0 <? Z.of_nat (length data))
           then writeWithRetries wr sock data writeTimeout ;; ret tt
           else ret tt) ;;
          ret None
      end
  end.

End Registry.

(** ** The per-connection forwarder ([TunnelRepository.handleConnection])

    The forwarder reads the local socket in a loop and starts one goroutine
    per chunk ([go func(data []byte) { r.sendDataWithRetry(...) }(copy)]);
    the first chunk alone is sent inline.  Goroutines run in any order, so
    the forwarder and its senders form a transition system: a step is a read
    of the forwarder or the completion of any one running sender. *)

Module Forwarder.
Import GoStrings.

Inductive Phase := AwaitInitial | Streaming | Returned.

(** A running sender goroutine: the copy of the chunk it was started
    with, or the empty SSH keepalive frame. *)
Inductive Sender :=
| DataSender (data : bytes)
| KeepaliveSender.

Definition payloadOf (s : Sender) : bytes :=
  match s with DataSender data => data | KeepaliveSender => [] end.

Record State := {
  phase : Phase;
  isSSH : bool;
  reads : list bytes;      (* chunks returned by [conn.Read], in read order *)
  senders : list Sender;   (* goroutines started and not yet finished *)
  handed : list bytes;     (* [Data] of the frames the session accepted, in order *)
  errCh : bool }.          (* an error is waiting in [errCh] *)

Definition init : State :=
  {| phase := AwaitInitial; isSSH := false; reads := []; senders := [];
     handed := []; errCh := false |}.

(** [n >= 4 && bytes.HasPrefix(initialData, "SSH-")] *)
Definition detectSSH (initialData : bytes) : bool :=
  (4 <=? Z.of_nat (length initialData)) && HasPrefix initialData (B "SSH-").

(** [actualBufferSize] *)
Definition actualBufferSize (ssh : bool) : Z :=
  if ssh then 32768 else Registry.bufferSize.

Definition fits (chunk : bytes) (size : Z) : Prop :=
  0 < Z.of_nat (length chunk) <= size.

Inductive step : State -> State -> Prop :=
(* the first [conn.Read] fails: the deferred cleanup runs *)
| initial_read_failed st :
    phase st = AwaitInitial ->
    step st {| phase := Returned; isSSH := isSSH st; reads := reads st;
               senders := senders st; handed := handed st; errCh := errCh st |}
(* the first read returns no byte and no error *)
| initial_read_empty st :
    phase st = AwaitInitial ->
    step st {| phase := Streaming; isSSH := false; reads := reads st;
               senders := senders st; handed := handed st; errCh := errCh st |}
(* the first chunk is read and sent inline within the 5 attempts *)
| initial_sent st chunk :
    phase st = AwaitInitial -> fits chunk 8192 ->
    step st {| phase := Streaming; isSSH := detectSSH chunk;
               reads := reads st ++ [chunk]; senders := senders st;
               handed := handed st ++ [chunk]; errCh := errCh st |}
(* the first chunk is read and all 5 attempts to send it fail *)
| initial_send_failed st chunk :
    phase st = AwaitInitial -> fits chunk 8192 ->
    step st {| phase := Returned; isSSH := detectSSH chunk;
               reads := reads st ++ [chunk]; senders := senders st;
               handed := handed st; errCh := errCh st |}
(* a later read returns a chunk: a sender goroutine is started with a copy *)
| read_chunk st chunk :
    phase st = Streaming -> fits chunk (actualBufferSize (isSSH st)) ->
    step st {| phase := Streaming; isSSH := isSSH st;
               reads := reads st ++ [chunk];
               senders := senders st ++ [DataSender chunk];
               handed := handed st; errCh := errCh st |}
(* EOF or a read error that is not a timeout *)
| read_ended st :
    phase st = Streaming ->
    step st {| phase := Returned; isSSH := isSSH st; reads := reads st;
               senders := senders st; handed := handed st; errCh := errCh st |}
(* the ticker fires on an idle SSH connection *)
| keepalive st :
    phase st = Streaming -> isSSH st = true ->
    step st {| phase := Streaming; isSSH := isSSH st; reads := reads st;
               senders := senders st ++ [KeepaliveSender];
               handed := handed st; errCh := errCh st |}
(* some sender goroutine gets its frame accepted by the session *)
| sender_sent st before s after :
    senders st = before ++ s :: after ->
    step st {| phase := phase st; isSSH := isSSH st; reads := reads st;
               senders := before ++ after;
               handed := handed st ++ [payloadOf s]; errCh := errCh st |}
(* some data sender exhausts its retries and reports on [errCh] *)
| sender_failed st before data after :
    senders st = before ++ DataSender data :: after ->
    step st {| phase := phase st; isSSH := isSSH st; reads := reads st;
               senders := before ++ after;
               handed := handed st; errCh := true |}
(* a keepalive sender fails: the error is only logged *)
| keepalive_failed st before after :
    senders st = before ++ KeepaliveSender :: after ->
    step st {| phase := phase st; isSSH := isSSH st; reads := reads st;
               senders := before ++ after;
               handed := handed st; errCh := errCh st |}
(* the forwarder receives from [errCh] and returns *)
| error_seen st :
    phase st = Streaming -> errCh st = true ->
    step st {| phase := Returned; isSSH := isSSH st; reads := reads st;
               senders := senders st; handed := handed st; errCh := false |}.

(** States the forwarder can be in, starting from [init]. *)
Inductive reachable : State -> Prop :=
| reach_init : reachable init
| reach_step st st' : reachable st -> step st st' -> reachable st'.

End Forwarder.

(** ** The Direct-TCP tunnel (internal/infrastructure/transport/direct_tunnel.go) *)

Module Direct.
Import GoStrings Eff.
Local Open Scope eff_scope.

Inductive Event :=
| Listen (port : Z)
| DialServer (addr : string) (timeout : Z)
| WriteConn (sock : nat) (data : string)
| ReadConn (sock : nat) (bufferSize : Z) (deadline : Z)
| CloseConn (sock : nat)
| CloseListener (l : nat)
| Sleep (d : Z)
| Callback (port : Z)            (* t.portChangeCallback(port) *)
| SpawnAcceptLoop (l : nat)
| SpawnControlLoop.

Record DirectTunnel := {
  localAddr : string; serverAddr : string; targetAddr : string;
  localPort : Z; remotePort : Z; controlPort : Z;
  listener : option nat;
  connection : option nat;
  stopped : bool;
  mutex : bool;                   (* true while some goroutine holds it *)
  portChangeCallback : bool;      (* true when the callback is not nil *)
  authEnabled : bool; authToken : string;
  events : list Event }.

Definition NewDirectTunnel (localAddr serverAddr targetAddr : string)
    (localPort remotePort controlPort : Z) (authEnabled : bool)
    (authToken : string) : DirectTunnel :=
  {| localAddr := localAddr; serverAddr := serverAddr; targetAddr := targetAddr;
     localPort := localPort; remotePort := remotePort; controlPort := controlPort;
     listener := None; connection := None; stopped := false; mutex := false;
     portChangeCallback := false; authEnabled := authEnabled;
     authToken := authToken; events := [] |}.

Definition set_remotePort (v : Z) (t : DirectTunnel) : DirectTunnel :=
  {| localAddr := localAddr t; serverAddr := serverAddr t; targetAddr := targetAddr t;
     localPort := localPort t; remotePort := v; controlPort := controlPort t;
     listener := listener t; connection := connection t; stopped := stopped t;
     mutex := mutex t; portChangeCallback := portChangeCallback t;
     authEnabled := authEnabled t; authToken := authToken t; events := events t |}.
Definition set_listener (v : option nat) (t : DirectTunnel) : DirectTunnel :=
  {| localAddr := localAddr t; serverAddr := serverAddr t; targetAddr := targetAddr t;
     localPort := localPort t; remotePort := remotePort t; controlPort := controlPort t;
     listener := v; connection := connection t; stopped := stopped t;
     mutex := mutex t; portChangeCallback := portChangeCallback t;
     authEnabled := authEnabled t; authToken := authToken t; events := events t |}.
Definition set_connection (v : option nat) (t : DirectTunnel) : DirectTunnel :=
  {| localAddr := localAddr t; serverAddr := serverAddr t; targetAddr := targetAddr t;
     localPort := localPort t; remotePort := remotePort t; controlPort := controlPort t;
     listener := listener t; connection := v; stopped := stopped t;
     mutex := mutex t; portChangeCallback := portChangeCallback t;
     authEnabled := authEnabled t; authToken := authToken t; events := events t |}.
Definition set_stopped (v : bool) (t : DirectTunnel) : DirectTunnel :=
  {| localAddr := localAddr t; serverAddr := serverAddr t; targetAddr := targetAddr t;
     localPort := localPort t; remotePort := remotePort t; controlPort := controlPort t;
     listener := listener t; connection := connection t; stopped := v;
     mutex := mutex t; portChangeCallback := portChangeCallback t;
     authEnabled := authEnabled t; authToken := authToken t; events := events t |}.
Definition set_mutex (v : bool) (t : DirectTunnel) : DirectTunnel :=
  {| localAddr := localAddr t; serverAddr := serverAddr t; targetAddr := targetAddr t;
     localPort := localPort t; remotePort := remotePort t; controlPort := controlPort t;
     listener := listener t; connection := connection t; stopped := stopped t;
     mutex := v; portChangeCallback := portChangeCallback t;
     authEnabled := authEnabled t; authToken := authToken t; events := events t |}.
Definition set_portChangeCallback (v : bool) (t : DirectTunnel) : DirectTunnel :=
  {| localAddr := localAddr t; serverAddr := serverAddr t; targetAddr := targetAddr t;
     localPort := localPort t; remotePort := remotePort t; controlPort := controlPort t;
     listener := listener t; connection := connection t; stopped := stopped t;
     mutex := mutex t; portChangeCallback := v;
     authEnabled := authEnabled t; authToken := authToken t; events := events t |}.
Definition emit (e : Event) (t : DirectTunnel) : DirectTunnel :=
  {| localAddr := localAddr t; serverAddr := serverAddr t; targetAddr := targetAddr t;
     localPort := localPort t; remotePort := remotePort t; controlPort := controlPort t;
     listener := listener t; connection := connection t; stopped := stopped t;
     mutex := mutex t; portChangeCallback := portChangeCallback t;
     authEnabled := authEnabled t; authToken := authToken t;
     events := events t ++ [e] |}.

Inductive Error :=
| ErrAlreadyRunning                  (* tunnel sudah berjalan *)
| ErrListen                          (* failed to start listener on port *)
| ErrConnectServer                   (* failed to connect to server *)
| ErrSend                            (* failed to send data to server *)
| ErrRead                            (* failed to read response from server *)
| ErrUnexpected (response : string)  (* unexpected response from server *)
| ErrRestartBudget.                  (* the model's bound on restarts is used up *)

(** [t.mutex.Lock()] and [t.mutex.Unlock()]. *)
Definition lock : M DirectTunnel unit :=
  fun t => if mutex t then Blocked t else Ret tt (set_mutex true t).
Definition unlock : M DirectTunnel unit := modify (set_mutex false).

Definition SetPortChangeCallback : M DirectTunnel unit :=
  lock ;; modify (set_portChangeCallback true) ;; unlock.

(** What the outside answers during one run of [Start]'s body: the
    listener [net.Listen] returns, the socket [net.DialTimeout] returns,
    whether the registration line is written, the bytes [Read] puts in the
    buffer ([None] when it fails), and the raw value behind [rand.Intn]. *)
Record AttemptEnv := {
  listened : option nat;
  dialed : option nat;
  writeOk : bool;
  response : option string;
  random : Z }.

Definition millisecond : Z := Session.millisecond.
Definition second : Z := Session.second.

(** [rand.Intn(n)]: some value in [0, n). *)
Definition Intn (raw n : Z) : Z := raw mod n.

(** The registration line. *)
Definition registration (t : DirectTunnel) (trailer : string) : string :=
  if authEnabled t && negb (bool_decide (authToken t = EmptyString))
  then ("AUTH_TOKEN=" +:+ authToken t +:+ ":" +:+ targetAddr t +:+ ":"
          +:+ itoa (remotePort t) +:+ ":" +:+ trailer)%string
  else (targetAddr t +:+ ":" +:+ itoa (remotePort t) +:+ ":" +:+ trailer)%string.

(** [parts[1]] of [strings.Split(response, ":")] through [strconv.Atoi]. *)
Definition portOf (response : string) : option Z :=
  match Split (B response) (B ":") with
  | _ :: p :: _ => Atoi p
  | _ => None
  end.

(** The adoption of the server's port, as both [Start] and the control
    loop write it: lock, assign, call the callback if there is one,
    unlock. *)
Definition adoptPort (actualPort : Z) : M DirectTunnel unit :=
  lock ;;
  modify (set_remotePort actualPort) ;;
  t <- get ;;
  (if portChangeCallback t then modify (emit (Callback actualPort)) else ret tt) ;;
  unlock.

(** What [Start] does with the server's answer once it is known not to
    contain [ERROR]. *)
Definition afterResponse (l sock : nat) (resp : string)
  : M DirectTunnel (option Error) :=
  t <- get ;;
  accepted <-
    (if HasPrefix (B resp) (B "CONNECTED:") then
       match portOf resp with
       | Some actualPort =>
           if negb (actualPort =? remotePort t)
           then adoptPort actualPort ;; ret true
           else ret true
       | None => ret true
       end
     else ret (Contains (B resp) (B "CONNECTED"))) ;;
  if negb accepted
  then modify (emit (CloseConn sock)) ;; ret (Some (ErrUnexpected resp))
  else modify (set_listener (Some l)) ;;
       modify (emit (SpawnAcceptLoop l)) ;;
       modify (emit SpawnControlLoop) ;;
       ret None.

(** The body of [Start] between [Lock] and the deferred [Unlock];
    [restart] is the recursive call [t.Start()]. *)
Definition startBody (e : AttemptEnv) (restart : M DirectTunnel (option Error))
  : M DirectTunnel (option Error) :=
  t <- get ;;
  if bool_decide (listener t <> None) || bool_decide (connection t <> None)
  then ret (Some ErrAlreadyRunning)
  else
    modify (set_stopped false) ;;
    modify (emit (Listen (localPort t))) ;;
    match listened e with
    | None => ret (Some ErrListen)
    | Some l =>
        modify (emit (DialServer
                        (Registry.JoinHostPort (serverAddr t) (itoa (controlPort t)))
                        (10 * second))) ;;
        match dialed e with
        | None => modify (emit (CloseListener l)) ;; ret (Some ErrConnectServer)
        | Some sock =>
            modify (set_connection (Some sock)) ;;
            modify (emit (WriteConn sock (registration t "DIRECT_TCP_FORWARD"))) ;;
            if negb (writeOk e) then ret (Some ErrSend)
            else
              let actualBufferSize :=
                if Contains (B (targetAddr t)) (B ":22") then 65536 else 4096 in
              modify (emit (ReadConn sock actualBufferSize (15 * second))) ;;
              match response e with
              | None => ret (Some ErrRead)
              | Some resp =>
                  if Contains (B resp) (B "ERROR") then
                    modify (emit (CloseConn sock)) ;;
                    modify (emit (Sleep (500 * millisecond))) ;;
                    modify (set_remotePort (10000 + Intn (random e) 20000)) ;;
                    restart
                  else afterResponse l sock resp
              end
        end
    end.

(** [Start]: [envs] are the answers of the outside to the successive runs
    of the body; a restart needs the next one. *)
Fixpoint Start (envs : list AttemptEnv) : M DirectTunnel (option Error) :=
  lock ;;
  match envs with
  | [] => ret (Some ErrRestartBudget)
  | e :: envs' =>
      err <- startBody e (Start envs') ;;
      unlock ;;
      ret err
  end.

(** The handshake of the control loop goroutine once its answer contains
    [CONNECTED] (lines 306-327): the same adoption, run by a goroutine
    that does not hold the mutex. *)
Definition controlLoopAdopt (resp : string) : M DirectTunnel unit :=
  t <- get ;;
  if HasPrefix (B resp) (B "CONNECTED:") then
    match portOf resp with
    | Some actualPort =>
        if negb (actualPort =? remotePort t) then adoptPort actualPort else ret tt
    | None => ret tt
    end
  else ret tt.

End Direct.

(** ** The [tcp] command of the command-line front end *)

Module Cmd.
Import GoStrings.

(** The flags [--port], [--remote-port] and [--local-addr]. *)
Record Flags := { tcpLocalPort : Z; tcpRemotePort : Z; tcpLocalAddr : string }.

(** The dependency container: the shared configuration and the WebSocket
    client (nil in Direct-TCP mode). *)
Record Container := {
  Config : Session.Config;
  Client : option Session.Client }.

Definition set_Mode (m : Session.ConnectionMode) (cfg : Session.Config) : Session.Config :=
  {| Session.ServerAddress := Session.ServerAddress cfg;
     Session.ControlPort := Session.ControlPort cfg;
     Session.DataPort := Session.DataPort cfg;
     Session.AuthEnabled := Session.AuthEnabled cfg;
     Session.AuthToken := Session.AuthToken cfg;
     Session.AuthValidationURL := Session.AuthValidationURL cfg;
     Session.TLSEnabled := Session.TLSEnabled cfg;
     Session.TLSCert := Session.TLSCert cfg;
     Session.TLSKey := Session.TLSKey cfg;
     Session.BaseDomain := Session.BaseDomain cfg;
     Session.Mode := m |}.

Inductive Message :=
| MsgLocalPort            (* Error: Local port must be greater than 0 *)
| MsgTokenRequired        (* Authentication token is required ... *)
| MsgNoClient             (* Error: Client not available ... *)
| MsgConnectFailed        (* Error: Failed to connect to server *)
| MsgValidateFailed       (* Error: Failed to validate token *)
| MsgInvalidToken         (* Error: Invalid token *)
| MsgUnvalidated          (* Error: Invalid or unvalidated authentication token *)
| MsgLimitReached (used limit : Z) (* Error: Tunnel limit reached (used/limit) *)
| MsgInvalidLocalAddr     (* Error: Invalid local address format *)
| MsgCreateFailed.        (* Error: Failed to create tunnel *)

(** What the command does, in order. *)
Inductive Action :=
| Print (m : Message)
| HTTP (req : Auth.Request)                     (* a request of the validator *)
| ClientConnect                                 (* Container.Client.Connect() *)
| RunWithReconnect
| CreateTCPTunnel (config : Registry.TunnelConfig)  (* TunnelService.CreateTCPTunnel *)
| Exit (code : Z).                              (* os.Exit(code) *)

(** How a run of the command ends: [os.Exit], the wait for a signal once
    the tunnel is up, or a call on the client that never returns. *)
Inductive Outcome := Exited (code : Z) | Serving | Hung.

Definition isNetwork (a : Action) : bool :=
  match a with
  | HTTP _ | ClientConnect | RunWithReconnect | CreateTCPTunnel _ => true
  | Print _ | Exit _ => false
  end.

(** The outside of one run: the libraries of the validator and of the
    session, the answer to [Client.Connect], [net.SplitHostPort] on the
    local address, and whether [CreateTCPTunnel] succeeds. *)
Record World := {
  session : Session.World;
  connectEnv : Session.ConnectEnv;
  splitHost : string -> option string;
  createOk : Registry.TunnelConfig -> bool }.

Definition exit1 (trace : list Action) (m : Message) : list Action * Outcome :=
  (trace ++ [Print m; Exit 1], Exited 1).

(** The part of the command after the admission checks: the local
    address, the remote port and the call of [CreateTCPTunnel]. *)
Definition createTunnel (w : World) (f : Flags) (mode : Session.ConnectionMode)
    (client : option Session.Client) (trace : list Action) : list Action * Outcome :=
  let trace := match mode, client with
               | Session.ConnectionModeWebSocket, Some _ => trace ++ [RunWithReconnect]
               | _, _ => trace
               end in
  let localHost :=
    match splitHost w (tcpLocalAddr f) with
    | Some host => Some (if decide (host = EmptyString) then "127.0.0.1"%string else host)
    | None => if negb (Contains (B (tcpLocalAddr f)) (B ":"))
              then Some (tcpLocalAddr f) else None
    end in
  match localHost with
  | None => exit1 trace MsgInvalidLocalAddr
  | Some localHost =>
      let remotePort :=
        if tcpRemotePort f =? 0 then
          match mode with
          | Session.ConnectionModeDirectTCP => 0
          | _ => tcpLocalPort f
          end
        else tcpRemotePort f in
      let tunnelConfig :=
        {| Registry.Name := EmptyString; Registry.Type_ := Registry.TunnelTypeTCP;
           Registry.LocalPort := tcpLocalPort f; Registry.LocalAddr := localHost;
           Registry.Subdomain := EmptyString; Registry.RemotePort := remotePort |} in
      let trace := trace ++ [CreateTCPTunnel tunnelConfig] in
      if createOk w tunnelConfig then (trace, Serving)
      else exit1 trace MsgCreateFailed
  end.

(** The quota check of the command on the validated user data. *)
Definition limitReached (userData : Auth.AuthData) : bool :=
  let tunnels := Auth.Tunnels (Auth.Limits (Auth.Subscription_ userData)) in
  Auth.Reached tunnels || (Auth.Limit tunnels <=? Auth.Used tunnels).

Definition checkLimits (w : World) (f : Flags) (mode : Session.ConnectionMode)
    (client : option Session.Client) (userData : option Auth.AuthData)
    (trace : list Action) : list Action * Outcome :=
  match userData with
  | None => exit1 trace MsgUnvalidated
  | Some userData =>
      if limitReached userData then
        let tunnels := Auth.Tunnels (Auth.Limits (Auth.Subscription_ userData)) in
        exit1 trace (MsgLimitReached (Auth.Used tunnels) (Auth.Limit tunnels))
      else createTunnel w f mode client trace
  end.


(** The validation URL of the command in Direct-TCP mode. *)
Definition tcpValidationURL (cfg : Session.Config) : string :=
  if decide (Session.AuthValidationURL cfg = EmptyString)
  then ("https://" +:+ Session.ServerAddress cfg +:+ "/AuthToken/validate")%string
  else Session.AuthValidationURL cfg.

(** [Container.Config] after the command has forced the mode to Direct-TCP. *)
Definition forced (cfg : Session.Config) : Session.Config :=
  match Session.Mode cfg with
  | Session.ConnectionModeDirectTCP => cfg
  | _ => set_Mode Session.ConnectionModeDirectTCP cfg
  end.

Definition isDirectTCP (m : Session.ConnectionMode) : bool :=
  match m with Session.ConnectionModeDirectTCP => true | _ => false end.

(** [tcpCmd.Run]. *)
Definition tcpCmd (w : World) (f : Flags) (c : Container) : list Action * Outcome :=
  if tcpLocalPort f <=? 0 then exit1 [] MsgLocalPort
  else
    (* always force DirectTCP mode for TCP tunnels *)
    let cfg := forced (Config c) in
    let mode := Session.Mode cfg in
    if Session.AuthEnabled cfg || isDirectTCP mode then
      if decide (Session.AuthToken cfg = EmptyString) then exit1 [] MsgTokenRequired
      else
        match mode with
        | Session.ConnectionModeWebSocket =>
            match Client c with
            | None => exit1 [] MsgNoClient
            | Some client =>
                match Session.IsConnected client with
                | Eff.Blocked _ => ([], Hung)
                | Eff.Ret true client =>
                    checkLimits w f mode (Some client) (Session.GetUserData client) []
                | Eff.Ret false client =>
                    match Session.Connect (session w) (connectEnv w) client with
                    | Eff.Blocked _ => ([ClientConnect], Hung)
                    | Eff.Ret (Some _) _ => exit1 [ClientConnect] MsgConnectFailed
                    | Eff.Ret None client =>
                        checkLimits w f mode (Some client)
                          (Session.GetUserData client) [ClientConnect]
                    end
                end
            end
        | _ =>
            let validationURL := tcpValidationURL cfg in
            let '(reqs, res) :=
              Auth.ValidateTokenWithResponse (Session.auth (session w))
                (Auth.NewAuthService validationURL) (Session.AuthToken cfg) in
            let trace := map HTTP reqs in
            match res with
            | inl _ => exit1 trace MsgValidateFailed
            | inr response =>
                if negb (Auth.isSuccess response) then exit1 trace MsgInvalidToken
                else checkLimits w f mode (Client c) (Some (Auth.Data response)) trace
            end
        end
    else createTunnel w f mode (Client c) [].

End Cmd.


(** ** The Direct-TCP tunnel: stopping, and the control connection
    (internal/infrastructure/transport/direct_tunnel.go, continued) *)

Module DirectControl.
Import GoStrings Eff Direct.
Local Open Scope eff_scope.

(** [Stop] *)
Definition Stop : M DirectTunnel unit :=
  lock ;;
  modify (set_stopped true) ;;
  t <- get ;;
  (match listener t with
   | Some l => modify (emit (CloseListener l)) ;; modify (set_listener None)
   | None => ret tt
   end) ;;
  t <- get ;;
  (match connection t with
   | Some sock => modify (emit (CloseConn sock)) ;; modify (set_connection None)
   | None => ret tt
   end) ;;
  unlock.

(** [isStopped] *)
Definition isStopped : M DirectTunnel bool :=
  lock ;; t <- get ;; unlock ;; ret (stopped t).

(** What [handleControlConnection] does to its two sockets.  It reads and
    writes no field of the tunnel. *)
Inductive ControlEvent :=
| Read (sock : nat) (bufferSize : Z)
| DialTarget (addr : string) (timeout : Z)
| Reply (sock : nat) (data : string)
| BidirectionalCopy (conn1 conn2 : nat)
| Close (sock : nat).

(** The outside during one run: the bytes read from the control connection
    ([None] when the read fails), the socket the dial of the target returns
    ([None] when it fails) and the text of the dial error. *)
Record ControlEnv := {
  request : option string;
  targetDialed : option nat;
  dialError : string }.

(** [handleControlConnection(controlConn)]; the deferred closes run last,
    the target's before the control connection's. *)
Definition handleControlConnection (e : ControlEnv) (controlConn : nat)
  : list ControlEvent :=
  Read controlConn 1024 ::
  match request e with
  | None => [Close controlConn]
  | Some request =>
      if HasPrefix (B request) (B "CONNECT:") then
        match Split (B request) (B ":") with
        | _ :: targetAddr :: targetPort :: _ =>
            let targetAddrFull :=
              Registry.JoinHostPort (string_of_list_ascii targetAddr)
                (string_of_list_ascii targetPort) in
            DialTarget targetAddrFull (10 * second) ::
            match targetDialed e with
            | None =>
                [Reply controlConn ("ERROR:" +:+ dialError e); Close controlConn]
            | Some targetConn =>
                [Reply controlConn "OK"; BidirectionalCopy controlConn targetConn;
                 Close targetConn; Close controlConn]
            end
        | _ => [Reply controlConn "ERROR:Invalid request format"; Close controlConn]
        end
      else [Reply controlConn "ERROR:Unknown request"; Close controlConn]
  end.

End DirectControl.

(** ** The tunnel model (internal/domain/model/tunnel.go) *)

Module TunnelModel.
Import Registry.

Definition NewTunnel (id : string) (config : TunnelConfig) : Tunnel :=
  {| ID := id; Config := config; URL := EmptyString; TunnelRemotePort := 0;
     Active := false |}.

Definition SetHTTPInfo (url : string) (t : Tunnel) : Tunnel :=
  {| ID := ID t; Config := Config t; URL := url;
     TunnelRemotePort := TunnelRemotePort t; Active := true |}.

Definition SetTCPInfo (remotePort : Z) (t : Tunnel) : Tunnel :=
  {| ID := ID t; Config := Config t; URL := URL t;
     TunnelRemotePort := remotePort; Active := true |}.

Definition set_RemotePort (v : Z) (c : TunnelConfig) : TunnelConfig :=
  {| Name := Name c; Type_ := Type_ c; LocalPort := LocalPort c;
     LocalAddr := LocalAddr c; Subdomain := Subdomain c; RemotePort := v |}.

End TunnelModel.

(** ** The registry of Direct-TCP tunnels ([directTunnelRepository]) *)

Module DirectRepo.
Import GoStrings Eff Registry TunnelModel.
Local Open Scope eff_scope.

(** [tunnels] maps an id to the tunnel [Register] stored; [dropped] keeps
    the tunnels [Register] created, started and returned without storing
    (nothing refers to them any more, their sockets are what they are). *)
Record directTunnelRepository := {
  config : Session.Config;
  tunnels : gmap string Direct.DirectTunnel;
  dropped : list Direct.DirectTunnel }.

Inductive Error :=
| ErrNotConfigured                   (* server address and control port must be set *)
| ErrStart (err : Direct.Error)      (* the error of [dt.Start()] *)
| ErrTunnelNotFound.                 (* tunnel not found *)

(** [NewDirectTunnelRepository] *)
Definition NewDirectTunnelRepository (cfg : Session.Config)
  : Error + directTunnelRepository :=
  if bool_decide (Session.ServerAddress cfg = EmptyString)
     || (Session.ControlPort cfg =? 0)
  then inl ErrNotConfigured
  else inr {| config := cfg; tunnels := ∅; dropped := [] |}.

(** [generateRandomInt(min, max)] at clock value [now] (Unix nanoseconds);
    Go's [%] truncates towards zero. *)
Definition generateRandomInt (now min max : Z) : Z :=
  min + Z.rem now (max - min + 1).

(** [generateID()] *)
Definition generateID (now : Z) : string := ("tunnel-" +:+ itoa now)%string.

(** [CreateTunnel] *)
Definition CreateTunnel (now : Z) (r : directTunnelRepository)
    (localPort remotePort : Z) (targetHost : string) (targetPort : Z)
  : Direct.DirectTunnel :=
  let targetAddr := (targetHost +:+ ":" +:+ itoa targetPort)%string in
  let remotePort :=
    if remotePort =? 0 then generateRandomInt now 10000 30000 else remotePort in
  let localAddr := ("127.0.0.1:" +:+ itoa localPort)%string in
  Direct.NewDirectTunnel localAddr (Session.ServerAddress (config r)) targetAddr
    localPort remotePort (Session.ControlPort (config r))
    (Session.AuthEnabled (config r)) (Session.AuthToken (config r)).

(** The outside during one [Register]: the four readings of the clock (for
    the random remote port, the id, the random listener port, and
    [CreateTunnel]'s own random port) and the answers to [Start]. *)
Record RegisterEnv := {
  nowPort : Z; nowID : Z; nowListener : Z; nowCreate : Z;
  attempts : list Direct.AttemptEnv }.

(** [Register] *)
Definition Register (e : RegisterEnv) (config : TunnelConfig)
  : M directTunnelRepository (Error + Tunnel) :=
  fun r =>
    let config :=
      if RemotePort config =? 0
      then set_RemotePort (generateRandomInt (nowPort e) 10000 30000) config
      else config in
    let tunnel := SetTCPInfo (RemotePort config) (NewTunnel (generateID (nowID e)) config) in
    let localListenerPort := 6000 + LocalPort config in
    let localListenerPort :=
      if (localListenerPort <? 1024) || (65535 <? localListenerPort)
      then generateRandomInt (nowListener e) 3000 9000
      else localListenerPort in
    let dt := CreateTunnel (nowCreate e) r localListenerPort (RemotePort config)
                "127.0.0.1" (LocalPort config) in
    match Direct.Start (attempts e) dt with
    | Blocked dt' =>
        Blocked {| DirectRepo.config := DirectRepo.config r; tunnels := tunnels r;
                   dropped := dropped r ++ [dt'] |}
    | Ret (Some err) dt' =>
        Ret (inl (ErrStart err))
          {| DirectRepo.config := DirectRepo.config r; tunnels := tunnels r;
             dropped := dropped r ++ [dt'] |}
    | Ret None dt' =>
        let tunnel :=
          if negb (Direct.remotePort dt' =? RemotePort config)
          then {| ID := ID tunnel;
                  Config := set_RemotePort (Direct.remotePort dt') (Config tunnel);
                  URL := URL tunnel; TunnelRemotePort := Direct.remotePort dt';
                  Active := Active tunnel |}
          else tunnel in
        Ret (inr tunnel)
          {| DirectRepo.config := DirectRepo.config r;
             tunnels := <[ID tunnel := dt']> (tunnels r); dropped := dropped r |}
    end.

(** [Unregister] *)
Definition Unregister (tunnelID : string) : M directTunnelRepository (option Error) :=
  fun r =>
    match tunnels r !! tunnelID with
    | Some dt =>
        match DirectControl.Stop dt with
        | Ret _ dt' =>
            Ret None {| config := config r; tunnels := delete tunnelID (tunnels r);
                        dropped := dropped r ++ [dt'] |}
        | Blocked dt' =>
            Blocked {| config := config r; tunnels := <[tunnelID := dt']> (tunnels r);
                       dropped := dropped r |}
        end
    | None => Ret (Some ErrTunnelNotFound) r
    end.

(** [GetByID]; [splitHost] stands for [net.SplitHostPort], [None] for its
    error. *)
Definition GetByID (splitHost : string -> option string) (tunnelID : string)
    (r : directTunnelRepository) : option Tunnel :=
  match tunnels r !! tunnelID with
  | Some tunnel =>
      let host := match splitHost (Direct.targetAddr tunnel) with
                  | Some host => host
                  | None => "127.0.0.1"%string
                  end in
      Some {| ID := tunnelID;
              Config := {| Name := EmptyString; Type_ := TunnelTypeTCP;
                           LocalPort := Direct.localPort tunnel; LocalAddr := host;
                           Subdomain := EmptyString;
                           RemotePort := Direct.remotePort tunnel |};
              URL := EmptyString; TunnelRemotePort := Direct.remotePort tunnel;
              Active := true |}
  | None => None
  end.

End DirectRepo.


(** ** The HTTP request handler of the session
    (internal/infrastructure/transport/client_http.go, [HandleHTTPRequestMessage]) *)

Module HTTPProxy.
Import GoStrings HTMLRewrite.

(** model/http_request.go; the fields of the response are prefixed with
    [Resp] where the request has a field of the same name. *)
Record HTTPRequest := {
  ID : string; TunnelID : string; Method : string; URL : string;
  Headers : gmap string (list string); Body : bytes;
  LocalPort : Z; RemoteAddr : string; Scheme : string }.

Record HTTPResponse := {
  RespID : string; StatusCode : Z; RespHeaders : gmap string (list string);
  RespBody : bytes; Error : string }.

(** What the local service does with the forwarded request. *)
Inductive LocalAnswer :=
| NewRequestFailed (err : string)          (* http.NewRequest returns an error *)
| DoFailed (err : string)                  (* client.Do returns an error *)
| ReadFailed (err : string)                (* io.ReadAll(resp.Body) returns an error *)
| Answered (status : Z) (headers : gmap string (list string)) (body : bytes).

Definition StatusInternalServerError : Z := 500.

(** The URL of the local request: always plain HTTP on localhost. *)
Definition targetURL (request : HTTPRequest) : string :=
  ("http" +:+ "://localhost:" +:+ itoa (LocalPort request) +:+ URL request)%string.

(** The response [sendHTTPErrorResponse] builds. *)
Definition errorResponse (requestID err : string) : HTTPResponse :=
  {| RespID := requestID; StatusCode := StatusInternalServerError; RespHeaders := ∅;
     RespBody := []; Error := err |}.

(** [HandleHTTPRequestMessage] up to the response it hands to
    [sendHTTPResponse]; [request] is the result of
    [msg.ParseHTTPRequestPayload()] ([None] for its error, after which
    nothing is sent) and [subdomain] the session's [GetSubdomain()]. *)
Definition HandleHTTPRequestMessage (subdomain : string)
    (request : option HTTPRequest) (answer : LocalAnswer) : option HTTPResponse :=
  match request with
  | None => None
  | Some request =>
      match answer with
      | NewRequestFailed err => Some (errorResponse (ID request) err)
      | DoFailed err => Some (errorResponse (ID request) err)
      | ReadFailed err => Some (errorResponse (ID request) err)
      | Answered status headers body =>
          let contentType := firstHeader headers "Content-Type" in
          let body :=
            if Contains (B contentType) (B "text/html")
            then rewriteBody (LocalPort request) (Scheme request)
                   (deriveHostname (Headers request) subdomain (TunnelID request)) body
            else body in
          Some {| RespID := ID request; StatusCode := status; RespHeaders := headers;
                  RespBody := body; Error := EmptyString |}
      end
  end.

End HTTPProxy.


(** ** The retry loops of the forwarder ([sendDataWithRetry] and the
    sending of the initial chunk in [handleConnection]) and [maskString] *)

Module Retry.
Import GoStrings.

(** What a retry loop does: a call of [Client.SendData], a sleep, a call
    of [rand.Int63n] with the bound [n]. *)
Inductive Event :=
| Send (attempt : nat)
| Sleep (d : Z)
| Int63n (n : Z).

(** How the loop ends: [nil], the error after the last attempt, or the
    panic of [rand.Int63n] on a bound that is not positive. *)
Inductive Outcome := Sent | GaveUp | Panicked.

Definition millisecond : Z := Session.millisecond.
Definition second : Z := Session.second.

(** [time.Duration(float64(d) * 1.5)], exact below 2^52: the product is
    truncated towards zero. *)
Definition times1_5 (d : Z) : Z := Z.quot (d * 3) 2.

(** [sendDataWithRetry]: [sendOk attempt] tells whether [SendData] returns
    [nil] at that attempt, [raw attempt] is the value behind
    [rand.Int63n]; [left] is [maxRetries - attempt]. *)
Fixpoint sendDataWithRetry (sendOk : nat -> bool) (raw : nat -> Z)
    (left attempt : nat) (backoff maxBackoff : Z) : list Event * Outcome :=
  match left with
  | O => ([], GaveUp)
  | S left' =>
      if sendOk attempt then ([Send attempt], Sent)
      else
        let slept := backoff in
        let backoff := times1_5 backoff in
        let backoff := if maxBackoff <? backoff then maxBackoff else backoff in
        let n := Z.quot backoff 2 in
        if n <=? 0 then ([Send attempt; Sleep slept; Int63n n], Panicked)
        else
          let jitter := raw attempt mod n + Z.quot backoff 2 in
          let backoff := if 0 <? jitter then jitter else backoff in
          let '(evs, out) :=
            sendDataWithRetry sendOk raw left' (S attempt) backoff maxBackoff in
          (Send attempt :: Sleep slept :: Int63n n :: evs, out)
  end.

(** The loop that sends the initial chunk in [handleConnection]:
    [maxRetries] 5, [baseDelay] 50 ms, [maxDelay] 2 s;
    [float64(baseDelay) * math.Pow(2, attempt)] is exact. *)
Fixpoint sendInitial (sendOk : nat -> bool) (raw : nat -> Z) (left attempt : nat)
  : list Event * Outcome :=
  match left with
  | O => ([], GaveUp)
  | S left' =>
      if sendOk attempt then ([Send attempt], Sent)
      else
        let delay := 50 * millisecond * 2 ^ Z.of_nat attempt in
        let delay := if 2 * second <? delay then 2 * second else delay in
        if delay <=? 0 then ([Send attempt; Int63n delay], Panicked)
        else
          let jitter := raw attempt mod delay + Z.quot delay 2 in
          let slept := if 0 <? jitter then jitter else delay in
          let '(evs, out) := sendInitial sendOk raw left' (S attempt) in
          (Send attempt :: Int63n delay :: Sleep slept :: evs, out)
  end.

End Retry.

(** ** [maskString] of the [config show] command *)

Module Mask.
Import GoStrings.

Definition maskString (s : bytes) : bytes :=
  if (Z.of_nat (length s) <=? 4) then B "****"
  else firstn 2 s ++ B "****" ++ skipn (length s - 2) s.

End Mask.


(** * Properties *)

(** ** Vocabulary of the statements *)

Module Words.
Import GoStrings HTMLRewrite.

(** One of the two words is a prefix of the other. *)
Definition comparable (a b : bytes) : bool := HasPrefix a b || HasPrefix b a.

(** Some non-empty suffix of [a] is a prefix of [b] or begins with [b]: in
    some text an occurrence of [a] and an occurrence of [b] share a byte,
    the one of [a] starting first or together with the one of [b]. *)
Fixpoint overlaps (a b : bytes) : bool :=
  match a with
  | [] => false
  | _ :: a' => comparable a b || overlaps a' b
  end.

(** No occurrence of [p] can share a byte with an occurrence of [n]. *)
Definition apart (p n : bytes) : bool := negb (overlaps p n) && negb (overlaps n p).

(** The four search strings of the rewriting keep apart from the strings
    it inserts. *)
Definition rewriteSafe (localPort : Z) (scheme hostname : string) : bool :=
  let t := tunnelURLPrefix scheme hostname in
  let p1 := localURLPrefix localPort in
  let p2 := localURLPrefixSecure localPort in
  apart p1 t && apart p2 t
  && apart p1 (hrefNew t) && apart p2 (hrefNew t) && apart hrefOld (hrefNew t)
  && apart p1 (srcNew t) && apart p2 (srcNew t) && apart hrefOld (srcNew t)
  && apart srcOld (srcNew t).

End Words.

Module SessionRuns.
Import Eff Session.

(** The calls a program makes on one session. *)
Inductive Op :=
| OpSend (writeOk : bool) (msg : Message)
| OpIsConnected
| OpClose
| OpConnect (e : ConnectEnv).

Inductive Outcome :=
| SendReturned (err : option Error)
| IsConnectedReturned (b : bool)
| CloseReturned
| ConnectReturned (err : option Error).

Definition runOp (w : World) (op : Op) : M Client Outcome :=
  match op with
  | OpSend writeOk msg => bind (sendMessage w writeOk msg) (fun e => ret (SendReturned e))
  | OpIsConnected => bind IsConnected (fun b => ret (IsConnectedReturned b))
  | OpClose => bind Close (fun _ => ret CloseReturned)
  | OpConnect e => bind (Connect w e) (fun e => ret (ConnectReturned e))
  end.




End SessionRuns.

Module RegistrySpec.
Import GoStrings Eff Session Registry.


(** The registry after more events, everything else as before. *)
Definition withEvents (evs : list Event) (r : TunnelRepository) : TunnelRepository :=
  {| client := client r; tunnels := tunnels r; connections := connections r;
     events := events r ++ evs |}.

Fixpoint writesOf (evs : list Event) : list (nat * bytes) :=
  match evs with
  | [] => []
  | Write sock data :: evs' => (sock, data) :: writesOf evs'
  | _ :: evs' => writesOf evs'
  end.

Fixpoint deadlinesOf (evs : list Event) : list (option Z) :=
  match evs with
  | [] => []
  | SetWriteDeadline _ d :: evs' => d :: deadlinesOf evs'
  | _ :: evs' => deadlinesOf evs'
  end.

Fixpoint sleepsOf (evs : list Event) : list Z :=
  match evs with
  | [] => []
  | Sleep d :: evs' => d :: sleepsOf evs'
  | _ :: evs' => sleepsOf evs'
  end.

Fixpoint closesOf (evs : list Event) : list nat :=
  match evs with
  | [] => []
  | CloseSock sock :: evs' => sock :: closesOf evs'
  | _ :: evs' => closesOf evs'
  end.


(** The number of writes that fail before the first one that succeeds,
    among the [count] writes from number [from] on. *)
Fixpoint leadingFailures (wr : WriteOracle) (from count : nat) : nat :=
  match count with
  | O => O
  | S count' => if snd (wr from) then S (leadingFailures wr (S from) count') else O
  end.

End RegistrySpec.

Module DirectSpec.
Import Direct.

(** The arguments of the port-change callback calls, in call order. *)
Fixpoint callbacksOf (evs : list Event) : list Z :=
  match evs with
  | [] => []
  | Callback port :: evs' => port :: callbacksOf evs'
  | _ :: evs' => callbacksOf evs'
  end.

(** The lines written to the server, in order. *)
Fixpoint linesOf (evs : list Event) : list string :=
  match evs with
  | [] => []
  | WriteConn _ data :: evs' => data :: linesOf evs'
  | _ :: evs' => linesOf evs'
  end.

End DirectSpec.

(** ** Sample inputs *)

Module Samples.
Import Eff Session Registry.

(** A registry with one tunnel on a connected session. *)
Definition sampleWorld : World :=
  {| auth := {| Auth.newRequestOk := fun _ => true; Auth.formEncode := fun t => t;
                Auth.roundTrip := fun _ => Auth.NoReply "offline";
                Auth.json_Valid := fun _ => false;
                Auth.json_Unmarshal := fun _ => None |};
     payloadMarshals := fun _ => true; messageMarshals := fun _ => true;
     loadX509KeyPair := fun _ _ => true; urlParses := fun _ => true |}.

Definition sampleConfig : Session.Config :=
  {| ServerAddress := "relay.example.net"; ControlPort := 443; DataPort := 0;
     AuthEnabled := false; AuthToken := EmptyString; AuthValidationURL := EmptyString;
     TLSEnabled := true; TLSCert := EmptyString; TLSKey := EmptyString;
     BaseDomain := "example.net"; Mode := ConnectionModeWebSocket |}.

Definition sampleTunnel : Tunnel :=
  {| ID := "t1";
     Registry.Config :=
       {| Name := "web"; Registry.Type_ := TunnelTypeTCP; LocalPort := 22;
          LocalAddr := "127.0.0.1"; Subdomain := EmptyString; RemotePort := 20000 |};
     URL := EmptyString; TunnelRemotePort := 20000; Active := true |}.

Definition sampleRegistry : TunnelRepository :=
  set_tunnels (<["t1"%string := sampleTunnel]> ∅)
    (NewTunnelRepository
       (set_isConnected true (set_conn (Some 1%nat) (NewClient sampleConfig)))).

(** The same registry with the local socket 7 of connection [c1]. *)
Definition sampleConnected : TunnelRepository :=
  set_connections (<["c1"%string := 7%nat]> ∅) sampleRegistry.

(** A local socket on which every write fails, and one that accepts all. *)
Definition failingWrites : WriteOracle := fun _ => (0, true).
Definition acceptingWrites (data : GoStrings.bytes) : WriteOracle :=
  fun _ => (Z.of_nat (length data), false).


(** A Direct-TCP tunnel for a local SSH server, requesting remote port
    20000, with a port-change callback registered. *)
Definition sampleDirect : Direct.DirectTunnel :=
  Direct.set_portChangeCallback true
    (Direct.NewDirectTunnel "127.0.0.1:6022" "relay.example.net" "127.0.0.1:22"
       6022 20000 7000 true "hxp_token").

(** A server that accepts the connection and answers [resp]. *)
Definition answering (resp : string) : Direct.AttemptEnv :=
  {| Direct.listened := Some 1%nat; Direct.dialed := Some 2%nat;
     Direct.writeOk := true; Direct.response := Some resp;
     Direct.random := 123456789 |}.

End Samples.

(** ** More vocabulary: the session *)

Module SessionSpec.
Import Eff Session.

(** The same answers of the network, with another outcome for the write of
    the [auth] frame. *)
Definition withAuthWrite (ok : bool) (e : ConnectEnv) : ConnectEnv :=
  {| dialed := dialed e; connectNow := connectNow e; authWriteOk := ok |}.

(** The [auth] frame [Connect] builds. *)
Definition authFrame (e : ConnectEnv) (c : Client) : Message :=
  {| Type_ := MessageTypeAuth; Version := "1.0.0"; Timestamp := connectNow e;
     MsgPayload := Some (AuthPayload (authToken (settings c))) |}.

(** The frame attempt [attempt] of [SendData] builds. *)
Definition dataFrame (env : nat -> Z * bool) (attempt : nat)
    (tunnelID connectionID : string) (data : GoStrings.bytes) : Message :=
  {| Type_ := MessageTypeData; Version := "1.0.0"; Timestamp := fst (env attempt);
     MsgPayload := Some (DataPayload tunnelID connectionID data) |}.

(** What [Connect] leaves behind, by the way it ends, on a session that was
    not connected. *)
Definition connectPost (e : ConnectEnv) (c : Client)
    (res : result Client (option Error)) : Prop :=
  match res with
  | Ret (Some _) c' =>
      isConnected c' = false /\ mutex c' = false
      /\ conn c' = conn c /\ trace c' = trace c
  | Ret None c' =>
      isConnected c' = true /\ mutex c' = false
      /\ exists k, dialed e = Some k /\ conn c' = Some k
                   /\ trace c' = trace c
                                 ++ (if authEnabled (settings c)
                                     then [Wrote k (authFrame e c)] else [])
  | Blocked c' =>
      isConnected c' = true /\ mutex c' = true
      /\ exists k, dialed e = Some k /\ conn c' = Some k /\ trace c' = trace c
  end.


(** The back-off delays of [n] failed attempts, starting from [backoff]. *)
Fixpoint delaysFrom (backoff : Z) (n : nat) : list Z :=
  match n with
  | O => []
  | S n' =>
      backoff :: delaysFrom (let b := backoff * 3 / 2 in
                             if 2 * second <? b then 2 * second else b) n'
  end.

(** The first back-off delays of [SendData]. *)
Definition backoffs : list Z :=
  [100 * millisecond; 150 * millisecond; 225 * millisecond].

(** What one [SendData] leaves behind: it returns with the mutex free and
    the socket as it was; it slept the first [n] back-off delays, one per
    failed attempt, and wrote the data frame of attempt [n] exactly when
    it returns [nil]. *)
Definition sendDataPost (env : nat -> Z * bool) (tunnelID connectionID : string)
    (data : GoStrings.bytes) (c : Client)
    (res : result Client (option Error)) : Prop :=
  match res with
  | Blocked _ => False
  | Ret err c' =>
      mutex c' = false /\ conn c' = conn c
      /\ exists n : nat,
           (n <= 3)%nat
           /\ match err with
              | None =>
                  (n < 3)%nat
                  /\ exists k, conn c = Some k
                       /\ trace c' = trace c ++ map Slept (take n backoffs)
                                       ++ [Wrote k (dataFrame env n tunnelID
                                                      connectionID data)]
              | Some _ => trace c' = trace c ++ map Slept (take n backoffs)
              end
  end.

End SessionSpec.

(** ** More vocabulary: the registry *)

Module RegistryDial.
Import GoStrings Eff Registry RegistrySpec.

(** The events of [k] failed dials of [addr], the first of them being
    attempt number [i]: each is followed by a sleep of 200 ms times the
    attempt's number counted from 1. *)
Fixpoint failedDials (addr : string) (i k : nat) : list Event :=
  match k with
  | O => []
  | S k' => Dial addr dialTimeout
            :: Sleep (Z.of_nat (i + 1) * 200 * millisecond)
            :: failedDials addr (S i) k'
  end.

(** The address [handleDataMessage] dials for a tunnel. *)
Definition localAddrOf (tunnel : Tunnel) : string :=
  JoinHostPort (LocalAddr (Config tunnel)) (itoa (LocalPort (Config tunnel))).

Fixpoint spawnsOf (evs : list Event) : list (string * string * nat) :=
  match evs with
  | [] => []
  | Spawn tunnelID connectionID sock :: evs' =>
      (tunnelID, connectionID, sock) :: spawnsOf evs'
  | _ :: evs' => spawnsOf evs'
  end.

End RegistryDial.

(** ** More vocabulary: the Direct-TCP tunnel *)

Module DirectRuns.
Import GoStrings Eff Direct DirectControl.

(** Neither a listener nor a server connection is installed. *)
Definition idle (t : DirectTunnel) : Prop := listener t = None /\ connection t = None.

(** The listeners and connections closed, in order. *)
Fixpoint closedListeners (evs : list Event) : list nat :=
  match evs with
  | [] => []
  | CloseListener l :: evs' => l :: closedListeners evs'
  | _ :: evs' => closedListeners evs'
  end.

Fixpoint closedConns (evs : list Event) : list nat :=
  match evs with
  | [] => []
  | CloseConn sock :: evs' => sock :: closedConns evs'
  | _ :: evs' => closedConns evs'
  end.

(** The tunnel with more events, everything else as it is. *)
Definition withEvents (evs : list Event) (t : DirectTunnel) : DirectTunnel :=
  {| localAddr := localAddr t; serverAddr := serverAddr t; targetAddr := targetAddr t;
     localPort := localPort t; remotePort := remotePort t; controlPort := controlPort t;
     listener := listener t; connection := connection t; stopped := stopped t;
     mutex := mutex t; portChangeCallback := portChangeCallback t;
     authEnabled := authEnabled t; authToken := authToken t;
     events := events t ++ evs |}.

(** The events of [Start] up to the registration line, and the read of
    the answer. *)
Definition dialEvents (t : DirectTunnel) : list Event :=
  [Listen (localPort t);
   DialServer (Registry.JoinHostPort (serverAddr t) (itoa (controlPort t)))
     (10 * second)].

Definition readEvent (t : DirectTunnel) (sock : nat) : Event :=
  ReadConn sock (if Contains (B (targetAddr t)) (B ":22") then 65536 else 4096)
    (15 * second).

(** The answers [Start] takes for a confirmation of the port it asked
    for: the answer names no port that parses, or names that very port. *)
Definition confirms (t : DirectTunnel) (resp : string) : bool :=
  negb (Contains (B resp) (B "ERROR"))
  && Contains (B resp) (B "CONNECTED")
  && (negb (HasPrefix (B resp) (B "CONNECTED:"))
      || match portOf resp with
         | Some actualPort => actualPort =? remotePort t
         | None => true
         end).




End DirectRuns.

(** ** More vocabulary: the registry of Direct-TCP tunnels *)

Module DirectRepoRuns.
Import GoStrings Eff Registry DirectRepo.

(** The tunnel a run of [Register] created and started: the one stored
    under the returned id, or the one dropped when [Start] failed or
    never returned. *)
Definition startedBy (res : result directTunnelRepository (Error + Tunnel))
  : option Direct.DirectTunnel :=
  match res with
  | Ret (inr tunnel) r' => tunnels r' !! ID tunnel
  | Ret (inl _) r' => last (dropped r')
  | Blocked r' => last (dropped r')
  end.

(** The remote port [Register] asks for, the port it listens on, and the
    tunnel it creates, as its body computes them. *)
Definition requestedPort (e : RegisterEnv) (cfg : TunnelConfig) : Z :=
  if RemotePort cfg =? 0 then generateRandomInt (nowPort e) 10000 30000
  else RemotePort cfg.

Definition listenerPort (e : RegisterEnv) (cfg : TunnelConfig) : Z :=
  let p := 6000 + LocalPort cfg in
  if (p <? 1024) || (65535 <? p) then generateRandomInt (nowListener e) 3000 9000
  else p.

Definition created (e : RegisterEnv) (cfg : TunnelConfig) (r : directTunnelRepository)
  : Direct.DirectTunnel :=
  CreateTunnel (nowCreate e) r (listenerPort e cfg) (requestedPort e cfg)
    "127.0.0.1" (LocalPort cfg).

(** An empty registry for the relay [relay.example.net:7000]. *)
Definition sampleRepo : directTunnelRepository :=
  {| config := {| Session.ServerAddress := "relay.example.net";
                  Session.ControlPort := 7000; Session.DataPort := 0;
                  Session.AuthEnabled := true; Session.AuthToken := "hxp_token";
                  Session.AuthValidationURL := EmptyString;
                  Session.TLSEnabled := true; Session.TLSCert := EmptyString;
                  Session.TLSKey := EmptyString; Session.BaseDomain := "example.net";
                  Session.Mode := Session.ConnectionModeDirectTCP |};
     tunnels := ∅; dropped := [] |}.

(** A request for a tunnel to the local SSH server, remote port left to
    the client. *)
Definition sampleSSH : TunnelConfig :=
  {| Name := "ssh"; Type_ := TunnelTypeTCP; LocalPort := 22;
     LocalAddr := "192.168.1.20"; Subdomain := EmptyString; RemotePort := 0 |}.

(** The clock and a server that answers [resp]. *)
Definition sampleRegister (resp : string) : RegisterEnv :=
  {| nowPort := 1700000000123456789; nowID := 1700000000123456999;
     nowListener := 1700000000123457000; nowCreate := 1700000000123457100;
     attempts := [Samples.answering resp] |}.

End DirectRepoRuns.

(** ** More vocabulary: the HTTP request handler *)

Module HTTPProxyRuns.
Import GoStrings HTMLRewrite HTTPProxy.

(** The four strings the rewriting of an HTML body searches for. *)
Definition searched (localPort : Z) : list bytes :=
  [localURLPrefix localPort; localURLPrefixSecure localPort; hrefOld; srcOld].

(** None of the strings of [ps] occurs in [body]. *)
Definition free (ps : list bytes) (body : bytes) : Prop :=
  Forall (fun p => Contains body p = false) ps.

(** The host name the handler uses for a request. *)
Definition hostnameOf (subdomain : string) (request : HTTPRequest) : string :=
  deriveHostname (Headers request) subdomain (TunnelID request).

(** A request of a visitor of [demo.example.net] for a service on port 8080. *)
Definition sampleRequest : HTTPRequest :=
  {| ID := "req-1"; TunnelID := "t1"; Method := "GET"; URL := "/";
     Headers := <["Host"%string := ["demo.example.net"%string]]> ∅; Body := [];
     LocalPort := 8080; RemoteAddr := "203.0.113.9:50000"; Scheme := "https" |}.

Definition htmlHeaders : gmap string (list string) :=
  <["Content-Type"%string := ["text/html; charset=utf-8"%string]]> ∅.

Definition samplePage : bytes :=
  B "<a href=" ++ dquote :: B "/x" ++ dquote :: B ">x</a><img src=" ++ dquote
    :: B "http://localhost:8080/y" ++ dquote :: B ">".

End HTTPProxyRuns.

(** ** More vocabulary: the forwarder *)

Module ForwarderSpec.
Import GoStrings Forwarder.

(** The payloads that carry data: the keepalive frame is empty. *)
Definition dataOf (payloads : list bytes) : list bytes :=
  filter (fun p => p <> []) payloads.

(** The chunks that are with the session or with a running sender. *)
Definition inFlight (st : State) : list bytes :=
  dataOf (handed st) ++ dataOf (map payloadOf (senders st)).

Definition isData (s : Sender) : Prop :=
  match s with DataSender _ => True | KeepaliveSender => False end.

End ForwarderSpec.

(** ** Sample inputs of the [tcp] command *)

Module CmdSamples.
Import GoStrings Cmd.






End CmdSamples.

(** ** More vocabulary: decimal text *)

Module DecimalText.
Import GoStrings.

(** A character that is neither the colon of the handshake lines nor the
    [E] of [ERROR]; the characters [%d] prints are of this kind. *)
Definition plain (c : ascii) : Prop := c <> ":"%char /\ c <> "E"%char.

(** The range of Go's [int] on a 64-bit platform. *)
Definition int64 (n : Z) : Prop := - 2 ^ 63 <= n < 2 ^ 63.

End DecimalText.

(** ** More vocabulary: the retry loops *)

Module RetrySpec.
Import GoStrings Retry.

Fixpoint sleepsOf (evs : list Event) : list Z :=
  match evs with
  | [] => []
  | Sleep d :: evs' => d :: sleepsOf evs'
  | _ :: evs' => sleepsOf evs'
  end.

(** The bounds [rand.Int63n] was called with. *)
Fixpoint boundsOf (evs : list Event) : list Z :=
  match evs with
  | [] => []
  | Int63n n :: evs' => n :: boundsOf evs'
  | _ :: evs' => boundsOf evs'
  end.

Fixpoint sendsOf (evs : list Event) : list nat :=
  match evs with
  | [] => []
  | Send attempt :: evs' => attempt :: sendsOf evs'
  | _ :: evs' => sendsOf evs'
  end.

(** The sleep after failed attempt [i] of the initial chunk lies between
    half and one and a half times [50 ms * 2^i]. *)
Definition jittered (i : nat) (d : Z) : Prop :=
  25 * millisecond * 2 ^ Z.of_nat i <= d < 75 * millisecond * 2 ^ Z.of_nat i.

(** A random source and a session on which every send fails. *)
Definition sampleRaw : nat -> Z := fun attempt => 987654321 * Z.of_nat (S attempt).
Definition neverSent : nat -> bool := fun _ => false.

End RetrySpec.

(** ** Go's string functions *)

Section StringFacts.
Import GoStrings Words.
Implicit Types s p q x y r old new : bytes.

Lemma HasPrefix_app s p : HasPrefix (p ++ s) p = true.
Proof. induction p as [|a p IH]; simpl; [done|]. by case_decide. Qed.

Lemma HasPrefix_inv s p : HasPrefix s p = true -> exists r, s = p ++ r.
Proof.
  revert s. induction p as [|a p IH]; intros s H; simpl in *.
  - by exists s.
  - destruct s as [|b s]; [done|]. case_decide; [|done]. subst.
    destruct (IH _ H) as [r ->]. by exists r.
Qed.

Lemma HasPrefix_nil s : HasPrefix s [] = true.
Proof. by destruct s. Qed.

Lemma HasPrefix_app_comparable x y p :
  HasPrefix (x ++ y) p = true -> comparable x p = true.
Proof.
  revert p. induction x as [|a x IH]; intros p H.
  - unfold comparable. rewrite (HasPrefix_nil p). apply orb_true_r.
  - destruct p as [|b p]; [done|].
    simpl in H. unfold comparable. simpl.
    case_decide; [|done]. subst. rewrite decide_True by done.
    apply (IH p H).
Qed.

Lemma overlaps_suffix p q b :
  q <> [] -> comparable q b = true -> overlaps (p ++ q) b = true.
Proof.
  intros Hq Hc. induction p as [|a p IH]; simpl.
  - destruct q; [done|]. simpl. by rewrite Hc.
  - rewrite IH. apply orb_true_r.
Qed.

Lemma comparable_sym a b : comparable a b = comparable b a.
Proof. unfold comparable. apply orb_comm. Qed.

Lemma Contains_nil_r s : Contains s [] = true.
Proof. destruct s; done. Qed.

Lemma Contains_app_r x s p : Contains (x ++ s) p = false -> Contains s p = false.
Proof.
  induction x as [|a x IH]; simpl; [done|].
  intros H. apply orb_false_iff in H as [_ H]. by apply IH.
Qed.

Lemma replace_scan_skip old new x r :
  replace_scan old new (x ++ r) (length x) = replace_scan old new r 0.
Proof. induction x as [|a x IH]; simpl; [|done]. by destruct r. Qed.

Lemma replace_scan_match old new s :
  old <> [] -> HasPrefix s old = true ->
  exists r, s = old ++ r /\ replace_scan old new s 0 = new ++ replace_scan old new r 0.
Proof.
  intros Hne H. destruct (HasPrefix_inv _ _ H) as [r ->]. exists r. split; [done|].
  destruct old as [|a old]; [done|].
  rewrite <- (replace_scan_skip (a :: old) new old r).
  change ((a :: old) ++ r) with (a :: old ++ r) in *.
  cbn [replace_scan]. rewrite H.
  by replace (length (a :: old) - 1)%nat with (length old) by (simpl; lia).
Qed.

Lemma replace_scan_nomatch old new c s :
  HasPrefix (c :: s) old = false ->
  replace_scan old new (c :: s) 0 = c :: replace_scan old new s 0.
Proof. intros H. cbn [replace_scan]. by rewrite H. Qed.

End StringFacts.

(** ** What a scan of [strings.ReplaceAll] leaves behind *)

Section ReplaceScan.
Import GoStrings Words.
Implicit Types s p q x y r P : bytes.

Variables old new : bytes.
Hypothesis old_nonempty : old <> [].

(** A suffix of [P] that begins the output already began the input, when
    [P] cannot run into an inserted [new]. *)
Lemma scan_prefix_reflects P s p q :
  overlaps P new = false -> P = p ++ q -> q <> [] ->
  HasPrefix (replace_scan old new s 0) q = true -> HasPrefix s q = true.
Proof.
  intros Hov. revert p q. induction s as [|c s IH]; intros p q -> Hq H.
  - destruct q; [done|]. by simpl in H.
  - destruct (HasPrefix (c :: s) old) eqn:E.
    + destruct (replace_scan_match old new _ old_nonempty E) as (r & _ & Hr).
      rewrite Hr in H. apply HasPrefix_app_comparable in H.
      rewrite comparable_sym in H.
      by rewrite (overlaps_suffix p q new Hq H) in Hov.
    + rewrite (replace_scan_nomatch _ _ _ _ E) in H.
      destruct q as [|b q]; [done|]. simpl in H |- *.
      case_decide; [|done]. destruct q as [|b' q]; [done|].
      apply (IH (p ++ [b]) (b' :: q)); [|done|done].
      by rewrite <- app_assoc.
Qed.

(** An inserted block followed by text without [P] is without [P]. *)
Lemma block_keeps_absent P n0 n x :
  overlaps (n0 ++ n) P = false -> Contains x P = false ->
  Contains (n ++ x) P = false.
Proof.
  revert n0. induction n as [|a n IH]; intros n0 Hov Hx; [done|].
  change ((a :: n) ++ x) with (a :: n ++ x). cbn [Contains].
  apply orb_false_iff. split.
  - destruct (HasPrefix (a :: n ++ x) P) eqn:E; [|done].
    apply (HasPrefix_app_comparable (a :: n) x P) in E.
    by rewrite (overlaps_suffix n0 (a :: n) P) in Hov.
  - apply (IH (n0 ++ [a])); [|done]. by rewrite <- app_assoc.
Qed.

Lemma scan_keeps_absent_le P k s :
  (length s <= k)%nat ->
  overlaps P new = false -> overlaps new P = false ->
  Contains s P = false -> Contains (replace_scan old new s 0) P = false.
Proof.
  revert s. induction k as [|k IH]; intros s Hk H1 H2 Hs.
  - destruct s; [done | simpl in Hk; lia].
  - destruct s as [|c s]; [done|].
    destruct (HasPrefix (c :: s) old) eqn:E.
    + destruct (replace_scan_match old new _ old_nonempty E) as (r & Hs' & Hr).
      rewrite Hr. apply (block_keeps_absent P [] new); [done|].
      apply IH; [|done|done|].
      * apply (f_equal length) in Hs'. rewrite length_app in Hs'.
        destruct old; [done|]. simpl in *. lia.
      * rewrite Hs' in Hs. by apply Contains_app_r in Hs.
    + rewrite (replace_scan_nomatch _ _ _ _ E).
      cbn [Contains] in Hs |- *. apply orb_false_iff in Hs as [Hp Hs].
      apply orb_false_iff. split.
      * destruct (HasPrefix (c :: replace_scan old new s 0) P) eqn:E'; [|done].
        rewrite <- (replace_scan_nomatch _ _ _ _ E) in E'.
        destruct P as [|b P]; [done|].
        by rewrite (scan_prefix_reflects (b :: P) (c :: s) [] (b :: P)) in Hp.
      * apply IH; [simpl in Hk; lia|done|done|done].
Qed.

(** A string absent from the input and apart from [new] is absent from
    the output. *)
Lemma scan_keeps_absent P s :
  apart P new = true ->
  Contains s P = false -> Contains (replace_scan old new s 0) P = false.
Proof.
  unfold apart. intros [H1 H2]%andb_true_iff.
  apply negb_true_iff in H1, H2. by apply (scan_keeps_absent_le P (length s)).
Qed.

Lemma scan_removes_le k s :
  (length s <= k)%nat ->
  overlaps old new = false -> overlaps new old = false ->
  Contains (replace_scan old new s 0) old = false.
Proof.
  revert s. induction k as [|k IH]; intros s Hk H1 H2.
  - destruct s; [|simpl in Hk; lia]. destruct old; done.
  - destruct s as [|c s]; [destruct old; done|].
    destruct (HasPrefix (c :: s) old) eqn:E.
    + destruct (replace_scan_match old new _ old_nonempty E) as (r & Hs' & Hr).
      rewrite Hr. apply (block_keeps_absent old [] new); [done|].
      apply IH; [|done|done].
      apply (f_equal length) in Hs'. rewrite length_app in Hs'.
      destruct old; [done|]. simpl in *. lia.
    + rewrite (replace_scan_nomatch _ _ _ _ E).
      cbn [Contains]. apply orb_false_iff. split.
      * destruct (HasPrefix (c :: replace_scan old new s 0) old) eqn:E'; [|done].
        rewrite <- (replace_scan_nomatch _ _ _ _ E) in E'.
        by rewrite (scan_prefix_reflects old (c :: s) [] old H1 eq_refl old_nonempty E')
          in E.
      * apply IH; [simpl in Hk; lia|done|done].
Qed.

(** The output of a scan holds no [old], when [old] is apart from [new]. *)
Lemma scan_removes s :
  apart old new = true -> Contains (replace_scan old new s 0) old = false.
Proof.
  unfold apart. intros [H1 H2]%andb_true_iff.
  apply negb_true_iff in H1, H2. by apply (scan_removes_le (length s)).
Qed.

(** A scan changes nothing in a text without [old]. *)
Lemma scan_absent_id s :
  Contains s old = false -> replace_scan old new s 0 = s.
Proof.
  induction s as [|c s IH]; [done|]. cbn [Contains].
  intros [Hp Hs]%orb_false_iff.
  rewrite (replace_scan_nomatch _ _ _ _ Hp). by rewrite IH.
Qed.

End ReplaceScan.

(** ** [strings.ReplaceAll] and the HTML rewriting *)

Section Rewrite.
Import GoStrings Words HTMLRewrite.
Implicit Types s p old new P body : bytes.

Lemma HasPrefix_refl p : HasPrefix p p = true.
Proof. rewrite <- (app_nil_r p) at 1. apply HasPrefix_app. Qed.

Lemma apart_neq old new : old <> [] -> apart old new = true -> old <> new.
Proof.
  intros Hne Hap <-. unfold apart in Hap. destruct old as [|a o]; [done|].
  cbn [overlaps] in Hap. unfold comparable in Hap.
  by rewrite HasPrefix_refl in Hap.
Qed.

Lemma ReplaceAll_scan s old new :
  old <> [] -> apart old new = true ->
  ReplaceAll s old new = replace_scan old new s 0.
Proof.
  intros Hne Hap. unfold ReplaceAll.
  rewrite decide_False by by apply apart_neq. by destruct old.
Qed.

Lemma ReplaceAll_removes s old new :
  old <> [] -> apart old new = true -> Contains (ReplaceAll s old new) old = false.
Proof. intros Hne Hap. rewrite ReplaceAll_scan by done. by apply scan_removes. Qed.

Lemma ReplaceAll_keeps_absent P s old new :
  old <> [] -> apart P new = true ->
  Contains s P = false -> Contains (ReplaceAll s old new) P = false.
Proof.
  intros Hne Hap Hs. unfold ReplaceAll. case_decide; [done|].
  destruct old as [|a o] eqn:E; [done|]. by apply scan_keeps_absent.
Qed.

Lemma ReplaceAll_absent_id s old new :
  Contains s old = false -> ReplaceAll s old new = s.
Proof.
  intros Hs. unfold ReplaceAll. case_decide; [done|].
  destruct old as [|a o] eqn:E; [by rewrite Contains_nil_r in Hs|].
  by apply scan_absent_id.
Qed.

Lemma localURLPrefix_nonempty localPort : localURLPrefix localPort <> [].
Proof. done. Qed.

Lemma localURLPrefixSecure_nonempty localPort : localURLPrefixSecure localPort <> [].
Proof. done. Qed.




End Rewrite.

(** ** The auth validator *)

Section AuthValidator.
Import GoStrings Auth.

Lemma isSuccess_spec response :
  isSuccess response = true
  <-> Status response = "success"%string /\ Code response = 200.
Proof.
  unfold isSuccess. rewrite andb_true_iff, bool_decide_eq_true, Z.eqb_eq. done.
Qed.

(** C7: the empty token is refused before any request is built; any other
    token validates exactly when the request is answered with status 200
    and a body that is valid JSON, parses, and carries status "success" and
    code 200; other status codes and bodies that are not JSON give errors of
    their own kind. *)
Theorem ValidateToken_classifies (w : World) (s : authService) (token : string) :
  ValidateToken w s EmptyString = ([], (false, Some ErrEmptyToken))
  /\ (snd (ValidateToken w s token) = (true, None)
      <-> token <> EmptyString
          /\ newRequestOk w (validationURL s) = true
          /\ exists body response,
               roundTrip w (buildRequest w s token) = Reply_ 200 (Some body)
               /\ json_Valid w body = true
               /\ json_Unmarshal w body = Some response
               /\ Status response = "success"%string
               /\ Code response = 200)
  /\ (forall code body,
        token <> EmptyString -> newRequestOk w (validationURL s) = true ->
        roundTrip w (buildRequest w s token) = Reply_ code body -> code <> 200 ->
        ValidateToken w s token
        = ([buildRequest w s token], (false, Some (ErrStatusCode code))))
  /\ (forall body,
        token <> EmptyString -> newRequestOk w (validationURL s) = true ->
        roundTrip w (buildRequest w s token) = Reply_ 200 (Some body) ->
        json_Valid w body = false ->
        ValidateToken w s token
        = ([buildRequest w s token], (false, Some (ErrNotJSON (preview body)))))
  /\ (forall code p, ErrStatusCode code <> ErrNotJSON p).
Proof.
  split; [done|]. split; [|split; [|split; [|done]]].
  - unfold ValidateToken, ValidateTokenWithResponse. split.
    + case_decide as Ht; [done|].
      destruct (newRequestOk w (validationURL s)) eqn:Hn; [|done]. cbn [negb].
      destruct (roundTrip w (buildRequest w s token)) as [err|code body] eqn:Hr;
        [done|].
      destruct (code =? StatusOK) eqn:Hc; [|done]. cbn [negb].
      apply Z.eqb_eq in Hc. subst code.
      destruct body as [body|]; [|done].
      destruct (json_Valid w body) eqn:Hv; [|done]. cbn [negb].
      destruct (json_Unmarshal w body) as [response|] eqn:Hu; [|done].
      cbn [snd]. intros [= Hs]. apply isSuccess_spec in Hs.
      destruct Hs as [Hs Hc]. repeat split; [done|]. by exists body, response.
    + intros (Ht & Hn & body & response & Hr & Hv & Hu & Hs & Hc).
      rewrite decide_False by done. rewrite Hn, Hr. cbn [negb].
      change (200 =? StatusOK) with true. cbn [negb]. rewrite Hv, Hu. cbn.
      f_equal. by apply isSuccess_spec.
  - intros code body Ht Hn Hr Hc.
    unfold ValidateToken, ValidateTokenWithResponse.
    rewrite decide_False by done. rewrite Hn, Hr. cbn [negb].
    destruct (code =? StatusOK) eqn:E; [by apply Z.eqb_eq in E|done].
  - intros body Ht Hn Hr Hv.
    unfold ValidateToken, ValidateTokenWithResponse.
    rewrite decide_False by done. rewrite Hn, Hr. cbn [negb].
    change (200 =? StatusOK) with true. cbn [negb]. by rewrite Hv.
Qed.

(** A validation endpoint that answers every request with status 200 and a
    body that parses to a success record, and one that answers 403. *)
Lemma ValidateToken_classifies_witness :
  let user :=
    {| UserID := "u1"; Fullname := "Ada"; Username := "ada"; Email := "ada@example.net";
       Subscription_ :=
         {| Name := "free";
            Limits := {| Tunnels := {| Limit := 3; Used := 1; Reached := false |};
                         Ports := {| Limit := 3; Used := 0; Reached := false |};
                         Bandwidth := {| Limit := 0; Used := 0; Reached := false |};
                         Requests := {| Limit := 0; Used := 0; Reached := false |} |};
            Features := {| CustomDomains := false; Analytics := false;
                           PrioritySupport := false |} |} |} in
  let ok :=
    {| Code := 200; Status := "success"; Message := "valid"; Data := user;
       Meta := {| HeaderStatusCode := 200 |} |} in
  let world code :=
    {| newRequestOk := fun _ => true; formEncode := fun t => t;
       roundTrip := fun _ => Reply_ code (Some (B "{}"));
       json_Valid := fun _ => true; json_Unmarshal := fun _ => Some ok |} in
  let s := NewAuthService "https://relay.example.net/AuthToken/validate" in
  snd (ValidateToken (world 200) s "hxp_token") = (true, None)
  /\ snd (ValidateToken (world 403) s "hxp_token") = (false, Some (ErrStatusCode 403)).
Proof.
  intros user ok world s. split.
  - apply (ValidateToken_classifies (world 200) s "hxp_token").
    split; [done|]. split; [done|]. by exists (B "{}"), ok.
  - destruct (ValidateToken_classifies (world 403) s "hxp_token")
      as (_ & _ & H & _).
    by rewrite (H 403 (Some (B "{}"))).
Defined.

End AuthValidator.

(** ** The session transport *)

Section SessionFacts.
Import Eff Session SessionRuns.
Local Open Scope eff_scope.

Lemma unlock_lock c : mutex c = false -> set_mutex false (set_mutex true c) = c.
Proof. destruct c; simpl; by intros ->. Qed.

Lemma locked_free {A} (body : M Client A) c :
  mutex c = false ->
  locked body c = match body (set_mutex true c) with
                  | Ret a c' => Ret a (set_mutex false c')
                  | Blocked c' => Blocked c'
                  end.
Proof.
  intros Hm. unfold locked, lock, bind. rewrite Hm.
  by destruct (body (set_mutex true c)).
Qed.

Lemma lock_held c : mutex c = true -> lock c = Blocked c.
Proof. unfold lock. by intros ->. Qed.

Lemma Close_held c : mutex c = true -> Close c = Blocked c.
Proof. intros Hm. unfold Close, locked, bind. by rewrite lock_held. Qed.

Lemma sendMessage_not_connected w writeOk msg c :
  mutex c = false -> isConnected c = false \/ conn c = None ->
  sendMessage w writeOk msg c = Ret (Some ErrNotConnected) c.
Proof.
  intros Hm Hc. unfold sendMessage. rewrite locked_free by done.
  unfold bind, get, ret. cbn.
  destruct (isConnected c) eqn:E1, (conn c) eqn:E2;
    try (by rewrite unlock_lock); destruct Hc; congruence.
Qed.

Lemma sendMessage_write_failed w msg c k :
  mutex c = false -> isConnected c = true -> conn c = Some k ->
  messageMarshals w msg = true ->
  sendMessage w false msg c = Ret (Some ErrSendMessage) (set_isConnected false c).
Proof.
  intros Hm Hc Hk Hj. unfold sendMessage. rewrite locked_free by done.
  unfold bind, get, ret, modify. cbn. rewrite Hc, Hk, Hj. cbn.
  f_equal. destruct c; simpl in *; by subst.
Qed.










End SessionFacts.

(** ** The [tcp] command *)

Section TcpCommand.
Import GoStrings Cmd.

Lemma validation_requests w s token response reqs :
  Auth.ValidateTokenWithResponse w s token = (reqs, inr response) ->
  reqs = [Auth.buildRequest w s token].
Proof.
  unfold Auth.ValidateTokenWithResponse.
  repeat (case_match; try done); by intros [= <- _].
Qed.

Lemma forced_mode cfg : Session.Mode (forced cfg) = Session.ConnectionModeDirectTCP.
Proof. unfold forced. by destruct (Session.Mode cfg) eqn:E. Qed.

Lemma forced_token cfg : Session.AuthToken (forced cfg) = Session.AuthToken cfg.
Proof. unfold forced. by destruct (Session.Mode cfg). Qed.

Lemma forced_url cfg : tcpValidationURL (forced cfg) = tcpValidationURL cfg.
Proof. unfold forced. by destruct (Session.Mode cfg). Qed.

(** C6: when the validated subscription has [tunnels.reached] set or
    [used >= limit], the command exits with status 1; the validation request
    is the only network action of the run and [CreateTCPTunnel] is never
    called. *)
Theorem tcpCmd_enforces_quota (w : World) (f : Flags) (c : Container)
    (response : Auth.AuthResponse) :
  let cfg := Config c in
  let service := Auth.NewAuthService (tcpValidationURL cfg) in
  let tunnels := Auth.Tunnels (Auth.Limits (Auth.Subscription_ (Auth.Data response))) in
  0 < tcpLocalPort f ->
  Session.AuthToken cfg <> EmptyString ->
  snd (Auth.ValidateTokenWithResponse (Session.auth (session w)) service
         (Session.AuthToken cfg)) = inr response ->
  Auth.isSuccess response = true ->
  Auth.Reached tunnels = true \/ Auth.Limit tunnels <= Auth.Used tunnels ->
  snd (tcpCmd w f c) = Exited 1
  /\ List.filter isNetwork (fst (tcpCmd w f c))
     = [HTTP (Auth.buildRequest (Session.auth (session w)) service
                (Session.AuthToken cfg))]
  /\ (forall config, ~ In (CreateTCPTunnel config) (fst (tcpCmd w f c)))
  /\ fst (fst (Session.CheckTunnelLimit
                 (Session.set_userData (Some (Auth.Data response))
                    (Session.NewClient cfg)))) = true.
Proof.
  intros cfg service tunnels Hport Htoken Hval Hok Hlimit.
  assert (Hreached : limitReached (Auth.Data response) = true).
  { unfold limitReached. fold tunnels. apply orb_true_iff.
    destruct Hlimit as [->| Hle]; [by left|right; by apply Z.leb_le]. }
  unfold tcpCmd. fold cfg.
  destruct (tcpLocalPort f <=? 0) eqn:Ep; [apply Z.leb_le in Ep; lia|].
  rewrite forced_mode, forced_token, forced_url. cbn [isDirectTCP].
  rewrite orb_true_r. rewrite decide_False by done.
  fold service.
  destruct (Auth.ValidateTokenWithResponse _ service _) as [reqs res] eqn:Ev.
  cbn [snd] in Hval. subst res.
  apply validation_requests in Ev as ->.
  rewrite Hok. cbn [negb]. unfold checkLimits. rewrite Hreached.
  unfold exit1. cbn. repeat split; [|done].
  intros config [H|[H|[H|[]]]]; discriminate.
Qed.

(** A validated account with 3 of 3 tunnels in use. *)
Lemma tcpCmd_enforces_quota_witness :
  let user :=
    {| Auth.UserID := "u1"; Auth.Fullname := "Ada"; Auth.Username := "ada";
       Auth.Email := "ada@example.net";
       Auth.Subscription_ :=
         {| Auth.Name := "free";
            Auth.Limits :=
              {| Auth.Tunnels := {| Auth.Limit := 3; Auth.Used := 3; Auth.Reached := false |};
                 Auth.Ports := {| Auth.Limit := 3; Auth.Used := 0; Auth.Reached := false |};
                 Auth.Bandwidth := {| Auth.Limit := 0; Auth.Used := 0; Auth.Reached := false |};
                 Auth.Requests := {| Auth.Limit := 0; Auth.Used := 0; Auth.Reached := false |} |};
            Auth.Features := {| Auth.CustomDomains := false; Auth.Analytics := false;
                                Auth.PrioritySupport := false |} |} |} in
  let ok :=
    {| Auth.Code := 200; Auth.Status := "success"; Auth.Message := "valid";
       Auth.Data := user; Auth.Meta := {| Auth.HeaderStatusCode := 200 |} |} in
  let auth :=
    {| Auth.newRequestOk := fun _ => true; Auth.formEncode := fun t => t;
       Auth.roundTrip := fun _ => Auth.Reply_ 200 (Some (B "{}"));
       Auth.json_Valid := fun _ => true; Auth.json_Unmarshal := fun _ => Some ok |} in
  let w :=
    {| session := {| Session.auth := auth; Session.payloadMarshals := fun _ => true;
                     Session.messageMarshals := fun _ => true;
                     Session.loadX509KeyPair := fun _ _ => true;
                     Session.urlParses := fun _ => true |};
       connectEnv := {| Session.dialed := None; Session.connectNow := 0;
                        Session.authWriteOk := false |};
       splitHost := fun _ => None; createOk := fun _ => true |} in
  let cfg :=
    {| Session.ServerAddress := "relay.example.net"; Session.ControlPort := 7000;
       Session.DataPort := 0; Session.AuthEnabled := true;
       Session.AuthToken := "hxp_token"; Session.AuthValidationURL := EmptyString;
       Session.TLSEnabled := false; Session.TLSCert := EmptyString;
       Session.TLSKey := EmptyString; Session.BaseDomain := "example.net";
       Session.Mode := Session.ConnectionModeDirectTCP |} in
  let f := {| tcpLocalPort := 22; tcpRemotePort := 0; tcpLocalAddr := "127.0.0.1" |} in
  snd (tcpCmd w f {| Config := cfg; Client := None |}) = Exited 1.
Proof.
  intros user ok auth w cfg f.
  refine (proj1 (tcpCmd_enforces_quota w f {| Config := cfg; Client := None |} ok
                   _ _ _ _ _)).
  - reflexivity.
  - discriminate.
  - reflexivity.
  - reflexivity.
  - right. vm_compute. discriminate.
Defined.

End TcpCommand.

(** ** The tunnel registry: [Unregister] *)

Section RegistryUnregister.
Import Eff Session Registry RegistrySpec Samples.







End RegistryUnregister.

(** ** The tunnel registry: writes to the local socket *)

Section RegistryWrites.
Import GoStrings Eff Registry RegistrySpec Samples.
Implicit Types (r : TunnelRepository) (evs : list Event) (wr : WriteOracle).

Lemma withEvents_nil r : withEvents [] r = r.
Proof. destruct r. unfold withEvents. cbn. by rewrite app_nil_r. Qed.

Lemma withEvents_app evs1 evs2 r :
  withEvents evs2 (withEvents evs1 r) = withEvents (evs1 ++ evs2) r.
Proof. unfold withEvents. cbn. by rewrite app_assoc. Qed.

Lemma emit_withEvents e r : emit e r = withEvents [e] r.
Proof. done. Qed.

Lemma writesOf_app evs1 evs2 : writesOf (evs1 ++ evs2) = writesOf evs1 ++ writesOf evs2.
Proof. induction evs1 as [|[] evs1 IH]; cbn; by rewrite ?IH. Qed.

Lemma deadlinesOf_app evs1 evs2 :
  deadlinesOf (evs1 ++ evs2) = deadlinesOf evs1 ++ deadlinesOf evs2.
Proof. induction evs1 as [|[] evs1 IH]; cbn; by rewrite ?IH. Qed.

Lemma sleepsOf_app evs1 evs2 : sleepsOf (evs1 ++ evs2) = sleepsOf evs1 ++ sleepsOf evs2.
Proof. induction evs1 as [|[] evs1 IH]; cbn; by rewrite ?IH. Qed.

Lemma closesOf_app evs1 evs2 : closesOf (evs1 ++ evs2) = closesOf evs1 ++ closesOf evs2.
Proof. induction evs1 as [|[] evs1 IH]; cbn; by rewrite ?IH. Qed.



Lemma leadingFailures_le wr from count : (leadingFailures wr from count <= count)%nat.
Proof.
  revert from. induction count as [|count IH]; intros from; cbn; [lia|].
  destruct (snd (wr from)); [|lia]. specialize (IH (S from)). lia.
Qed.

(** All three writes of [HandleData] fail. *)
Lemma leadingFailures_three wr :
  leadingFailures wr 0 3 = 3%nat
  <-> snd (wr 0%nat) = true /\ snd (wr 1%nat) = true /\ snd (wr 2%nat) = true.
Proof.
  cbn [leadingFailures].
  destruct (snd (wr 0%nat)), (snd (wr 1%nat)), (snd (wr 2%nat));
    (split; [by intros ?|by intros (? & ? & ?)]).
Qed.

(** The retries after a failed first write, exactly: a first retry and
    one more for every retry that failed, [S left] at most; retry number
    [k] comes after a sleep of [k] times 100 ms. *)
Lemma writeRetries_exact wr sock data left i r :
  let n := S (leadingFailures wr (S i) left) in
  exists evs failed,
    writeRetries wr sock data (S left) i r = Ret failed (withEvents evs r)
    /\ writesOf evs = repeat (sock, data) n
    /\ sleepsOf evs = map (fun k => Z.of_nat k * 100 * millisecond) (seq (S i) n)
    /\ deadlinesOf evs = [] /\ closesOf evs = [].
Proof.
  revert i r. induction left as [|left IH]; intros i r; cbv zeta.
  - cbn [writeRetries leadingFailures]. unfold Eff.bind, modify.
    rewrite !emit_withEvents, withEvents_app, Nat.add_1_r.
    destruct (negb (snd (wr (S i)))); eexists _, _; (split; [reflexivity|]); done.
  - cbn [leadingFailures]. 
    change (writeRetries wr sock data (S (S left)) i r)
      with ((modify (emit (Sleep (Z.of_nat (i + 1) * 100 * millisecond))) ;;
             modify (emit (Write sock data)) ;;
             if negb (snd (wr (S i))) then ret false
             else writeRetries wr sock data (S left) (S i))%eff r).
    unfold Eff.bind, modify.
    rewrite !emit_withEvents, withEvents_app, Nat.add_1_r.
    destruct (snd (wr (S i))); cbn [negb].
    + destruct (IH (S i) (withEvents ([Sleep (Z.of_nat (S i) * 100 * millisecond)]
                                        ++ [Write sock data]) r))
        as (evs & failed & -> & Hw & Hs & Hdl & Hc).
      rewrite withEvents_app. eexists _, failed. split; [reflexivity|].
      rewrite !writesOf_app, !sleepsOf_app, !deadlinesOf_app, !closesOf_app.
      rewrite Hw, Hs, Hdl, Hc. done.
    + eexists _, false. split; [reflexivity|]. done.
Qed.

Lemma writeWithRetries_exact wr sock data deadline r :
  let retries := leadingFailures wr 0 5 in
  exists evs failed,
    writeWithRetries wr sock data deadline r = Ret failed (withEvents evs r)
    /\ head evs = Some (SetWriteDeadline sock (Some deadline))
    /\ last evs = Some (SetWriteDeadline sock None)
    /\ deadlinesOf evs = [Some deadline; None]
    /\ writesOf evs = repeat (sock, data) (S retries)
    /\ sleepsOf evs = map (fun k => Z.of_nat k * 100 * millisecond) (seq 1 retries)
    /\ closesOf evs = [].
Proof.
  cbv zeta. unfold writeWithRetries, Eff.bind, modify.
  rewrite !emit_withEvents, withEvents_app.
  change (leadingFailures wr 0 5)
    with (if snd (wr 0%nat) then S (leadingFailures wr 1 4) else 0%nat).
  destruct (snd (wr 0%nat)).
  - destruct (writeRetries_exact wr sock data 4 0
                (withEvents ([SetWriteDeadline sock (Some deadline)] ++ [Write sock data]) r))
      as (evs & failed & Hrun & Hw & Hs & Hdl & Hc).
    unfold maxRetries. rewrite Hrun, emit_withEvents, !withEvents_app.
    eexists _, failed. split; [reflexivity|].
    rewrite ?app_assoc, last_snoc.
    rewrite !writesOf_app, !sleepsOf_app, !deadlinesOf_app, !closesOf_app.
    rewrite Hw, Hs, Hdl, Hc. cbn [app writesOf sleepsOf deadlinesOf closesOf head].
    by rewrite !app_nil_r.
  - unfold ret. rewrite emit_withEvents, !withEvents_app.
    eexists _, false. split; [reflexivity|]. done.
Qed.

(** The attempts of [HandleData], exactly: a write for every failure and
    one more when fewer than [left] writes failed, a sleep of 100 ms after
    every failed write; the loop ends with the answer to the last write. *)
Lemma writeAttempts_exact wr sock data left attempts last r :
  let f := leadingFailures wr attempts left in
  exists evs res,
    writeAttempts wr sock data left attempts last r = Ret res (withEvents evs r)
    /\ writesOf evs = repeat (sock, data) (Nat.min (S f) left)
    /\ sleepsOf evs = repeat (100 * millisecond) f
    /\ deadlinesOf evs = [] /\ closesOf evs = []
    /\ (left = 0%nat -> res = last)
    /\ ((f < left)%nat -> res = wr (attempts + f)%nat /\ snd res = false)
    /\ (f = left -> left <> 0%nat -> snd res = true).
Proof.
  revert attempts last r. induction left as [|left IH]; intros attempts last r; cbv zeta.
  - exists [], last. rewrite withEvents_nil. cbn.
    split; [done|]. repeat split; try done; lia.
  - cbn [writeAttempts leadingFailures]. unfold Eff.bind, modify. rewrite emit_withEvents.
    destruct (snd (wr attempts)) eqn:Hf; cbn [negb].
    + rewrite emit_withEvents, withEvents_app.
      destruct (IH (S attempts) (wr attempts)
                  (withEvents ([Write sock data] ++ [Sleep (100 * millisecond)]) r))
        as (evs & res & -> & Hw & Hs & Hdl & Hc & H0 & Hlt & Heq).
      rewrite withEvents_app. eexists _, res. split; [reflexivity|].
      rewrite !writesOf_app, !sleepsOf_app, !deadlinesOf_app, !closesOf_app.
      rewrite Hw, Hs, Hdl, Hc. cbn [app writesOf sleepsOf deadlinesOf closesOf].
      split; [done|]. split; [done|]. split; [done|]. split; [done|].
      split; [lia|]. split.
      * intros Hlt'. replace (attempts + S (leadingFailures wr (S attempts) left))%nat
          with (S attempts + leadingFailures wr (S attempts) left)%nat by lia.
        apply Hlt. lia.
      * intros Hall _. destruct left as [|left'].
        { by rewrite (H0 eq_refl). }
        apply Heq; lia.
    + exists [Write sock data], (wr attempts). unfold ret.
      split; [reflexivity|]. cbn. rewrite Nat.add_0_r.
      repeat split; try done; lia.
Qed.

(** C5, as the code has it: for a data message on a registered connection
    the handler [handleDataMessage] sets a write deadline of 30 seconds,
    writes the payload, writes it again once for every failed write, five
    times at most, retry number [k] after a sleep of [k] times 100 ms,
    clears the deadline and returns [nil] whatever the writes did.
    [HandleData] sets a deadline of 5 seconds, writes the payload until a
    write succeeds, three times at most, sleeps 100 ms after every failed
    write, clears the deadline and returns its error exactly when all
    three writes failed; after a partial write it writes the unwritten
    rest once, under a new deadline of 5 seconds.  Neither closes the
    socket, and both leave the registry's connection map as it was. *)
Theorem data_write_keeps_connection dial wr tunnelID connectionID data r sock :
  connections r !! connectionID = Some sock -> data <> [] ->
  (let retries := leadingFailures wr 0 5 in
   exists evs,
     handleDataMessage dial wr (Some (tunnelID, connectionID, data)) r
     = Ret None (withEvents evs r)
     /\ head evs = Some (SetWriteDeadline sock (Some (30 * second)))
     /\ last evs = Some (SetWriteDeadline sock None)
     /\ deadlinesOf evs = [Some (30 * second); None]
     /\ (retries <= 5)%nat
     /\ writesOf evs = repeat (sock, data) (S retries)
     /\ sleepsOf evs = map (fun k => Z.of_nat k * 100 * millisecond) (seq 1 retries)
     /\ closesOf evs = [])
  /\ (let failures := leadingFailures wr 0 3 in
      let n := fst (wr failures) in
      let rest := if bool_decide (failures < 3)%nat
                     && (n <? Z.of_nat (length data)) && (0 <? n)
                  then [(sock, skipn (Z.to_nat n) data)] else [] in
      exists evs,
        HandleData wr tunnelID connectionID data r
        = Ret (if decide (failures = 3%nat) then Some ErrWriteFailed else None)
            (withEvents evs r)
        /\ (failures = 3%nat
            <-> snd (wr 0%nat) = true /\ snd (wr 1%nat) = true /\ snd (wr 2%nat) = true)
        /\ head evs = Some (SetWriteDeadline sock (Some (5 * second)))
        /\ last evs = Some (SetWriteDeadline sock None)
        /\ deadlinesOf evs
           = [Some (5 * second); None] ++ flat_map (fun _ => [Some (5 * second); None]) rest
        /\ (failures <= 3)%nat
        /\ writesOf evs = repeat (sock, data) (Nat.min (S failures) 3) ++ rest
        /\ sleepsOf evs = repeat (100 * millisecond) failures
        /\ closesOf evs = []).
Proof.
  intros Hconn Hdata. split; cbv zeta.
  - unfold handleDataMessage, Eff.bind at 1, get. rewrite Hconn.
    destruct data as [|b data]; [done|]. cbn [length].
    replace (0 <? Z.of_nat (S (length data))) with true by (symmetry; apply Z.ltb_lt; lia).
    unfold Eff.bind.
    destruct (writeWithRetries_exact wr sock (b :: data) writeTimeout r)
      as (evs & failed & -> & Hh & Hl & Hdl & Hw & Hs & Hc).
    exists evs. pose proof (leadingFailures_le wr 0 5).
    exact (conj eq_refl (conj Hh (conj Hl (conj Hdl (conj H (conj Hw (conj Hs Hc))))))).
  - unfold HandleData, Eff.bind at 1, get. rewrite Hconn.
    unfold Eff.bind, modify. rewrite emit_withEvents.
    pose proof (leadingFailures_le wr 0 3) as Hle.
    destruct (writeAttempts_exact wr sock data 3 0 (0, false)
                (withEvents [SetWriteDeadline sock (Some (5 * second))] r))
      as (evs & res & -> & Hw & Hs & Hdl & Hc & _ & Hlt & Heq).
    rewrite emit_withEvents, !withEvents_app.
    destruct (decide (leadingFailures wr 0 3 = 3%nat)) as [Hall|Hsome].
    + rewrite (Heq Hall ltac:(done)). rewrite bool_decide_false by lia.
      eexists. unfold ret. split; [reflexivity|].
      split; [apply leadingFailures_three|].
      rewrite ?app_assoc, last_snoc.
      rewrite !writesOf_app, !sleepsOf_app, !deadlinesOf_app, !closesOf_app.
      rewrite Hw, Hs, Hdl, Hc. cbn. by rewrite !app_nil_r.
    + destruct (Hlt ltac:(lia)) as [Hres Hok]. rewrite Hok, Hres.
      rewrite bool_decide_true by lia. cbn [andb Nat.add].
      destruct (_ && _).
      * rewrite !emit_withEvents, !withEvents_app.
        eexists. unfold ret. split; [reflexivity|].
        split; [apply leadingFailures_three|].
        rewrite ?app_assoc, last_snoc.
        rewrite !writesOf_app, !sleepsOf_app, !deadlinesOf_app, !closesOf_app.
        rewrite Hw, Hs, Hdl, Hc. cbn. by rewrite !app_nil_r.
      * eexists. unfold ret. split; [reflexivity|].
        split; [apply leadingFailures_three|].
        rewrite ?app_assoc, last_snoc.
        rewrite !writesOf_app, !sleepsOf_app, !deadlinesOf_app, !closesOf_app.
        rewrite Hw, Hs, Hdl, Hc. cbn. by rewrite !app_nil_r.
Qed.

(** A four-byte payload for the registered connection [c1] whose socket
    accepts the first write. *)
Lemma data_write_keeps_connection_witness :
  let data := B "ping" in
  exists evs,
    handleDataMessage (fun _ => None) (acceptingWrites data)
      (Some ("t1"%string, "c1"%string, data)) sampleConnected
    = Ret None (withEvents evs sampleConnected)
    /\ deadlinesOf evs = [Some (30 * second); None]
    /\ writesOf evs = [(7%nat, data)]
    /\ closesOf evs = [].
Proof.
  intros data.
  destruct (data_write_keeps_connection (fun _ => None) (acceptingWrites data)
              "t1" "c1" data sampleConnected 7%nat eq_refl)
    as [(evs & H & _ & _ & Hd & _ & Hw & _ & Hc) _]; [discriminate|].
  exists evs. exact (conj H (conj Hd (conj Hw Hc))).
Defined.

(** C5 as stated fails: when every write to the local socket fails, the
    handler has used a 30-second deadline and written six times, the socket
    was not closed and the connection is still registered; [HandleData]
    returns its error with the connection still registered too. *)
Lemma failed_writes_keep_connection :
  let data := B "ping" in
  let res := handleDataMessage (fun _ => None) failingWrites
               (Some ("t1"%string, "c1"%string, data)) sampleConnected in
  let res' := HandleData failingWrites "t1" "c1" data sampleConnected in
  returned res = Some None
  /\ connections (final res) !! "c1"%string = Some 7%nat
  /\ closesOf (events (final res)) = []
  /\ deadlinesOf (events (final res)) = [Some (30 * second); None]
  /\ length (writesOf (events (final res))) = 6%nat
  /\ sleepsOf (events (final res))
     = [100 * millisecond; 200 * millisecond; 300 * millisecond;
        400 * millisecond; 500 * millisecond]
  /\ returned res' = Some (Some ErrWriteFailed)
  /\ connections (final res') !! "c1"%string = Some 7%nat
  /\ closesOf (events (final res')) = [].
Proof. repeat split; reflexivity. Qed.

End RegistryWrites.

(** ** The per-connection forwarder *)

Section ForwarderOrder.
Import GoStrings Forwarder.

(** Whatever the schedule, a payload that reached the session is a chunk
    that was read, or the empty keepalive: the senders neither invent nor
    alter data. *)
Lemma handed_payloads_were_read st :
  reachable st ->
  Forall (fun p => p ∈ reads st \/ p = []) (handed st)
  /\ Forall (fun s => payloadOf s ∈ reads st \/ payloadOf s = []) (senders st).
Proof.
  assert (Hmono : forall (l : list bytes) x (p : bytes),
            p ∈ l \/ p = [] -> p ∈ l ++ [x] \/ p = []).
  { intros l x p [H| ->]; [left; set_solver|by right]. }
  induction 1 as [|st st' Hreach [IHh IHs] Hstep]; [by split; constructor|].
  destruct Hstep; cbn [reads handed senders].
  - done.
  - done.
  - split.
    + apply Forall_app. split.
      * eapply Forall_impl; [exact IHh|]. intros p. apply Hmono.
      * apply Forall_singleton. left. set_solver.
    + eapply Forall_impl; [exact IHs|]. intros p. apply Hmono.
  - split; (eapply Forall_impl; [eassumption|]); intros p; apply Hmono.
  - split.
    + eapply Forall_impl; [exact IHh|]. intros p. apply Hmono.
    + apply Forall_app. split.
      * eapply Forall_impl; [exact IHs|]. intros p. apply Hmono.
      * apply Forall_singleton. left. set_solver.
  - done.
  - split; [done|]. apply Forall_app. split; [done|]. apply Forall_singleton. by right.
  - match goal with H : senders _ = _ |- _ => rewrite H in IHs end.
    apply Forall_app in IHs as [Hb Ha]. apply Forall_cons in Ha as [Hs Ha].
    split; [|by apply Forall_app].
    apply Forall_app. split; [done|]. by apply Forall_singleton.
  - match goal with H : senders _ = _ |- _ => rewrite H in IHs end.
    apply Forall_app in IHs as [Hb Ha]. apply Forall_cons in Ha as [Hs Ha].
    split; [done|by apply Forall_app].
  - match goal with H : senders _ = _ |- _ => rewrite H in IHs end.
    apply Forall_app in IHs as [Hb Ha]. apply Forall_cons in Ha as [Hs Ha].
    split; [done|by apply Forall_app].
  - done.
Qed.

(** C1 fails on the code: after the chunks [a], [b], [c] were read in this
    order ([a] first, sent inline), the sender goroutine of [c] can get its
    frame accepted before the one of [b]; the session then carries [a],
    [c], [b]. *)
Theorem forwarder_can_reorder (a b c : bytes) :
  fits a 8192 ->
  fits b (actualBufferSize (detectSSH a)) ->
  fits c (actualBufferSize (detectSSH a)) ->
  exists st,
    reachable st
    /\ reads st = [a; b; c]
    /\ handed st = [a; c; b]
    /\ senders st = [].
Proof.
  intros Ha Hb Hc. eexists. split.
  - eapply reach_step.
    { eapply reach_step.
      { eapply reach_step.
        { eapply reach_step.
          { eapply reach_step; [apply reach_init|].
            apply (initial_sent init a); [done|exact Ha]. }
          apply (read_chunk _ b); [done|exact Hb]. }
        apply (read_chunk _ c); [done|exact Hc]. }
      apply (sender_sent _ [DataSender b] (DataSender c) []).
      reflexivity. }
    apply (sender_sent _ [] (DataSender b) []). reflexivity.
  - cbn. by repeat split.
Qed.

(** The chunks [AAAA], [BBBB], [CCCC]: the bytes the session carries are
    not the bytes read. *)
Lemma forwarder_can_reorder_witness :
  exists st,
    reachable st
    /\ reads st = [B "AAAA"; B "BBBB"; B "CCCC"]
    /\ handed st = [B "AAAA"; B "CCCC"; B "BBBB"]
    /\ concat (handed st) <> concat (reads st).
Proof.
  destruct (forwarder_can_reorder (B "AAAA") (B "BBBB") (B "CCCC"))
    as (st & Hr & Hreads & Hhanded & _).
  - unfold fits. split; [reflexivity|by vm_compute].
  - unfold fits. split; [reflexivity|by vm_compute].
  - unfold fits. split; [reflexivity|by vm_compute].
  - exists st. repeat split; [exact Hr|exact Hreads|exact Hhanded|].
    rewrite Hreads, Hhanded. cbn. discriminate.
Defined.

(** When every sender finishes before the next read, the frames are in
    read order: the order is lost by the scheduling only. *)
Lemma forwarder_in_order_schedule (a b c : bytes) :
  fits a 8192 ->
  fits b (actualBufferSize (detectSSH a)) ->
  fits c (actualBufferSize (detectSSH a)) ->
  exists st,
    reachable st /\ reads st = [a; b; c] /\ handed st = reads st /\ senders st = [].
Proof.
  intros Ha Hb Hc. eexists. split.
  - eapply reach_step.
    { eapply reach_step.
      { eapply reach_step.
        { eapply reach_step.
          { eapply reach_step; [apply reach_init|].
            apply (initial_sent init a); [done|exact Ha]. }
          apply (read_chunk _ b); [done|exact Hb]. }
        apply (sender_sent _ [] (DataSender b) []). reflexivity. }
      apply (read_chunk _ c); [done|exact Hc]. }
    apply (sender_sent _ [] (DataSender c) []). reflexivity.
  - cbn. by repeat split.
Qed.

End ForwarderOrder.

(** ** The Direct-TCP tunnel *)

Section DirectStart.
Import GoStrings Eff Direct DirectSpec Samples.

Lemma Intn_range raw : 10000 <= 10000 + Intn raw 20000 < 30000.
Proof. unfold Intn. pose proof (Z.mod_pos_bound raw 20000). lia. Qed.

Lemma callbacksOf_app evs1 evs2 :
  callbacksOf (evs1 ++ evs2) = callbacksOf evs1 ++ callbacksOf evs2.
Proof. induction evs1 as [|[] evs1 IH]; cbn; by rewrite ?IH. Qed.

(** [Start] called while the mutex is held never returns. *)
Lemma Start_held envs t : mutex t = true -> Start envs t = Blocked t.
Proof. intros H. destruct envs; cbn; unfold Eff.bind, lock; by rewrite H. Qed.

(** The server answers [CONNECTED:20777] to a request for port 20000:
    [Start] never returns, the remote port is still 20000 and the callback
    was not called.  The control loop, which does not hold the mutex,
    adopts the same answer: port 20777, one call of the callback. *)
Lemma Start_blocks_at_20777 :
  let res := Start [answering "CONNECTED:20777"] sampleDirect in
  let loop := controlLoopAdopt "CONNECTED:20777" sampleDirect in
  returned res = None
  /\ remotePort (final res) = 20000
  /\ callbacksOf (events (final res)) = []
  /\ listener (final res) = None
  /\ returned loop = Some tt
  /\ remotePort (final loop) = 20777
  /\ callbacksOf (events (final loop)) = [20777].
Proof. vm_compute. by repeat split. Qed.

(** C2 fails on the code: for every tunnel and every answer [CONNECTED:N]
    with [N] different from the requested port, [Start] locks the mutex it
    already holds and never returns; the remote port is the requested one
    still and the callback was not called. *)
Theorem Start_adoption_blocks e envs t l sock resp actualPort :
  mutex t = false -> listener t = None -> connection t = None ->
  listened e = Some l -> dialed e = Some sock -> writeOk e = true ->
  response e = Some resp ->
  Contains (B resp) (B "ERROR") = false ->
  HasPrefix (B resp) (B "CONNECTED:") = true ->
  portOf resp = Some actualPort -> actualPort <> remotePort t ->
  exists t',
    Start (e :: envs) t = Blocked t'
    /\ remotePort t' = remotePort t
    /\ callbacksOf (events t') = callbacksOf (events t).
Proof.
  intros Hm Hl Hc Hel Hed Hew Her Herr Hpre Hport Hne.
  cbn [Start]. unfold Eff.bind at 1, lock at 1. rewrite Hm.
  unfold startBody. rewrite Hel, Hed, Hew, Her, Herr. cbn [negb].
  unfold afterResponse. rewrite Hpre, Hport.
  unfold Eff.bind, get, modify, ret. cbv beta.
  cbn [listener connection set_mutex set_stopped emit set_connection remotePort].
  rewrite Hl, Hc. rewrite !bool_decide_eq_false_2 by (intros H; by apply H).
  cbn [orb].
  change (remotePort (set_mutex true t)) with (remotePort t).
  destruct (actualPort =? remotePort t) eqn:E; [by apply Z.eqb_eq in E|].
  cbn [negb]. unfold adoptPort, Eff.bind, lock.
  cbn [mutex emit set_connection set_stopped set_mutex].
  eexists. split; [reflexivity|].
  cbn [remotePort events emit set_connection set_stopped set_mutex].
  split; [done|].
  rewrite !callbacksOf_app. cbn [callbacksOf]. by rewrite !app_nil_r.
Qed.

Lemma Start_adoption_blocks_witness :
  exists t',
    Start [answering "CONNECTED:20777"] sampleDirect = Blocked t'
    /\ remotePort t' = 20000
    /\ callbacksOf (events t') = [].
Proof.
  apply (Start_adoption_blocks (answering "CONNECTED:20777") [] sampleDirect
           1%nat 2%nat "CONNECTED:20777" 20777); try reflexivity.
  discriminate.
Defined.

Lemma linesOf_app evs1 evs2 : linesOf (evs1 ++ evs2) = linesOf evs1 ++ linesOf evs2.
Proof. induction evs1 as [|[] evs1 IH]; cbn; by rewrite ?IH. Qed.

(** C3 fails on the code: for every tunnel, after an answer containing
    [ERROR] the connection is closed, 500 ms pass and a port of
    [10000, 30000) replaces the requested one, but the restart [t.Start()]
    locks the mutex its caller holds: [Start] never returns and the
    registration line was sent once only. *)
Theorem Start_restart_blocks e envs t l sock resp :
  mutex t = false -> listener t = None -> connection t = None ->
  listened e = Some l -> dialed e = Some sock -> writeOk e = true ->
  response e = Some resp ->
  Contains (B resp) (B "ERROR") = true ->
  exists t',
    Start (e :: envs) t = Blocked t'
    /\ remotePort t' = 10000 + Intn (random e) 20000
    /\ 10000 <= remotePort t' < 30000
    /\ linesOf (events t') = linesOf (events t) ++ [registration t "DIRECT_TCP_FORWARD"]
    /\ (exists evs, events t' = events t ++ evs
                    /\ last evs = Some (Sleep (500 * millisecond))
                    /\ In (CloseConn sock) evs)
    /\ listener t' = None.
Proof.
  intros Hm Hl Hc Hel Hed Hew Her Herr.
  cbn [Start]. unfold Eff.bind at 1, lock at 1. rewrite Hm.
  unfold startBody. rewrite Hel, Hed, Hew, Her, Herr. cbn [negb].
  unfold Eff.bind, get, modify, ret. cbv beta.
  cbn [listener connection set_mutex set_stopped emit set_connection remotePort].
  rewrite Hl, Hc. rewrite !bool_decide_eq_false_2 by (intros H; by apply H).
  cbn [orb]. rewrite Start_held by done.
  eexists. split; [reflexivity|].
  cbn [remotePort events listener emit set_connection set_stopped set_mutex
         set_remotePort].
  split; [done|]. split; [apply Intn_range|]. split; [|split; [|done]].
  - rewrite !linesOf_app. cbn [linesOf]. by rewrite !app_nil_r.
  - eexists. rewrite <- !app_assoc. split; [reflexivity|]. cbn. split; [done|].
    tauto.
Qed.

Lemma Start_restart_blocks_witness :
  exists t',
    Start [answering "ERROR:port in use"; answering "CONNECTED"] sampleDirect
    = Blocked t'
    /\ remotePort t' = 26789
    /\ length (linesOf (events t')) = 1%nat.
Proof.
  destruct (Start_restart_blocks (answering "ERROR:port in use")
              [answering "CONNECTED"] sampleDirect 1%nat 2%nat "ERROR:port in use")
    as (t' & H & Hport & _ & Hlines & _); try reflexivity.
  exists t'. split; [exact H|]. split; [exact Hport|]. by rewrite Hlines.
Defined.

(** The answer [ERROR:port in use] to a request for port 20000, event by
    event. *)
Lemma Start_blocks_at_error :
  let res := Start [answering "ERROR:port in use"; answering "CONNECTED"] sampleDirect in
  returned res = None
  /\ events (final res)
     = [Listen 6022; DialServer "relay.example.net:7000" (10 * second);
        WriteConn 2 "AUTH_TOKEN=hxp_token:127.0.0.1:22:20000:DIRECT_TCP_FORWARD";
        ReadConn 2 65536 (15 * second); CloseConn 2; Sleep (500 * millisecond)]
  /\ remotePort (final res) = 26789
  /\ 10000 <= remotePort (final res) < 30000
  /\ length (linesOf (events (final res))) = 1%nat
  /\ listener (final res) = None.
Proof. vm_compute. repeat split; congruence. Qed.

End DirectStart.

(** * Further properties of the code *)

(** ** The session: [Connect], [Close], [SendData] *)

Section SessionMore.
Import GoStrings Eff Session SessionRuns SessionSpec.
Local Open Scope eff_scope.

Lemma connectSocket_outcomes w e c :
  mutex c = true -> isConnected c = false ->
  match connectSocket w e c with
  | Ret (Some _) c' => c' = c
  | Ret None c' =>
      exists k, dialed e = Some k
                /\ c' = (if authEnabled (settings c)
                         then emit (Wrote k (authFrame e c)) else fun x => x)
                          (set_isConnected true (set_conn (Some k) c))
  | Blocked c' =>
      exists k, dialed e = Some k /\ c' = set_isConnected true (set_conn (Some k) c)
  end.
Proof.
  intros Hm Hc. unfold connectSocket, Eff.bind, get, ret, modify.
  destruct (_ && _); [done|].
  destruct (negb (urlParses _ _)); [done|].
  destruct (dialed e) as [k|]; [|done].
  unfold NewMessage. destruct (payloadMarshals w _).
  - fold (authFrame e c).
    destruct (negb (messageMarshals w _)).
    + rewrite Close_held by (by destruct c). by exists k.
    + destruct (authEnabled (settings c)); [|by exists k].
      destruct (authWriteOk e); [by exists k|].
      rewrite Close_held by (by destruct c). by exists k.
  - rewrite Close_held by (by destruct c). by exists k.
Qed.

Lemma connectPost_of_socket w e c0 c :
  mutex c0 = false -> isConnected c0 = false ->
  mutex c = true -> isConnected c = false ->
  conn c = conn c0 -> trace c = trace c0 -> settings c = settings c0 ->
  connectPost e c0
    (match connectSocket w e c with
     | Ret a c' => Ret a (set_mutex false c')
     | Blocked c' => Blocked c'
     end).
Proof.
  intros Hm0 Hc0 Hm Hc Hconn Htrace Hset.
  pose proof (connectSocket_outcomes w e c Hm Hc) as H.
  destruct (connectSocket w e c) as [[err|] c'|c'].
  - subst c'. cbn. by rewrite Hc, Hconn, Htrace.
  - destruct H as (k & Hk & ->). cbn. rewrite Hset.
    split; [by destruct (authEnabled (settings c0))|]. split; [done|].
    exists k. split; [done|].
    unfold authFrame. rewrite Hset.
    destruct (authEnabled (settings c0)); cbn; rewrite Htrace;
      [done|by rewrite app_nil_r].
  - destruct H as (k & Hk & ->). cbn. rewrite Hm, Htrace. split; [done|].
    split; [done|]. by exists k.
Qed.

(** X1. [Connect] on a session that is not connected ends in one of three
    ways: it returns an error, and then no socket was installed, nothing
    was written and the session is not connected; it returns [nil], and
    then the dialled socket is installed and the [auth] frame is the one
    frame written (none when auth is off); or, when the [auth] frame cannot
    be built or written after the dial, it blocks in [c.Close()] with the
    mutex held and the session flagged connected. *)
Theorem Connect_outcomes w e c :
  mutex c = false -> isConnected c = false ->
  connectPost e c (Connect w e c).
Proof.
  intros Hm Hc. unfold Connect. rewrite locked_free by done.
  unfold Eff.bind at 1, get at 1. cbn [isConnected set_mutex]. rewrite Hc.
  destruct (_ && _).
  - destruct (snd _) as [verr|response].
    + unfold ret. cbn. by destruct c.
    + destruct (negb _).
      * unfold ret. cbn. by destruct c.
      * unfold Eff.bind, modify.
        apply connectPost_of_socket; by destruct c.
  - apply connectPost_of_socket; by destruct c.
Qed.

Lemma Connect_outcomes_witness :
  connectPost
    {| dialed := Some 4%nat; connectNow := 17; authWriteOk := true |}
    (NewClient Samples.sampleConfig)
    (Connect Samples.sampleWorld
       {| dialed := Some 4%nat; connectNow := 17; authWriteOk := true |}
       (NewClient Samples.sampleConfig)).
Proof. apply Connect_outcomes; reflexivity. Defined.

(** Every call on a session whose mutex is held for good blocks. *)
Lemma held_session_blocks w op c : mutex c = true -> runOp w op c = Blocked c.
Proof.
  intros Hm.
  destruct op; cbn [runOp]; unfold Eff.bind, sendMessage, IsConnected, Close,
    Connect, locked, Eff.bind; by rewrite lock_held.
Qed.

(** X2. A [Connect] that succeeds when the [auth] frame is written blocks
    for ever when that write fails, and leaves the mutex held: every later
    call on the session ([sendMessage], [IsConnected], [Close], [Connect])
    blocks too. *)
Theorem Connect_failed_auth_write_hangs w e c c1 :
  mutex c = false -> isConnected c = false ->
  authEnabled (settings c) = true ->
  Connect w (withAuthWrite true e) c = Ret None c1 ->
  exists c',
    Connect w (withAuthWrite false e) c = Blocked c'
    /\ isConnected c' = true
    /\ forall op, runOp w op c' = Blocked c'.
Proof.
  intros Hm Hc Hauth. unfold Connect. rewrite !locked_free by done.
  unfold Eff.bind at 1 3, get at 1 2. cbn [isConnected set_mutex]. rewrite Hc.
  assert (Hsock : forall c2 c3,
    mutex c2 = true -> isConnected c2 = false -> authEnabled (settings c2) = true ->
    connectSocket w (withAuthWrite true e) c2 = Ret None c3 ->
    exists c', connectSocket w (withAuthWrite false e) c2 = Blocked c'
               /\ isConnected c' = true /\ mutex c' = true).
  { intros c2 c3 Hm2 Hc2 Ha2. unfold connectSocket, Eff.bind, get, ret, modify.
    cbn [dialed connectNow authWriteOk withAuthWrite].
    destruct (_ && _); [done|].
    destruct (negb (urlParses _ _)); [done|].
    destruct (dialed e) as [k|]; [|done].
    destruct (NewMessage _ _ _ _) as [m|];
      [|by rewrite Close_held by (by destruct c2)].
    destruct (negb (messageMarshals w m));
      [by rewrite Close_held by (by destruct c2)|].
    rewrite Ha2. intros _. rewrite Close_held by (by destruct c2).
    eexists. split; [done|]. by destruct c2. }
  assert (Hfin : forall c2 c3,
    mutex c2 = true -> isConnected c2 = false -> authEnabled (settings c2) = true ->
    match connectSocket w (withAuthWrite true e) c2 with
    | Ret a c' => Ret a (set_mutex false c')
    | Blocked c' => Blocked c'
    end = Ret None c3 ->
    exists c',
      match connectSocket w (withAuthWrite false e) c2 with
      | Ret a c' => Ret a (set_mutex false c')
      | Blocked c' => Blocked c'
      end = Blocked c'
      /\ isConnected c' = true /\ forall op, runOp w op c' = Blocked c').
  { intros c2 c3 Hm2 Hc2 Ha2 H.
    destruct (connectSocket w (withAuthWrite true e) c2) as [[?|] c4|c4] eqn:E;
      try done.
    destruct (Hsock c2 c4 Hm2 Hc2 Ha2 E) as (c' & -> & Hc' & Hm').
    exists c'. split; [done|]. split; [done|].
    intros op. by apply held_session_blocks. }
  destruct (_ && _).
  - destruct (snd _) as [verr|response]; [done|].
    destruct (negb _); [done|].
    unfold Eff.bind, modify. apply Hfin; by destruct c.
  - apply Hfin; by destruct c.
Qed.

Lemma Connect_failed_auth_write_hangs_witness :
  let cfg :=
    {| ServerAddress := "relay.example.net"; ControlPort := 443; DataPort := 0;
       AuthEnabled := true; AuthToken := EmptyString; AuthValidationURL := EmptyString;
       TLSEnabled := true; TLSCert := EmptyString; TLSKey := EmptyString;
       BaseDomain := "example.net"; Mode := ConnectionModeWebSocket |} in
  let e := {| dialed := Some 4%nat; connectNow := 17; authWriteOk := true |} in
  exists c',
    Connect Samples.sampleWorld (withAuthWrite false e) (NewClient cfg) = Blocked c'
    /\ isConnected c' = true
    /\ forall op, runOp Samples.sampleWorld op c' = Blocked c'.
Proof.
  intros cfg e.
  refine (Connect_failed_auth_write_hangs Samples.sampleWorld e (NewClient cfg)
            _ _ _ _ _); reflexivity.
Defined.

End SessionMore.

(** ** The session: [SendData] and a failed write *)

Section SessionData.
Import GoStrings Eff Session SessionRuns SessionSpec.
Local Open Scope eff_scope.

Lemma sendMessage_cases w writeOk msg c :
  mutex c = false ->
  (exists k, conn c = Some k
             /\ sendMessage w writeOk msg c = Ret None (emit (Wrote k msg) c))
  \/ (exists err c', sendMessage w writeOk msg c = Ret (Some err) c'
                     /\ mutex c' = false /\ conn c' = conn c /\ trace c' = trace c).
Proof.
  intros Hm. unfold sendMessage. rewrite locked_free by done.
  unfold Eff.bind, get, ret, modify. cbn.
  destruct (isConnected c) eqn:Hc, (conn c) as [k|] eqn:Hk;
    try (right; eexists _, _; split; [done|]; by rewrite ?Hk).
  destruct (negb _); [right; eexists _, _; split; [done|]; by rewrite ?Hk|].
  destruct writeOk.
  - left. exists k. split; [done|]. f_equal. destruct c; simpl in *; by subst.
  - right. eexists _, _. split; [done|]. by rewrite ?Hk.
Qed.

Lemma sendDataLoop_post w env tunnelID connectionID data left attempt backoff c :
  mutex c = false ->
  match sendDataLoop w env (DataPayload tunnelID connectionID data)
          left attempt backoff c with
  | Blocked _ => False
  | Ret err c' =>
      mutex c' = false /\ conn c' = conn c
      /\ exists n : nat,
           (n <= left)%nat
           /\ match err with
              | None =>
                  (n < left)%nat
                  /\ exists k, conn c = Some k
                       /\ trace c' = trace c ++ map Slept (take n (delaysFrom backoff left))
                                       ++ [Wrote k (dataFrame env (attempt + n) tunnelID
                                                      connectionID data)]
              | Some _ => trace c' = trace c ++ map Slept (take n (delaysFrom backoff left))
              end
  end.
Proof.
  revert attempt backoff c.
  induction left as [|left IH]; intros attempt backoff c Hm; cbn [sendDataLoop].
  - unfold ret. repeat split; try done. exists 0%nat. split; [lia|].
    by rewrite app_nil_r.
  - unfold NewMessage. destruct (payloadMarshals w _).
    + fold (dataFrame env attempt tunnelID connectionID data).
      unfold Eff.bind at 1.
      destruct (sendMessage_cases w (snd (env attempt))
                  (dataFrame env attempt tunnelID connectionID data) c Hm)
        as [(k & Hk & ->)|(err & c1 & -> & Hm1 & Hk1 & Ht1)].
      * unfold ret. cbn [mutex conn trace emit]. repeat split; try done.
        exists 0%nat. split; [lia|]. split; [lia|]. exists k. split; [done|].
        by rewrite Nat.add_0_r.
      * unfold Eff.bind, modify.
        specialize (IH (S attempt)
                      (let b := backoff * 3 / 2 in
                       if 2 * second <? b then 2 * second else b)
                      (emit (Slept backoff) c1) Hm1).
        cbv zeta in IH.
        destruct (sendDataLoop _ _ _ _ _ _ _) as [err' c'|c']; [|done].
        destruct IH as (Hm' & Hk' & n & Hn & IH).
        split; [done|]. split; [by rewrite Hk'|].
        exists (S n). split; [lia|].
        cbn [delaysFrom take map trace emit] in *. rewrite Ht1 in IH.
        destruct err' as [e'|].
        -- rewrite IH. by rewrite <- app_assoc.
        -- destruct IH as (Hlt & k & Hk & IH). split; [lia|]. exists k.
           split; [cbn [conn emit] in Hk; congruence|]. rewrite IH, <- app_assoc. cbn.
           by replace (attempt + S n)%nat with (S (attempt + n)) by lia.
    + unfold ret. repeat split; try done. exists 0%nat. split; [lia|].
      by rewrite app_nil_r.
Qed.

(** X3. [SendData] on a session whose mutex is free always returns, with
    the mutex free and the socket neither closed nor replaced; it sleeps
    100, 150, 225 ms after its failed attempts (at most three), and it
    writes one data frame carrying the payload, as its last action, exactly
    when it returns [nil]: the payload is never sent twice. *)
Theorem SendData_sends_at_most_once w env tunnelID connectionID data c :
  mutex c = false ->
  sendDataPost env tunnelID connectionID data c
    (SendData w env tunnelID connectionID data c).
Proof.
  intros Hm. unfold SendData, sendDataPost.
  pose proof (sendDataLoop_post w env tunnelID connectionID data 3 0
                (100 * millisecond) c Hm) as H.
  destruct (sendDataLoop _ _ _ _ _ _ _) as [err c'|c']; [|done].
  destruct H as (Hm' & Hk' & n & Hn & H).
  split; [done|]. split; [done|]. exists n. split; [done|].
  change (delaysFrom (100 * millisecond) 3) with backoffs in H.
  by rewrite Nat.add_0_l in H.
Qed.

Lemma SendData_sends_at_most_once_witness :
  let env := fun attempt : nat => (Z.of_nat attempt, Nat.eqb attempt 1) in
  let c := set_isConnected true (set_conn (Some 1%nat) (NewClient Samples.sampleConfig)) in
  sendDataPost env "t1" "c1" (B "ping") c
    (SendData Samples.sampleWorld env "t1" "c1" (B "ping") c).
Proof.
  intros env c.
  apply (SendData_sends_at_most_once Samples.sampleWorld env "t1" "c1" (B "ping") c).
  reflexivity.
Defined.

(** X4. When the first write of [SendData] fails, [sendMessage] has cleared
    the connected flag, so the two retries are refused without a write
    whatever the network would answer: with no [Connect] from another
    goroutine in between, [SendData] sleeps 100, 150 and 225 ms and returns
    the error of three failed attempts; the socket stays open. *)
Theorem SendData_retries_without_writing w env tunnelID connectionID data c k :
  mutex c = false -> isConnected c = true -> conn c = Some k ->
  payloadMarshals w (DataPayload tunnelID connectionID data) = true ->
  messageMarshals w (dataFrame env 0 tunnelID connectionID data) = true ->
  snd (env 0%nat) = false ->
  exists c',
    SendData w env tunnelID connectionID data c = Ret (Some (ErrSendData 3)) c'
    /\ isConnected c' = false /\ conn c' = Some k /\ mutex c' = false
    /\ trace c' = trace c ++ map Slept backoffs.
Proof.
  intros Hm Hc Hk Hp Hj Hw. unfold SendData. cbn [sendDataLoop].
  unfold NewMessage. rewrite Hp.
  fold (dataFrame env 0 tunnelID connectionID data).
  fold (dataFrame env 1 tunnelID connectionID data).
  fold (dataFrame env 2 tunnelID connectionID data).
  unfold Eff.bind at 1. rewrite Hw.
  rewrite (sendMessage_write_failed w _ c k) by done.
  unfold Eff.bind at 1, modify at 1. unfold Eff.bind at 1.
  rewrite sendMessage_not_connected; [|done|by left].
  unfold Eff.bind at 1, modify at 1. unfold Eff.bind at 1.
  rewrite sendMessage_not_connected; [|done|by left].
  unfold Eff.bind at 1, modify at 1. unfold ret.
  eexists. split; [done|]. cbn. rewrite <- !app_assoc. by rewrite Hk, Hm.
Qed.

Lemma SendData_retries_without_writing_witness :
  let env := fun attempt : nat => (Z.of_nat attempt, negb (Nat.eqb attempt 0)) in
  let c := set_isConnected true (set_conn (Some 1%nat) (NewClient Samples.sampleConfig)) in
  exists c',
    SendData Samples.sampleWorld env "t1" "c1" (B "ping") c
    = Ret (Some (ErrSendData 3)) c'
    /\ isConnected c' = false /\ conn c' = Some 1%nat /\ mutex c' = false
    /\ trace c' = trace c ++ map Slept backoffs.
Proof.
  intros env c.
  apply (SendData_retries_without_writing Samples.sampleWorld env "t1" "c1"
           (B "ping") c 1%nat); reflexivity.
Defined.





End SessionData.

(** ** The tunnel registry: opening the local connection *)

Section RegistryDials.
Import GoStrings Eff Registry RegistrySpec RegistryDial.
Local Open Scope eff_scope.

Lemma dialAttempts_fail dial addr left i r :
  (forall j, (i <= j < i + left)%nat -> dial j = None) ->
  dialAttempts dial addr left i r = Ret None (withEvents (failedDials addr i left) r).
Proof.
  revert i r. induction left as [|left IH]; intros i r Hfail.
  - cbn. by rewrite withEvents_nil.
  - cbn [dialAttempts failedDials]. unfold Eff.bind, modify.
    rewrite (Hfail i) by lia. rewrite !emit_withEvents, withEvents_app.
    rewrite IH by (intros j Hj; apply Hfail; lia).
    by rewrite withEvents_app.
Qed.


Lemma failedDials_sleeps addr i k :
  sleepsOf (failedDials addr i k)
  = map (fun j : nat => Z.of_nat (j + 1) * 200 * millisecond) (seq i k).
Proof. revert i. induction k as [|k IH]; intros i; cbn; by rewrite ?IH. Qed.

Lemma failedDials_writes addr i k : writesOf (failedDials addr i k) = [].
Proof. revert i. induction k as [|k IH]; intros i; cbn; by rewrite ?IH. Qed.

Lemma failedDials_spawns addr i k : spawnsOf (failedDials addr i k) = [].
Proof. revert i. induction k as [|k IH]; intros i; cbn; by rewrite ?IH. Qed.

(** X6. A data message for a connection that is not registered yet, on a
    known tunnel, whose five dials of the local service all fail: the
    handler has dialled [LocalAddr:LocalPort] five times with a 5 s timeout,
    slept 200, 400, 600, 800 and 1000 ms (also after the last failure),
    returns the dial error, registers no connection, starts no forwarder
    and writes the payload nowhere. *)
Theorem handleDataMessage_dial_failure dial wr tunnelID connectionID data r tunnel :
  connections r !! connectionID = None ->
  GetByID tunnelID r = Some tunnel ->
  (forall j, (j < 5)%nat -> dial j = None) ->
  exists r',
    handleDataMessage dial wr (Some (tunnelID, connectionID, data)) r
    = Ret (Some ErrDialFailed) r'
    /\ events r' = events r ++ failedDials (localAddrOf tunnel) 0 5
    /\ sleepsOf (failedDials (localAddrOf tunnel) 0 5)
       = [200 * millisecond; 400 * millisecond; 600 * millisecond;
          800 * millisecond; 1000 * millisecond]
    /\ writesOf (failedDials (localAddrOf tunnel) 0 5) = []
    /\ spawnsOf (failedDials (localAddrOf tunnel) 0 5) = []
    /\ connections r' = connections r /\ tunnels r' = tunnels r.
Proof.
  intros Hconn Htun Hfail.
  unfold handleDataMessage, Eff.bind at 1, get. rewrite Hconn, Htun.
  unfold Eff.bind at 1. fold (localAddrOf tunnel).
  rewrite dialAttempts_fail by (intros j Hj; apply Hfail; lia).
  unfold ret. eexists. split; [done|]. by repeat split.
Qed.

Lemma handleDataMessage_dial_failure_witness :
  exists r',
    handleDataMessage (fun _ => None) Samples.failingWrites
      (Some ("t1"%string, "c9"%string, B "ping")) Samples.sampleRegistry
    = Ret (Some ErrDialFailed) r'
    /\ events r' = events Samples.sampleRegistry
                   ++ failedDials (localAddrOf Samples.sampleTunnel) 0 5
    /\ connections r' = connections Samples.sampleRegistry.
Proof.
  destruct (handleDataMessage_dial_failure (fun _ => None) Samples.failingWrites
              "t1" "c9" (B "ping") Samples.sampleRegistry Samples.sampleTunnel)
    as (r' & H & He & _ & _ & _ & Hc & _); [reflexivity|reflexivity|done|].
  by exists r'.
Defined.






End RegistryDials.

(** ** The Direct-TCP tunnel: what [Start] and [Stop] leave behind *)

Section DirectLifecycle.
Import GoStrings Eff Direct DirectControl DirectSpec DirectRuns.
Local Open Scope eff_scope.

Lemma HasPrefix_app_l s p q : HasPrefix s (p ++ q) = true -> HasPrefix s p = true.
Proof.
  revert s. induction p as [|a p IH]; intros s; [done|].
  destruct s as [|b s]; [done|]. cbn. destruct (decide (a = b)); [apply IH|done].
Qed.

Lemma HasPrefix_Contains s p : HasPrefix s p = true -> Contains s p = true.
Proof. intros H. destruct s; cbn; by rewrite H. Qed.

(** The setters commute with each other and with the events; a state is
    brought to the form [set_listener _ (set_mutex _ (withEvents _ (set_connection _
    (set_stopped _ t))))]. *)
Lemma emit_as_withEvents e t : emit e t = withEvents [e] t.
Proof. by destruct t. Qed.
Lemma withEvents_twice evs1 evs2 t :
  withEvents evs2 (withEvents evs1 t) = withEvents (evs1 ++ evs2) t.
Proof. destruct t; unfold withEvents; cbn. f_equal. symmetry. apply app_assoc. Qed.
Lemma set_connection_withEvents c evs t :
  set_connection c (withEvents evs t) = withEvents evs (set_connection c t).
Proof. by destruct t. Qed.
Lemma set_mutex_withEvents m evs t :
  set_mutex m (withEvents evs t) = withEvents evs (set_mutex m t).
Proof. by destruct t. Qed.
Lemma set_mutex_set_connection m c t :
  set_mutex m (set_connection c t) = set_connection c (set_mutex m t).
Proof. by destruct t. Qed.
Lemma set_mutex_set_stopped m s t :
  set_mutex m (set_stopped s t) = set_stopped s (set_mutex m t).
Proof. by destruct t. Qed.
Lemma set_mutex_set_listener m l t :
  set_mutex m (set_listener l t) = set_listener l (set_mutex m t).
Proof. by destruct t. Qed.
Lemma set_mutex_twice m m' t : set_mutex m (set_mutex m' t) = set_mutex m t.
Proof. by destruct t. Qed.
Lemma set_mutex_same t : set_mutex (mutex t) t = t.
Proof. by destruct t. Qed.
Lemma set_remotePort_set_mutex p m t :
  set_remotePort p (set_mutex m t) = set_mutex m (set_remotePort p t).
Proof. by destruct t. Qed.

Lemma withEvents_set_listener l evs t :
  withEvents evs (set_listener l t) = set_listener l (withEvents evs t).
Proof. by destruct t. Qed.
Lemma set_mutex_free t : mutex t = false -> set_mutex false t = t.
Proof. destruct t; cbn. by intros ->. Qed.

Lemma set_connection_set_listener c l t :
  set_connection c (set_listener l t) = set_listener l (set_connection c t).
Proof. by destruct t. Qed.

Lemma set_connection_same t : set_connection (connection t) t = t.
Proof. by destruct t. Qed.
Lemma set_listener_same t : set_listener (listener t) t = t.
Proof. by destruct t. Qed.

Create Rewrite HintDb direct_norm.
#[local] Hint Rewrite emit_as_withEvents withEvents_twice set_connection_withEvents
  set_mutex_withEvents set_mutex_set_connection set_mutex_set_stopped
  set_mutex_set_listener set_mutex_twice set_remotePort_set_mutex
  withEvents_set_listener set_connection_set_listener : direct_norm.

Lemma registration_locked t m trailer :
  registration (set_mutex m t) trailer = registration t trailer.
Proof. by destruct t. Qed.

(** [Start] on an idle tunnel whose mutex is free, case by case. *)
Lemma Start_idle e envs t :
  mutex t = false -> idle t ->
  Start (e :: envs) t =
  let t0 := set_stopped false t in
  match listened e with
  | None => Ret (Some ErrListen) (withEvents [Listen (localPort t)] t0)
  | Some l =>
      match dialed e with
      | None =>
          Ret (Some ErrConnectServer) (withEvents (dialEvents t ++ [CloseListener l]) t0)
      | Some sock =>
          let t1 := set_connection (Some sock) t0 in
          let line := WriteConn sock (registration t "DIRECT_TCP_FORWARD") in
          if negb (writeOk e)
          then Ret (Some ErrSend) (withEvents (dialEvents t ++ [line]) t1)
          else
            match response e with
            | None =>
                Ret (Some ErrRead)
                  (withEvents (dialEvents t ++ [line; readEvent t sock]) t1)
            | Some resp =>
                if Contains (B resp) (B "ERROR") then
                  Blocked (set_mutex true
                             (set_remotePort (10000 + Intn (random e) 20000)
                                (withEvents (dialEvents t
                                               ++ [line; readEvent t sock; CloseConn sock;
                                                   Sleep (500 * millisecond)]) t1)))
                else if confirms t resp then
                  Ret None
                    (set_listener (Some l)
                       (withEvents (dialEvents t
                                      ++ [line; readEvent t sock; SpawnAcceptLoop l;
                                          SpawnControlLoop]) t1))
                else if Contains (B resp) (B "CONNECTED") then
                  Blocked (set_mutex true
                             (withEvents (dialEvents t ++ [line; readEvent t sock]) t1))
                else
                  Ret (Some (ErrUnexpected resp))
                    (withEvents (dialEvents t ++ [line; readEvent t sock; CloseConn sock])
                       t1)
            end
      end
  end.
Proof.
  intros Hm [Hl Hc]. cbn [Start]. unfold Eff.bind at 1, lock at 1. rewrite Hm.
  unfold startBody, dialEvents, readEvent, confirms, afterResponse, unlock.
  assert (Hidle : forall u, listener u = None -> connection u = None ->
            bool_decide (listener u <> None) || bool_decide (connection u <> None)
            = false).
  { intros u -> ->. by rewrite !bool_decide_eq_false_2 by (intros H; by apply H). }
  destruct (listened e) as [l|]; [destruct (dialed e) as [sock|];
    [destruct (writeOk e); [destruct (response e) as [resp|];
      [destruct (Contains (B resp) (B "ERROR")) eqn:Herr;
        [|destruct (HasPrefix (B resp) (B "CONNECTED:")) eqn:Hpre;
           [rewrite (HasPrefix_Contains (B resp) (B "CONNECTED"))
              by (apply (HasPrefix_app_l _ (B "CONNECTED") (B ":")), Hpre);
            destruct (portOf resp) as [actualPort|];
              [destruct (actualPort =? remotePort t) eqn:Hp|]
           |destruct (Contains (B resp) (B "CONNECTED"))]]|]|]|]|];
    unfold Eff.bind, get, modify, ret; cbv beta;
    rewrite Hidle by done; cbn [negb andb orb];
    cbn [remotePort emit set_connection set_stopped set_mutex set_listener];
    rewrite ?Hp; cbn [negb];
    rewrite ?Start_held by done;
    unfold adoptPort, Eff.bind, lock;
    cbn [mutex emit set_connection set_stopped set_mutex set_listener];
    autorewrite with direct_norm;
    rewrite ?registration_locked;
    change (localPort (set_mutex true t)) with (localPort t);
    change (serverAddr (set_mutex true t)) with (serverAddr t);
    change (controlPort (set_mutex true t)) with (controlPort t);
    change (targetAddr (set_mutex true t)) with (targetAddr t);
    rewrite ?set_mutex_free by done;
    unfold dialEvents, readEvent; cbn [app]; reflexivity.
Qed.


(** [Start] on a tunnel that has a listener or a connection is refused
    and touches nothing. *)
Lemma Start_running e envs t :
  mutex t = false -> listener t <> None \/ connection t <> None ->
  Start (e :: envs) t = Ret (Some ErrAlreadyRunning) t.
Proof.
  intros Hm Hrun. cbn [Start]. unfold Eff.bind at 1, lock at 1. rewrite Hm.
  unfold startBody, Eff.bind, get, ret, unlock, modify.
  cbn [listener connection set_mutex].
  replace (bool_decide (listener t <> None) || bool_decide (connection t <> None))
    with true.
  - f_equal. destruct t; cbn in *; by subst.
  - symmetry. apply orb_true_iff.
    destruct Hrun; [left|right]; by apply bool_decide_eq_true_2.
Qed.

Lemma idle_dec t : idle t \/ (listener t <> None \/ connection t <> None).
Proof.
  unfold idle. destruct (listener t), (connection t);
    try (right; left; discriminate); try (right; right; discriminate). by left.
Qed.

Lemma closedListeners_app evs1 evs2 :
  closedListeners (evs1 ++ evs2) = closedListeners evs1 ++ closedListeners evs2.
Proof. induction evs1 as [|[] evs1 IH]; cbn; by rewrite ?IH. Qed.

Lemma closedConns_app evs1 evs2 :
  closedConns (evs1 ++ evs2) = closedConns evs1 ++ closedConns evs2.
Proof. induction evs1 as [|[] evs1 IH]; cbn; by rewrite ?IH. Qed.

(** X8. Whenever [Start] returns, with an error or without, the remote
    port is the one the tunnel had before the call and the port-change
    callback has not been called: the two paths of [Start] that assign
    [remotePort] (the server's alternative port, the random port after
    [ERROR]) never return. *)
Theorem Start_returns_with_requested_port e envs t err t' :
  mutex t = false ->
  Start (e :: envs) t = Ret err t' ->
  remotePort t' = remotePort t
  /\ callbacksOf (events t') = callbacksOf (events t)
  /\ mutex t' = false.
Proof.
  intros Hm. destruct (idle_dec t) as [Hidle|Hrun].
  - rewrite Start_idle by done. cbv zeta.
    destruct (listened e) as [l|]; [destruct (dialed e) as [sock|];
      [destruct (writeOk e); [destruct (response e) as [resp|];
        [destruct (Contains (B resp) (B "ERROR"));
          [|destruct (confirms t resp);
             [|destruct (Contains (B resp) (B "CONNECTED"))]]|]|]|]|];
      cbn [negb]; try discriminate; intros [= <- <-];
      cbn [remotePort events mutex withEvents set_listener set_connection set_stopped];
      rewrite ?callbacksOf_app; cbn [callbacksOf dialEvents app readEvent];
      by rewrite ?app_nil_r.
  - rewrite Start_running by done. by intros [= <- <-].
Qed.

Lemma Start_returns_with_requested_port_witness :
  remotePort (final (Start [Samples.answering "CONNECTED:20000"] Samples.sampleDirect))
  = remotePort Samples.sampleDirect
  /\ callbacksOf (events (final (Start [Samples.answering "CONNECTED:20000"]
                                   Samples.sampleDirect)))
     = callbacksOf (events Samples.sampleDirect)
  /\ mutex (final (Start [Samples.answering "CONNECTED:20000"] Samples.sampleDirect))
     = false.
Proof.
  apply (Start_returns_with_requested_port (Samples.answering "CONNECTED:20000") []
           Samples.sampleDirect None); [reflexivity|vm_compute; reflexivity].
Defined.

(** X9. [Start] on an idle tunnel returns [nil] exactly when the listener
    opens, the server is reached, the registration line is written and the
    answer read contains [CONNECTED], does not contain [ERROR] and, if it
    begins with [CONNECTED:], names after the colon the requested port or
    nothing [strconv.Atoi] accepts.  The tunnel then holds the listener
    and the connection, is not flagged stopped, has sent the one
    registration line and started its two loops. *)
Theorem Start_succeeds_iff e envs t :
  mutex t = false -> idle t ->
  forall t',
    Start (e :: envs) t = Ret None t'
    <-> exists l sock resp,
          listened e = Some l /\ dialed e = Some sock /\ writeOk e = true
          /\ response e = Some resp
          /\ Contains (B resp) (B "ERROR") = false
          /\ Contains (B resp) (B "CONNECTED") = true
          /\ (HasPrefix (B resp) (B "CONNECTED:") = true ->
              portOf resp = None \/ portOf resp = Some (remotePort t))
          /\ t' = set_listener (Some l)
                    (withEvents
                       (dialEvents t
                          ++ [WriteConn sock (registration t "DIRECT_TCP_FORWARD");
                              readEvent t sock; SpawnAcceptLoop l; SpawnControlLoop])
                       (set_connection (Some sock) (set_stopped false t))).
Proof.
  intros Hm Hidle t'. rewrite Start_idle by done. cbv zeta. split.
  - destruct (listened e) as [l|]; [|done].
    destruct (dialed e) as [sock|]; [|done].
    destruct (writeOk e); [|done]. cbn [negb].
    destruct (response e) as [resp|]; [|done].
    destruct (Contains (B resp) (B "ERROR")) eqn:Herr; [done|].
    destruct (confirms t resp) eqn:Hconf;
      [|by destruct (Contains (B resp) (B "CONNECTED"))].
    intros [= <-]. exists l, sock, resp.
    unfold confirms in Hconf. rewrite Herr in Hconf. cbn [negb andb] in Hconf.
    apply andb_true_iff in Hconf as [Hcon Hport].
    repeat split; try done.
    intros Hpre. rewrite Hpre in Hport. cbn [negb orb] in Hport.
    destruct (portOf resp) as [p|]; [|by left].
    right. apply Z.eqb_eq in Hport. by subst.
  - intros (l & sock & resp & -> & -> & -> & -> & Herr & Hcon & Hport & ->).
    cbn [negb]. rewrite Herr.
    replace (confirms t resp) with true; [done|].
    symmetry. unfold confirms. rewrite Herr, Hcon. cbn [negb andb].
    destruct (HasPrefix (B resp) (B "CONNECTED:")); [|done]. cbn [negb orb].
    destruct (Hport eq_refl) as [-> | ->]; [done|]. apply Z.eqb_refl.
Qed.

Lemma Start_succeeds_iff_witness :
  let t' := final (Start [Samples.answering "CONNECTED"] Samples.sampleDirect) in
  Start [Samples.answering "CONNECTED"] Samples.sampleDirect = Ret None t'
  /\ listener t' = Some 1%nat /\ connection t' = Some 2%nat.
Proof.
  intros t'. split; [|split; vm_compute; reflexivity].
  apply (Start_succeeds_iff (Samples.answering "CONNECTED") [] Samples.sampleDirect);
    [reflexivity|split; reflexivity|].
  exists 1%nat, 2%nat, "CONNECTED"%string.
  repeat split; try (vm_compute; reflexivity). intros H. discriminate H.
Defined.

Lemma Stop_free t :
  mutex t = false ->
  Stop t = Ret tt
             (set_connection None
                (set_listener None
                   (withEvents
                      (match listener t with Some l => [CloseListener l] | None => [] end
                       ++ match connection t with
                          | Some sock => [CloseConn sock]
                          | None => []
                          end)
                      (set_stopped true t)))).
Proof.
  intros Hm. unfold Stop, unlock, Eff.bind, lock, get, modify, ret. rewrite Hm.
  change (listener (set_stopped true (set_mutex true t))) with (listener t).
  assert (Hk : forall evs s, set_connection None (withEvents evs (set_stopped s t))
                             = withEvents evs (set_connection None (set_stopped s t)))
    by (intros; by rewrite set_connection_withEvents).
  destruct (listener t) as [l|] eqn:Hl.
  - change (connection (set_listener None
                          (emit (CloseListener l) (set_stopped true (set_mutex true t)))))
      with (connection t).
    destruct (connection t) as [sock|] eqn:Hc; f_equal;
      autorewrite with direct_norm; rewrite set_mutex_free by done; [done|].
    rewrite app_nil_r.
    replace (set_connection None (set_stopped true t)) with (set_stopped true t);
      [done|].
    rewrite <- (set_connection_same (set_stopped true t)) at 1. cbn [connection set_stopped].
    by rewrite Hc.
  - change (connection (set_stopped true (set_mutex true t))) with (connection t).
    assert (Hnl : forall u, listener u = None -> set_listener None u = u)
      by (intros u Hu; rewrite <- Hu; apply set_listener_same).
    destruct (connection t) as [sock|] eqn:Hc; f_equal;
      autorewrite with direct_norm; rewrite set_mutex_free by done;
      rewrite Hnl by done; [done|].
    cbn [app].
    replace (set_connection None (set_stopped true t)) with (set_stopped true t).
    + destruct t; unfold withEvents, set_stopped; cbn. by rewrite app_nil_r.
    + rewrite <- (set_connection_same (set_stopped true t)) at 1.
      cbn [connection set_stopped]. by rewrite Hc.
Qed.

(** X10. A [Start] that fails after the server was reached (the line could
    not be written, the answer could not be read, or it was not a
    confirmation) leaves the connection installed and the listener it opened
    unrecorded and open.  Every later [Start] is then refused without any
    network action until [Stop] is called, and [Stop] closes the connection
    but not that listener: the local port stays bound. *)
Theorem failed_Start_keeps_listener_open e envs t err t' l :
  mutex t = false -> idle t -> listened e = Some l ->
  Start (e :: envs) t = Ret (Some err) t' ->
  err <> ErrConnectServer ->
  (exists sock, dialed e = Some sock /\ connection t' = Some sock)
  /\ listener t' = None
  /\ closedListeners (events t') = closedListeners (events t)
  /\ (forall e2 envs2, Start (e2 :: envs2) t' = Ret (Some ErrAlreadyRunning) t')
  /\ exists t2, Stop t' = Ret tt t2
                /\ idle t2
                /\ closedListeners (events t2) = closedListeners (events t)
                /\ closedConns (events t2) <> closedConns (events t).
Proof.
  intros Hm [Hl Hc] Hel. rewrite Start_idle by done. cbv zeta. rewrite Hel.
  destruct (dialed e) as [sock|]; [|by intros [= <- <-]].
  assert (Hgen : forall evs u,
    closedListeners evs = [] ->
    u = withEvents (dialEvents t ++ evs) (set_connection (Some sock) (set_stopped false t)) ->
    (exists sock0, Some sock = Some sock0 /\ connection u = Some sock0)
    /\ listener u = None
    /\ closedListeners (events u) = closedListeners (events t)
    /\ (forall e2 envs2, Start (e2 :: envs2) u = Ret (Some ErrAlreadyRunning) u)
    /\ exists t2, Stop u = Ret tt t2
                  /\ idle t2
                  /\ closedListeners (events t2) = closedListeners (events t)
                  /\ closedConns (events t2) <> closedConns (events t)).
  { intros evs u Hevs ->.
    split; [by exists sock|]. split; [done|].
    split; [cbn [events withEvents set_connection set_stopped];
            rewrite !closedListeners_app; cbn [closedListeners dialEvents app];
            rewrite Hevs; by rewrite app_nil_r|].
    split; [intros e2 envs2; apply Start_running; [done|by right]|].
    rewrite Stop_free by done. eexists. split; [done|].
    cbn [listener connection withEvents set_connection set_stopped set_listener events].
    rewrite Hl. split; [done|].
    rewrite !closedListeners_app, !closedConns_app.
    cbn [closedListeners dialEvents app]. rewrite Hevs.
    split; [by rewrite !app_nil_r|].
    intros H. apply (f_equal length) in H. rewrite !length_app in H. cbn in H. lia. }
  destruct (writeOk e); cbn [negb].
  2:{ intros [= <- <-] _. eapply Hgen; cycle 1; reflexivity. }
  destruct (response e) as [resp|].
  2:{ intros [= <- <-] _. eapply Hgen; cycle 1; reflexivity. }
  destruct (Contains (B resp) (B "ERROR")); [done|].
  destruct (confirms t resp); [done|].
  destruct (Contains (B resp) (B "CONNECTED")); [done|].
  intros [= <- <-] _. eapply Hgen; cycle 1; reflexivity.
Qed.

Lemma failed_Start_keeps_listener_open_witness :
  let e := {| listened := Some 1%nat; dialed := Some 2%nat; writeOk := true;
              response := Some "BUSY"%string; random := 0 |} in
  let t' := final (Start [e] Samples.sampleDirect) in
  listener t' = None
  /\ closedListeners (events t') = []
  /\ forall e2 envs2, Start (e2 :: envs2) t' = Ret (Some ErrAlreadyRunning) t'.
Proof.
  intros e t'.
  destruct (failed_Start_keeps_listener_open e [] Samples.sampleDirect
              (ErrUnexpected "BUSY") t' 1%nat)
    as (_ & Hl & Hcl & Hrun & _);
    [reflexivity|split; reflexivity|reflexivity|vm_compute; reflexivity|discriminate|].
  exact (conj Hl (conj Hcl Hrun)).
Defined.




End DirectLifecycle.

(** ** The Direct-TCP tunnel: requests on the control connection *)

Section DirectControlRequests.
Import GoStrings Eff Direct DirectControl DirectRuns.

Lemma B_app a b : B (a +:+ b) = B a ++ B b.
Proof.
  unfold B. induction a as [|c a IH]; [done|].
  change (String c a +:+ b) with (String c (a +:+ b)). cbn. f_equal. apply IH.
Qed.

Lemma split_scan_sep c a rest cur :
  c ∉ a ->
  split_scan [c] (a ++ c :: rest) 0 cur = (rev cur ++ a) :: split_scan [c] rest 0 [].
Proof.
  revert cur. induction a as [|x a IH]; intros cur Hc.
  - cbn. rewrite decide_True by done. by rewrite app_nil_r.
  - apply not_elem_of_cons in Hc as [Hx Ha]. cbn.
    rewrite decide_False by done. rewrite IH by done.
    cbn. by rewrite <- app_assoc.
Qed.

Lemma split_scan_end c a cur : c ∉ a -> split_scan [c] a 0 cur = [rev cur ++ a].
Proof.
  revert cur. induction a as [|x a IH]; intros cur Hc.
  - cbn. by rewrite app_nil_r.
  - apply not_elem_of_cons in Hc as [Hx Ha]. cbn.
    rewrite decide_False by done. rewrite IH by done.
    cbn. by rewrite <- app_assoc.
Qed.

Lemma Contains_single c l : c ∉ l -> Contains l [c] = false.
Proof.
  induction l as [|x l IH]; intros Hc; [done|].
  apply not_elem_of_cons in Hc as [Hx Hl]. cbn.
  rewrite decide_False by done. by apply IH.
Qed.


(** X13. A request [CONNECT:host:port] whose host and port contain no
    colon makes the client dial exactly [host:port], with a timeout of 10
    seconds: the target is taken from the server's request as it stands
    (the tunnel's own target address plays no part), and the port is not
    checked to be a number. *)
Theorem handleControlConnection_dials_requested_target e controlConn host port :
  ":"%char ∉ B host -> ":"%char ∉ B port ->
  request e = Some ("CONNECT:" +:+ host +:+ ":" +:+ port)%string ->
  exists rest,
    handleControlConnection e controlConn
    = Read controlConn 1024
      :: DialTarget (host +:+ ":" +:+ port)%string (10 * second) :: rest.
Proof.
  intros Hh Hp Hreq. unfold handleControlConnection. rewrite Hreq.
  change (B ("CONNECT:" +:+ host +:+ ":" +:+ port))
    with (B "CONNECT:" ++ B (host +:+ ":" +:+ port)).
  rewrite HasPrefix_app.
  change (B "CONNECT:" ++ B (host +:+ ":" +:+ port))
    with (B "CONNECT" ++ ":"%char :: B (host +:+ ":" +:+ port)).
  rewrite B_app.
  change (B (":" +:+ port)) with (":"%char :: B port).
  unfold Split. change (B ":") with [":"%char].
  rewrite split_scan_sep by (apply (bool_decide_unpack _); vm_compute; exact I).
  rewrite split_scan_sep by done.
  rewrite split_scan_end by done.
  cbn [rev app]. unfold B at 1 2. rewrite !string_of_list_ascii_of_string.
  unfold Registry.JoinHostPort. change (B ":") with [":"%char].
  rewrite Contains_single by done.
  destruct (targetDialed e); eexists; reflexivity.
Qed.

Lemma handleControlConnection_dials_requested_target_witness :
  exists rest,
    handleControlConnection
      {| request := Some "CONNECT:10.0.0.7:5432"%string; targetDialed := Some 5%nat;
         dialError := EmptyString |} 3%nat
    = Read 3%nat 1024 :: DialTarget "10.0.0.7:5432" (10 * second) :: rest.
Proof.
  apply (handleControlConnection_dials_requested_target _ 3%nat "10.0.0.7" "5432");
    [apply (bool_decide_unpack _); vm_compute; exact I
    |apply (bool_decide_unpack _); vm_compute; exact I
    |reflexivity].
Defined.

End DirectControlRequests.

(** ** The registry of Direct-TCP tunnels *)

Section DirectRepository.
Import GoStrings Eff Registry TunnelModel DirectRepo DirectRepoRuns DirectRuns.

Lemma generateRandomInt_range now min max :
  0 <= now -> min <= max -> min <= generateRandomInt now min max <= max.
Proof.
  intros Hnow Hle. unfold generateRandomInt.
  pose proof (Z.rem_bound_pos now (max - min + 1)). lia.
Qed.

Lemma requestedPort_spec e cfg :
  0 <= nowPort e ->
  (RemotePort cfg <> 0 -> requestedPort e cfg = RemotePort cfg)
  /\ (RemotePort cfg = 0 -> 10000 <= requestedPort e cfg <= 30000)
  /\ requestedPort e cfg <> 0.
Proof.
  intros Hnow. unfold requestedPort.
  pose proof (generateRandomInt_range (nowPort e) 10000 30000 Hnow).
  destruct (RemotePort cfg =? 0) eqn:E.
  - apply Z.eqb_eq in E. lia.
  - apply Z.eqb_neq in E. lia.
Qed.

Lemma listenerPort_spec e cfg :
  0 <= nowListener e ->
  1024 <= listenerPort e cfg <= 65535
  /\ (listenerPort e cfg = 6000 + LocalPort cfg \/ 3000 <= listenerPort e cfg <= 9000)
  /\ listenerPort e cfg <> LocalPort cfg.
Proof.
  intros Hnow. unfold listenerPort. cbv zeta.
  pose proof (generateRandomInt_range (nowListener e) 3000 9000 Hnow).
  destruct (_ || _) eqn:E.
  - apply orb_true_iff in E as [E|E]; [apply Z.ltb_lt in E|apply Z.ltb_lt in E]; lia.
  - apply orb_false_iff in E as [E1 E2].
    apply Z.ltb_ge in E1. apply Z.ltb_ge in E2. lia.
Qed.

(** Which of the two ports [Register] listens on. *)
Lemma listenerPort_cases e cfg :
  0 <= nowListener e ->
  (1024 <= 6000 + LocalPort cfg <= 65535 -> listenerPort e cfg = 6000 + LocalPort cfg)
  /\ (~ 1024 <= 6000 + LocalPort cfg <= 65535 ->
      listenerPort e cfg = generateRandomInt (nowListener e) 3000 9000
      /\ 3000 <= listenerPort e cfg <= 9000).
Proof.
  intros Hnow. unfold listenerPort. cbv zeta.
  pose proof (generateRandomInt_range (nowListener e) 3000 9000 Hnow ltac:(lia)).
  destruct (_ || _) eqn:E.
  - apply orb_true_iff in E as [E|E]; apply Z.ltb_lt in E; (split; [lia|done]).
  - apply orb_false_iff in E as [E1 E2].
    apply Z.ltb_ge in E1. apply Z.ltb_ge in E2. split; [done|lia].
Qed.

Lemma created_requested e cfg r :
  0 <= nowPort e -> Direct.remotePort (created e cfg r) = requestedPort e cfg.
Proof.
  intros Hnow. unfold created, CreateTunnel. cbn [Direct.remotePort Direct.NewDirectTunnel].
  destruct (requestedPort e cfg =? 0) eqn:E; [|done].
  apply Z.eqb_eq in E. by destruct (requestedPort_spec e cfg Hnow) as (_ & _ & ?).
Qed.

(** [Register], with the tunnel it creates named. *)
Lemma Register_eq e cfg r :
  Register e cfg r =
  match Direct.Start (attempts e) (created e cfg r) with
  | Blocked dt' =>
      Blocked {| config := config r; tunnels := tunnels r;
                 dropped := dropped r ++ [dt'] |}
  | Ret (Some err) dt' =>
      Ret (inl (ErrStart err))
        {| config := config r; tunnels := tunnels r; dropped := dropped r ++ [dt'] |}
  | Ret None dt' =>
      let cfg' := set_RemotePort (requestedPort e cfg) cfg in
      let tunnel := SetTCPInfo (requestedPort e cfg) (NewTunnel (generateID (nowID e)) cfg') in
      Ret (inr (if negb (Direct.remotePort dt' =? requestedPort e cfg)
                then {| ID := ID tunnel;
                        Config := set_RemotePort (Direct.remotePort dt') (Config tunnel);
                        URL := URL tunnel; TunnelRemotePort := Direct.remotePort dt';
                        Active := Active tunnel |}
                else tunnel))
        {| config := config r;
           tunnels := <[generateID (nowID e) := dt']> (tunnels r);
           dropped := dropped r |}
  end.
Proof.
  unfold Register, created, requestedPort, listenerPort. cbv zeta.
  destruct (RemotePort cfg =? 0) eqn:E.
  - cbn [LocalPort RemotePort set_RemotePort].
    destruct (Direct.Start _ _) as [[err|] dt'|dt']; try done.
    by destruct (negb _).
  - replace (set_RemotePort (RemotePort cfg) cfg) with cfg by by destruct cfg.
    destruct (Direct.Start _ _) as [[err|] dt'|dt']; try done.
    by destruct (negb _).
Qed.

Lemma created_fresh e cfg r :
  Direct.mutex (created e cfg r) = false /\ idle (created e cfg r)
  /\ Direct.events (created e cfg r) = []
  /\ Direct.localPort (created e cfg r) = listenerPort e cfg
  /\ Direct.targetAddr (created e cfg r) = ("127.0.0.1:" +:+ itoa (LocalPort cfg))%string
  /\ Direct.serverAddr (created e cfg r) = Session.ServerAddress (config r)
  /\ Direct.controlPort (created e cfg r) = Session.ControlPort (config r).
Proof. by repeat split. Qed.

(** What every run of [Start] on a fresh tunnel leaves of its
    configuration. *)
Lemma Start_final_fields a rest t :
  Direct.mutex t = false -> idle t -> Direct.events t = [] ->
  let t' := final (Direct.Start (a :: rest) t) in
  Direct.targetAddr t' = Direct.targetAddr t
  /\ Direct.localPort t' = Direct.localPort t
  /\ Direct.serverAddr t' = Direct.serverAddr t
  /\ Direct.controlPort t' = Direct.controlPort t
  /\ head (Direct.events t') = Some (Direct.Listen (Direct.localPort t)).
Proof.
  intros Hm Hidle Hev. rewrite Start_idle by done. cbv zeta.
  destruct (Direct.listened a) as [l|]; [destruct (Direct.dialed a) as [sock|];
    [destruct (Direct.writeOk a); [destruct (Direct.response a) as [resp|];
      [destruct (Contains (B resp) (B "ERROR"));
        [|destruct (confirms t resp);
           [|destruct (Contains (B resp) (B "CONNECTED"))]]|]|]|]|];
    cbn [negb final Direct.targetAddr Direct.localPort Direct.serverAddr
           Direct.controlPort Direct.events withEvents Direct.set_listener
           Direct.set_connection Direct.set_stopped Direct.set_mutex
           Direct.set_remotePort];
    rewrite Hev; by repeat split.
Qed.

(** X14. Whatever address the configuration names as [LocalAddr], and
    however [Start] ends, the tunnel [Register] starts forwards to
    [127.0.0.1:LocalPort], registers with the relay of the repository's
    configuration, and listens first of all on a port between 1024 and
    65535: on [6000 + LocalPort] when that is in this range, and otherwise
    on the port between 3000 and 9000 that [generateRandomInt] draws from
    the clock. *)
Theorem Register_starts_loopback_tunnel e cfg r :
  0 <= nowListener e -> attempts e <> [] ->
  exists dt,
    startedBy (Register e cfg r) = Some dt
    /\ Direct.targetAddr dt = ("127.0.0.1:" +:+ itoa (LocalPort cfg))%string
    /\ 1024 <= Direct.localPort dt <= 65535
    /\ (1024 <= 6000 + LocalPort cfg <= 65535 ->
        Direct.localPort dt = 6000 + LocalPort cfg)
    /\ (~ 1024 <= 6000 + LocalPort cfg <= 65535 ->
        Direct.localPort dt = generateRandomInt (nowListener e) 3000 9000
        /\ 3000 <= Direct.localPort dt <= 9000)
    /\ Direct.serverAddr dt = Session.ServerAddress (config r)
    /\ Direct.controlPort dt = Session.ControlPort (config r)
    /\ head (Direct.events dt) = Some (Direct.Listen (Direct.localPort dt)).
Proof.
  intros Hnow Hatt. destruct (attempts e) as [|a rest] eqn:Ea; [done|].
  destruct (created_fresh e cfg r) as (Hm & Hidle & Hev & Hlp & Hta & Hsa & Hcp).
  destruct (Start_final_fields a rest (created e cfg r) Hm Hidle Hev)
    as (Ht & Hl & Hs & Hc & Hh).
  destruct (listenerPort_spec e cfg Hnow) as (Hrange & _ & _).
  destruct (listenerPort_cases e cfg Hnow) as (Hin & Hout).
  exists (final (Direct.Start (a :: rest) (created e cfg r))).
  rewrite Ht, Hl, Hs, Hc, Hh, Hlp, Hta, Hsa, Hcp.
  split;
    [|exact (conj eq_refl (conj Hrange (conj Hin (conj Hout
               (conj eq_refl (conj eq_refl eq_refl))))))].
  rewrite Register_eq, Ea.
  destruct (Direct.Start (a :: rest) (created e cfg r)) as [[err|] dt'|dt'];
    cbn [startedBy final dropped tunnels].
  - by rewrite last_snoc.
  - cbv zeta. destruct (negb _); cbn [ID SetTCPInfo NewTunnel];
      by rewrite lookup_insert_eq.
  - by rewrite last_snoc.
Qed.

Lemma Register_starts_loopback_tunnel_witness :
  exists dt,
    startedBy (Register (sampleRegister "CONNECTED") sampleSSH sampleRepo) = Some dt
    /\ Direct.targetAddr dt = "127.0.0.1:22"%string
    /\ Direct.localPort dt = 6022.
Proof.
  assert (H0 : 0 <= nowListener (sampleRegister "CONNECTED")) by (vm_compute; discriminate).
  assert (H1 : attempts (sampleRegister "CONNECTED") <> []) by discriminate.
  destruct (Register_starts_loopback_tunnel (sampleRegister "CONNECTED") sampleSSH
              sampleRepo H0 H1)
    as (dt & H & Ht & _ & Hin & _).
  exists dt. exact (conj H (conj Ht (Hin ltac:(vm_compute; split; discriminate)))).
Defined.


(** A [Register] that returns a tunnel: the answers it got and the state
    it leaves. *)
Lemma Register_success e cfg r tunnel r' :
  0 <= nowPort e ->
  Register e cfg r = Ret (inr tunnel) r' ->
  exists a rest l sock evs,
    attempts e = a :: rest
    /\ Direct.listened a = Some l /\ Direct.dialed a = Some sock
    /\ closedListeners evs = [] /\ closedConns evs = []
    /\ tunnel = SetTCPInfo (requestedPort e cfg)
                  (NewTunnel (generateID (nowID e))
                     (set_RemotePort (requestedPort e cfg) cfg))
    /\ r' = {| config := config r;
               tunnels :=
                 <[generateID (nowID e) :=
                     Direct.set_listener (Some l)
                       (withEvents evs
                          (Direct.set_connection (Some sock)
                             (Direct.set_stopped false (created e cfg r))))]>
                   (tunnels r);
               dropped := dropped r |}.
Proof.
  intros Hnow. rewrite Register_eq.
  destruct (attempts e) as [|a rest] eqn:Ea; [done|].
  destruct (created_fresh e cfg r) as (Hm & Hidle & _).
  rewrite Start_idle by done. cbv zeta.
  destruct (Direct.listened a) as [l|] eqn:Hl; [|done].
  destruct (Direct.dialed a) as [sock|] eqn:Hs; [|done].
  destruct (Direct.writeOk a); [|done]. cbn [negb].
  destruct (Direct.response a) as [resp|]; [|done].
  destruct (Contains (B resp) (B "ERROR")); [done|].
  destruct (confirms _ resp); [|by destruct (Contains (B resp) (B "CONNECTED"))].
  cbn [Direct.remotePort Direct.set_listener withEvents Direct.set_connection
         Direct.set_stopped].
  rewrite created_requested by done. rewrite Z.eqb_refl. cbn [negb].
  intros [= <- <-]. eexists a, rest, l, sock, _.
  do 3 (split; [done|]).
  refine (conj _ (conj _ (conj eq_refl eq_refl))); reflexivity.
Qed.





(** X17. When [Start] fails, [Register] returns its error and leaves the
    map of tunnels as it was, so that the tunnel it created cannot be
    reached by [Unregister] or [GetByID].  If the failure came after the
    server was reached, that tunnel still holds the server connection and
    the listener it opened has not been closed: the local port stays
    bound for the life of the process. *)
Theorem failed_Register_drops_open_tunnel e cfg r err r' a rest l sock :
  attempts e = a :: rest ->
  Direct.listened a = Some l -> Direct.dialed a = Some sock ->
  Register e cfg r = Ret (inl err) r' ->
  tunnels r' = tunnels r
  /\ config r' = config r
  /\ exists dt,
       dropped r' = dropped r ++ [dt]
       /\ head (Direct.events dt) = Some (Direct.Listen (Direct.localPort dt))
       /\ closedListeners (Direct.events dt) = []
       /\ Direct.listener dt = None
       /\ Direct.connection dt = Some sock.
Proof.
  intros Ea Hl Hs. rewrite Register_eq, Ea.
  destruct (created_fresh e cfg r) as (Hm & Hidle & Hev & _).
  rewrite Start_idle by done. cbv zeta. rewrite Hl, Hs.
  destruct Hidle as [Hil Hic].
  destruct (Direct.writeOk a); [destruct (Direct.response a) as [resp|];
      [destruct (Contains (B resp) (B "ERROR"));
        [|destruct (confirms _ resp);
           [|destruct (Contains (B resp) (B "CONNECTED"))]]|]|];
    cbn [negb]; try done;
    try (cbv zeta; by destruct (negb _));
    intros [= <- <-]; cbn [tunnels config dropped];
    (split; [done|]); (split; [done|]);
    eexists; (split; [reflexivity|]);
    cbn [Direct.events Direct.listener Direct.connection Direct.localPort withEvents
           Direct.set_connection Direct.set_stopped];
    rewrite Hev, Hil; by repeat split.
Qed.

Lemma failed_Register_drops_open_tunnel_witness :
  let res := Register (sampleRegister "BUSY") sampleSSH sampleRepo in
  tunnels (final res) = tunnels sampleRepo
  /\ exists dt, dropped (final res) = dropped sampleRepo ++ [dt]
                /\ closedListeners (Direct.events dt) = []
                /\ Direct.connection dt = Some 2%nat.
Proof.
  intros res.
  destruct res as [[err|tunnel] r'|r'] eqn:E; try (vm_compute in E; discriminate E).
  destruct (failed_Register_drops_open_tunnel (sampleRegister "BUSY") sampleSSH
              sampleRepo err r' (Samples.answering "BUSY") [] 1%nat 2%nat
              eq_refl eq_refl eq_refl E)
    as (Ht & _ & dt & Hd & _ & Hc & _ & Hk).
  split; [exact Ht|]. exists dt. exact (conj Hd (conj Hc Hk)).
Defined.

(** X18. [Unregister] of the id a successful [Register] returned stops the
    tunnel: the listener and the server connection that [Register] opened
    are each closed once, the id is removed, and [GetByID] no longer finds
    it; when the id was not in use before, the map of tunnels is back to
    what it was before [Register]. *)
Theorem Unregister_undoes_Register e cfg r tunnel r' :
  0 <= nowPort e ->
  Register e cfg r = Ret (inr tunnel) r' ->
  exists r'' dt l sock,
    Unregister (ID tunnel) r' = Ret None r''
    /\ tunnels r'' = delete (ID tunnel) (tunnels r)
    /\ (tunnels r !! ID tunnel = None -> tunnels r'' = tunnels r)
    /\ (forall splitHost, GetByID splitHost (ID tunnel) r'' = None)
    /\ last (dropped r'') = Some dt
    /\ idle dt /\ Direct.stopped dt = true
    /\ closedListeners (Direct.events dt) = [l]
    /\ closedConns (Direct.events dt) = [sock].
Proof.
  intros Hnow Hreg.
  destruct (Register_success e cfg r tunnel r' Hnow Hreg)
    as (a & rest & l & sock & evs & Ea & Hl & Hs & Hcl & Hcc & -> & ->).
  unfold Unregister. cbn [ID SetTCPInfo NewTunnel tunnels].
  rewrite lookup_insert_eq. rewrite Stop_free by done.
  eexists _, _, l, sock. split; [reflexivity|].
  cbn [tunnels dropped]. rewrite delete_insert_eq.
  split; [done|]. split; [by apply delete_id|].
  split; [intros sh; unfold GetByID; cbn [tunnels]; by rewrite lookup_delete_eq|].
  rewrite last_snoc. split; [done|].
  cbn [Direct.listener Direct.connection Direct.stopped Direct.events
         Direct.set_listener withEvents Direct.set_connection Direct.set_stopped].
  split; [done|]. split; [done|].
  destruct (created_fresh e cfg r) as (_ & _ & Hev & _). rewrite Hev.
  rewrite !closedListeners_app, !closedConns_app, Hcl, Hcc. by split.
Qed.

Lemma Unregister_undoes_Register_witness :
  let res := Register (sampleRegister "CONNECTED") sampleSSH sampleRepo in
  exists r'',
    Unregister "tunnel-1700000000123456999" (final res) = Ret None r''
    /\ tunnels r'' = delete "tunnel-1700000000123456999" (tunnels sampleRepo).
Proof.
  intros res.
  assert (H0 : 0 <= nowPort (sampleRegister "CONNECTED")) by (vm_compute; discriminate).
  destruct res as [[err|tunnel] r'|r'] eqn:E; try (vm_compute in E; discriminate E).
  destruct (Unregister_undoes_Register (sampleRegister "CONNECTED") sampleSSH
              sampleRepo tunnel r' H0 E) as (r'' & dt & l & sock & Hu & Ht & _).
  exists r''. revert Hu Ht. injection E as <- <-. cbn [final ID].
  intros Hu Ht. exact (conj Hu Ht).
Defined.

End DirectRepository.

(** ** The HTTP request handler *)

Section HTTPProxyFacts.
Import GoStrings Words HTMLRewrite HTTPProxy HTTPProxyRuns.

(** X19. The handler forwards the answer of the local service as it is
    (status, headers and body, under the id of the request) when the
    answer is not [text/html], and also when it is but its body contains
    none of the four strings the rewriting looks for. *)
Theorem HandleHTTPRequestMessage_forwards_verbatim
    subdomain request status headers body :
  Contains (B (firstHeader headers "Content-Type")) (B "text/html") = false
  \/ free (searched (LocalPort request)) body ->
  HandleHTTPRequestMessage subdomain (Some request) (Answered status headers body)
  = Some {| RespID := ID request; StatusCode := status; RespHeaders := headers;
            RespBody := body; Error := EmptyString |}.
Proof.
  intros H. unfold HandleHTTPRequestMessage. cbv zeta.
  destruct (Contains (B (firstHeader headers "Content-Type")) (B "text/html")) eqn:E;
    [|done].
  destruct H as [H|H]; [done|].
  unfold free, searched in H.
  apply Forall_cons in H as [H1 H]. apply Forall_cons in H as [H2 H].
  apply Forall_cons in H as [H3 H]. apply Forall_cons in H as [H4 _].
  unfold rewriteBody. cbv zeta.
  rewrite (ReplaceAll_absent_id body _ _ H1), (ReplaceAll_absent_id body _ _ H2).
  by rewrite (ReplaceAll_absent_id body _ _ H3), (ReplaceAll_absent_id body _ _ H4).
Qed.

Lemma HandleHTTPRequestMessage_forwards_verbatim_witness :
  HandleHTTPRequestMessage EmptyString (Some sampleRequest)
    (Answered 200 (<["Content-Type"%string := ["image/png"%string]]> ∅) samplePage)
  = Some {| RespID := "req-1"; StatusCode := 200;
            RespHeaders := <["Content-Type"%string := ["image/png"%string]]> ∅;
            RespBody := samplePage; Error := EmptyString |}.
Proof.
  apply (HandleHTTPRequestMessage_forwards_verbatim EmptyString sampleRequest 200
           (<["Content-Type"%string := ["image/png"%string]]> ∅) samplePage).
  left. vm_compute. reflexivity.
Defined.

(** X20. For a [text/html] answer, when the host name used keeps the
    inserted strings apart from the searched ones, the body the handler
    forwards contains none of the four searched strings any more: no
    [http://localhost:port], no [https://localhost:port], no [href] or
    [src] that begins with a slash.  Status and headers are those of the
    local service, unchanged (the headers also when the body has changed
    in length). *)
Theorem HandleHTTPRequestMessage_removes_local_links
    subdomain request status headers body :
  Contains (B (firstHeader headers "Content-Type")) (B "text/html") = true ->
  rewriteSafe (LocalPort request) (Scheme request) (hostnameOf subdomain request) = true ->
  exists response,
    HandleHTTPRequestMessage subdomain (Some request) (Answered status headers body)
    = Some response
    /\ RespID response = ID request /\ StatusCode response = status
    /\ RespHeaders response = headers
    /\ free (searched (LocalPort request)) (RespBody response).
Proof.
  intros Hhtml H. unfold HandleHTTPRequestMessage. cbv zeta. rewrite Hhtml.
  eexists. split; [reflexivity|]. cbn [RespID StatusCode RespHeaders RespBody].
  do 3 (split; [done|]).
  unfold rewriteSafe, hostnameOf in H. cbv zeta in H.
  do 8 (apply andb_true_iff in H as [H ?]).
  unfold rewriteBody. cbv zeta.
  set (t := tunnelURLPrefix (Scheme request) _) in *.
  set (p1 := localURLPrefix (LocalPort request)) in *.
  set (p2 := localURLPrefixSecure (LocalPort request)) in *.
  assert (Hp1 : p1 <> []) by apply localURLPrefix_nonempty.
  assert (Hp2 : p2 <> []) by apply localURLPrefixSecure_nonempty.
  assert (Hp3 : hrefOld <> []) by done.
  assert (Hp4 : srcOld <> []) by done.
  unfold free, searched. fold p1 p2.
  repeat apply Forall_cons_2; [| | | |by apply Forall_nil].
  - do 3 (apply ReplaceAll_keeps_absent; [done|done|]).
    by apply ReplaceAll_removes.
  - do 2 (apply ReplaceAll_keeps_absent; [done|done|]).
    by apply ReplaceAll_removes.
  - apply ReplaceAll_keeps_absent; [done|done|]. by apply ReplaceAll_removes.
  - by apply ReplaceAll_removes.
Qed.

Lemma HandleHTTPRequestMessage_removes_local_links_witness :
  exists response,
    HandleHTTPRequestMessage EmptyString (Some sampleRequest)
      (Answered 200 htmlHeaders samplePage)
    = Some response
    /\ RespHeaders response = htmlHeaders
    /\ free (searched 8080) (RespBody response).
Proof.
  destruct (HandleHTTPRequestMessage_removes_local_links EmptyString sampleRequest
              200 htmlHeaders samplePage) as (response & H & _ & _ & Hh & Hf);
    [vm_compute; reflexivity|vm_compute; reflexivity|].
  exists response. exact (conj H (conj Hh Hf)).
Defined.

End HTTPProxyFacts.

(** ** The per-connection forwarder: what reaches the session *)

Section ForwarderDelivery.
Import GoStrings Forwarder ForwarderSpec.

Lemma dataOf_app l1 l2 : dataOf (l1 ++ l2) = dataOf l1 ++ dataOf l2.
Proof. apply filter_app. Qed.

Lemma dataOf_chunk chunk size : fits chunk size -> dataOf [chunk] = [chunk].
Proof.
  intros [Hpos _]. unfold dataOf. cbn. rewrite decide_True; [done|].
  intros ->. cbn in Hpos. lia.
Qed.

(** Before the first read the forwarder has started nothing; every chunk a
    sender holds is not empty. *)
Lemma forwarder_senders_hold_chunks st :
  reachable st ->
  (phase st = AwaitInitial -> reads st = [] /\ senders st = [] /\ handed st = []
                              /\ isSSH st = false)
  /\ Forall (fun s => match s with
                      | DataSender data => data <> []
                      | KeepaliveSender => isSSH st = true
                      end) (senders st).
Proof.
  induction 1 as [|st st' Hreach [IHp IHs] Hstep]; [by split|].
  destruct Hstep; cbn [phase reads handed senders isSSH] in *;
    try (destruct (IHp ltac:(done)) as (Hr & Hs & Hh & Hi));
    try match goal with
        | H : senders _ = _ ++ _ :: _, H' : phase _ = AwaitInitial -> _ |- _ =>
            rewrite H in IHs;
            apply Forall_app in IHs as [Hb Ha]; apply Forall_cons in Ha as [Hx Ha]
        end.
  - split; [done|]. by rewrite Hs.
  - split; [done|]. by rewrite Hs.
  - split; [done|]. rewrite Hs. constructor.
  - split; [done|]. rewrite Hs. constructor.
  - split; [done|]. apply Forall_app. split; [done|].
    apply Forall_singleton. intros ->.
    match goal with H : fits [] _ |- _ => destruct H as [H _]; cbn in H; lia end.
  - by split.
  - split; [done|]. apply Forall_app. split; [done|]. by apply Forall_singleton.
  - split; [|by apply Forall_app].
    intros Hp. destruct (IHp Hp) as (_ & Hs & _).
    match goal with H : senders _ = _ ++ _ :: _ |- _ => rewrite Hs in H end.
    by destruct before.
  - split; [|by apply Forall_app].
    intros Hp. destruct (IHp Hp) as (_ & Hs & _).
    match goal with H : senders _ = _ ++ _ :: _ |- _ => rewrite Hs in H end.
    by destruct before.
  - split; [|by apply Forall_app].
    intros Hp. destruct (IHp Hp) as (_ & Hs & _).
    match goal with H : senders _ = _ ++ _ :: _ |- _ => rewrite Hs in H end.
    by destruct before.
  - by split.
Qed.

(** X21. Whatever the schedule of the sender goroutines, the chunks that
    have reached the session, together with those still held by running
    senders, form a sub-multiset of the chunks read from the local socket:
    a chunk that was read once is never handed to the session twice, and
    nothing is handed over that was not read. *)
Theorem forwarder_hands_over_at_most_once st :
  reachable st -> inFlight st ⊆+ reads st.
Proof.
  unfold inFlight.
  induction 1 as [|st st' Hreach IH Hstep]; [done|].
  destruct Hstep; cbn [reads handed senders]; try done.
  - rewrite dataOf_app, (dataOf_chunk chunk 8192) by done.
    rewrite <- (assoc_L (++)), (comm (++) [chunk]), (assoc_L (++)).
    by apply submseteq_app.
  - by apply submseteq_inserts_r.
  - rewrite map_app, dataOf_app. cbn [map payloadOf].
    rewrite (dataOf_chunk chunk _) by done.
    rewrite (assoc_L (++)). by apply submseteq_app.
  - rewrite map_app, dataOf_app. cbn. by rewrite !app_nil_r.
  - match goal with H : senders _ = _ |- _ => rewrite H in IH end.
    rewrite !map_app, !dataOf_app in *. cbn [map] in IH.
    change (payloadOf s :: map payloadOf after)
      with ([payloadOf s] ++ map payloadOf after) in IH.
    rewrite dataOf_app in IH.
    etrans; [|exact IH]. apply Permutation_submseteq.
    rewrite <- !(assoc_L (++)). apply Permutation_app_head.
    rewrite !(assoc_L (++)). apply Permutation_app_tail. apply Permutation_app_comm.
  - match goal with H : senders _ = _ |- _ => rewrite H in IH end.
    rewrite !map_app, !dataOf_app in *. cbn [map] in IH.
    etrans; [|exact IH]. apply submseteq_app; [done|].
    apply submseteq_app; [done|].
    change (payloadOf (DataSender data) :: map payloadOf after)
      with ([payloadOf (DataSender data)] ++ map payloadOf after).
    rewrite dataOf_app. by apply submseteq_inserts_l.
  - match goal with H : senders _ = _ |- _ => rewrite H in IH end.
    rewrite !map_app, !dataOf_app in *. by cbn in IH.
Qed.

Lemma forwarder_hands_over_at_most_once_witness :
  let st := {| phase := Streaming; isSSH := false; reads := [B "AAAA"; B "BBBB"];
               senders := [DataSender (B "BBBB")]; handed := [B "AAAA"];
               errCh := false |} in
  inFlight st ⊆+ reads st.
Proof.
  intros st. apply forwarder_hands_over_at_most_once.
  pose (mid := {| phase := Streaming; isSSH := detectSSH (B "AAAA");
                  reads := reads init ++ [B "AAAA"]; senders := senders init;
                  handed := handed init ++ [B "AAAA"]; errCh := errCh init |}).
  apply (reach_step mid).
  - apply (reach_step init); [apply reach_init|].
    apply (initial_sent init (B "AAAA")); [reflexivity|].
    unfold fits. split; [reflexivity|by vm_compute].
  - change st with {| phase := Streaming; isSSH := isSSH mid;
                      reads := reads mid ++ [B "BBBB"];
                      senders := senders mid ++ [DataSender (B "BBBB")];
                      handed := handed mid; errCh := errCh mid |}.
    apply (read_chunk mid (B "BBBB")); [reflexivity|].
    unfold fits. split; [reflexivity|by vm_compute].
Defined.

(** X22. The forwarder treats a connection as SSH only if the first chunk
    it read begins with [SSH-]; that chunk has at most 8192 bytes and every
    later chunk at most 32768.  On any connection a chunk has between 1 and
    131072 bytes, and the empty keepalive frame is started only on an SSH
    connection. *)
Theorem forwarder_ssh_detection st :
  reachable st ->
  Forall (fun chunk => fits chunk Registry.bufferSize) (reads st)
  /\ (isSSH st = true ->
      exists first rest,
        reads st = first :: rest
        /\ HasPrefix first (B "SSH-") = true /\ fits first 8192
        /\ Forall (fun chunk => fits chunk 32768) rest)
  /\ (In KeepaliveSender (senders st) -> isSSH st = true).
Proof.
  intros Hreach. split; [|split].
  - induction Hreach as [|st st' Hreach IH Hstep]; [constructor|].
    destruct Hstep; cbn [reads]; try done.
    + apply Forall_app. split; [done|]. apply Forall_singleton.
      unfold fits, Registry.bufferSize in *. lia.
    + apply Forall_app. split; [done|]. apply Forall_singleton.
      unfold fits, Registry.bufferSize in *. lia.
    + apply Forall_app. split; [done|]. apply Forall_singleton.
      unfold fits, actualBufferSize, Registry.bufferSize in *.
      destruct (isSSH st); lia.
  - induction Hreach as [|st st' Hreach IH Hstep]; [done|].
    pose proof (forwarder_senders_hold_chunks st Hreach) as [Hp _].
    destruct Hstep; cbn [reads isSSH phase] in *; try done.
    + destruct (Hp ltac:(done)) as (Hr & _). rewrite Hr. intros Hssh.
      exists chunk, []. unfold detectSSH in Hssh.
      apply andb_true_iff in Hssh as [_ Hssh].
      split; [done|]. split; [done|]. split; [assumption|constructor].
    + destruct (Hp ltac:(done)) as (Hr & _). rewrite Hr. intros Hssh.
      exists chunk, []. unfold detectSSH in Hssh.
      apply andb_true_iff in Hssh as [_ Hssh].
      split; [done|]. split; [done|]. split; [assumption|constructor].
    + intros Hssh. destruct (IH Hssh) as (first & rest & -> & Hpre & Hf & Hrest).
      exists first, (rest ++ [chunk]). split; [done|]. split; [done|]. split; [done|].
      apply Forall_app. split; [done|]. apply Forall_singleton.
      match goal with H : fits chunk _ |- _ => rewrite Hssh in H; exact H end.
  - intros Hk.
    pose proof (forwarder_senders_hold_chunks st Hreach) as [_ Hs].
    rewrite Forall_forall in Hs. apply list_elem_of_In in Hk.
    exact (Hs _ Hk).
Qed.

Lemma forwarder_ssh_detection_witness :
  let st := {| phase := Streaming; isSSH := true; reads := [B "SSH-2.0-OpenSSH_9.6"];
               senders := [KeepaliveSender]; handed := [B "SSH-2.0-OpenSSH_9.6"];
               errCh := false |} in
  exists first rest,
    reads st = first :: rest /\ HasPrefix first (B "SSH-") = true /\ fits first 8192
    /\ Forall (fun chunk => fits chunk 32768) rest.
Proof.
  intros st.
  pose (mid := {| phase := Streaming; isSSH := detectSSH (B "SSH-2.0-OpenSSH_9.6");
                  reads := reads init ++ [B "SSH-2.0-OpenSSH_9.6"];
                  senders := senders init;
                  handed := handed init ++ [B "SSH-2.0-OpenSSH_9.6"];
                  errCh := errCh init |}).
  assert (Hreach : reachable st).
  { apply (reach_step mid).
    - apply (reach_step init); [apply reach_init|].
      apply (initial_sent init (B "SSH-2.0-OpenSSH_9.6")); [reflexivity|].
      unfold fits. split; [reflexivity|by vm_compute].
    - change st with {| phase := Streaming; isSSH := isSSH mid; reads := reads mid;
                        senders := senders mid ++ [KeepaliveSender];
                        handed := handed mid; errCh := errCh mid |}.
      apply (keepalive mid); reflexivity. }
  destruct (forwarder_ssh_detection st Hreach) as (_ & H & _). by apply H.
Defined.

End ForwarderDelivery.

(** ** The [tcp] command: admission *)

Section TcpAdmission.
Import GoStrings Cmd.





End TcpAdmission.

(** ** The Direct-TCP tunnel: the server confirms the requested port *)

Section DirectEcho.
Import GoStrings Eff Direct DirectControl DirectSpec DirectRuns DecimalText.

Lemma digits_acc d acc :
  digits (B (NilEmpty.string_of_uint d)) (Z.pos acc)
  = Some (Z.pos (Pos.of_uint_acc d acc)).
Proof.
  revert acc. unfold B.
  induction d as [|d IH|d IH|d IH|d IH|d IH|d IH|d IH|d IH|d IH|d IH]; intros acc;
    [done|..];
    cbn [NilEmpty.string_of_uint list_ascii_of_string digits Pos.of_uint_acc];
    (change (digit _) with (Some 0) || change (digit _) with (Some 1)
     || change (digit _) with (Some 2) || change (digit _) with (Some 3)
     || change (digit _) with (Some 4) || change (digit _) with (Some 5)
     || change (digit _) with (Some 6) || change (digit _) with (Some 7)
     || change (digit _) with (Some 8) || change (digit _) with (Some 9));
    cbv beta iota; rewrite <- IH; f_equal; lia.
Qed.

Lemma digits_zero d :
  digits (B (NilEmpty.string_of_uint d)) 0 = Some (Z.of_N (Pos.of_uint d)).
Proof.
  unfold B.
  induction d as [|d IH|d IH|d IH|d IH|d IH|d IH|d IH|d IH|d IH|d IH];
    [done|exact IH|..];
    cbn [NilEmpty.string_of_uint list_ascii_of_string digits Pos.of_uint];
    (change (digit _) with (Some 1)
     || change (digit _) with (Some 2) || change (digit _) with (Some 3)
     || change (digit _) with (Some 4) || change (digit _) with (Some 5)
     || change (digit _) with (Some 6) || change (digit _) with (Some 7)
     || change (digit _) with (Some 8) || change (digit _) with (Some 9));
    cbv beta iota; exact (digits_acc d _).
Qed.

Lemma printed_uint_plain d : Forall plain (B (NilEmpty.string_of_uint d)).
Proof.
  unfold B.
  induction d as [|d IH|d IH|d IH|d IH|d IH|d IH|d IH|d IH|d IH|d IH];
    [constructor|..];
    cbn [NilEmpty.string_of_uint list_ascii_of_string];
    (constructor; [by split|exact IH]).
Qed.

Lemma to_uint_not_Nil p : Pos.to_uint p <> Decimal.Nil.
Proof.
  intros H. pose proof (DecimalPos.Unsigned.of_to p) as Hp.
  rewrite H in Hp. discriminate Hp.
Qed.

(** The decimal text of a positive number: digits only, read back by the
    digit loop of [Atoi]. *)
Lemma printed_pos p :
  exists c s,
    B (NilZero.string_of_uint (Pos.to_uint p)) = c :: s
    /\ c <> "+"%char /\ c <> "-"%char
    /\ digits (c :: s) 0 = Some (Z.pos p)
    /\ Forall plain (c :: s).
Proof.
  pose proof (to_uint_not_Nil p) as Hnil.
  pose proof (DecimalPos.Unsigned.of_to p) as Hof.
  pose proof (digits_zero (Pos.to_uint p)) as Hd.
  pose proof (printed_uint_plain (Pos.to_uint p)) as Hp.
  rewrite Hof in Hd.
  unfold NilZero.string_of_uint.
  destruct (Pos.to_uint p) as [|d|d|d|d|d|d|d|d|d|d]; [done|..];
    unfold B in *; cbn [NilEmpty.string_of_uint list_ascii_of_string] in *;
    eexists _, _; (split; [reflexivity|]); by repeat split.
Qed.

(** [strconv.Atoi] reads back what [%d] printed. *)
Lemma Atoi_itoa n : int64 n -> Atoi (B (itoa n)) = Some n.
Proof.
  intros Hn. unfold int64 in Hn. unfold itoa. destruct n as [|p|p]; [done|..].
  - cbn [Z.to_int NilZero.string_of_int].
    destruct (printed_pos p) as (c & s & -> & Hplus & Hminus & Hd & _).
    unfold Atoi. rewrite decide_False by done. rewrite decide_False by done.
    rewrite Hd.
    replace ((- 2 ^ 63 <=? Z.pos p) && (Z.pos p <? 2 ^ 63)) with true; [done|].
    symmetry. apply andb_true_iff. split; [apply Z.leb_le|apply Z.ltb_lt]; lia.
  - cbn [Z.to_int NilZero.string_of_int].
    destruct (printed_pos p) as (c & s & Hs & Hplus & Hminus & Hd & _).
    unfold B in *. cbn [list_ascii_of_string]. rewrite Hs.
    unfold Atoi. rewrite decide_False by done. rewrite decide_True by done.
    rewrite Hd.
    replace ((- 2 ^ 63 <=? - Z.pos p) && (- Z.pos p <? 2 ^ 63)) with true; [done|].
    symmetry. apply andb_true_iff. split; [apply Z.leb_le|apply Z.ltb_lt]; lia.
Qed.

Lemma itoa_plain n : Forall plain (B (itoa n)).
Proof.
  unfold itoa. destruct n as [|p|p].
  - by repeat constructor.
  - cbn [Z.to_int NilZero.string_of_int].
    destruct (printed_pos p) as (c & s & -> & _ & _ & _ & Hp). exact Hp.
  - cbn [Z.to_int NilZero.string_of_int].
    destruct (printed_pos p) as (c & s & Hs & _ & _ & _ & Hp).
    unfold B in *. cbn [list_ascii_of_string]. rewrite Hs.
    constructor; [by split|exact Hp].
Qed.

Lemma plain_no_colon l : Forall plain l -> ":"%char ∉ l.
Proof.
  intros H Hin. rewrite Forall_forall in H. by destruct (H _ Hin) as [Hc _].
Qed.

Lemma plain_no_ERROR l : Forall plain l -> Contains l (B "ERROR") = false.
Proof.
  induction 1 as [|c l [_ Hc] Hl IH]; [done|].
  cbn. rewrite decide_False by done. exact IH.
Qed.

(** The port of the answer [CONNECTED:n]. *)
Lemma portOf_echo n : int64 n -> portOf ("CONNECTED:" +:+ itoa n) = Some n.
Proof.
  intros Hn. unfold portOf.
  change (B ("CONNECTED:" +:+ itoa n)) with (B "CONNECTED" ++ ":"%char :: B (itoa n)).
  unfold Split. change (B ":") with [":"%char].
  rewrite split_scan_sep by (apply (bool_decide_unpack _); vm_compute; exact I).
  rewrite split_scan_end by (apply plain_no_colon, itoa_plain).
  cbn [rev app]. by apply Atoi_itoa.
Qed.

(** X24. A server that answers the registration with [CONNECTED:] followed
    by the remote port as the client printed it in its registration line
    confirms the tunnel: [Start] returns [nil] with the listener and the
    connection installed and the remote port unchanged.  What [%d] prints
    is read back by [strings.Split] and [strconv.Atoi] as the same
    number. *)
Theorem Start_confirmed_by_echo e envs t l sock :
  mutex t = false -> idle t -> int64 (remotePort t) ->
  listened e = Some l -> dialed e = Some sock -> writeOk e = true ->
  response e = Some ("CONNECTED:" +:+ itoa (remotePort t))%string ->
  exists t',
    Start (e :: envs) t = Ret None t'
    /\ remotePort t' = remotePort t
    /\ listener t' = Some l /\ connection t' = Some sock
    /\ callbacksOf (events t') = callbacksOf (events t)
    /\ linesOf (events t') = linesOf (events t) ++ [registration t "DIRECT_TCP_FORWARD"].
Proof.
  intros Hm Hidle Hport Hl Hs Hw Hr.
  rewrite Start_idle by done. cbv zeta. rewrite Hl, Hs, Hw, Hr. cbn [negb].
  set (resp := ("CONNECTED:" +:+ itoa (remotePort t))%string).
  assert (Hb : B resp = B "CONNECTED:" ++ B (itoa (remotePort t))) by done.
  assert (Herr : Contains (B resp) (B "ERROR") = false).
  { rewrite Hb. cbn -[itoa]. apply plain_no_ERROR, itoa_plain. }
  assert (Hconf : confirms t resp = true).
  { unfold confirms. rewrite Herr. rewrite Hb at 1 2.
    rewrite HasPrefix_app.
    rewrite (HasPrefix_Contains _ (B "CONNECTED"))
      by apply (HasPrefix_app_l _ (B "CONNECTED") (B ":")), HasPrefix_app.
    unfold resp. rewrite portOf_echo by done. cbn. apply Z.eqb_refl. }
  rewrite Herr, Hconf. eexists. split; [reflexivity|].
  cbn [remotePort listener connection events set_listener withEvents set_connection
         set_stopped].
  rewrite !callbacksOf_app, !linesOf_app. cbn. by rewrite !app_nil_r.
Qed.

Lemma Start_confirmed_by_echo_witness :
  exists t',
    Start [Samples.answering "CONNECTED:20000"] Samples.sampleDirect = Ret None t'
    /\ remotePort t' = 20000
    /\ listener t' = Some 1%nat /\ connection t' = Some 2%nat.
Proof.
  destruct (Start_confirmed_by_echo (Samples.answering "CONNECTED:20000") []
              Samples.sampleDirect 1%nat 2%nat)
    as (t' & H & Hp & Hl & Hc & _);
    [reflexivity|split; reflexivity|vm_compute; split; [discriminate|reflexivity]
    |reflexivity|reflexivity|reflexivity|vm_compute; reflexivity|].
  exists t'. exact (conj H (conj Hp (conj Hl Hc))).
Defined.

End DirectEcho.

(** ** The retry loops of the forwarder *)

Section RetryLoops.
Import GoStrings Retry RetrySpec.

Ltac zdiv := Z.to_euclidean_division_equations; lia.

Lemma sendDataWithRetry_bounds sendOk raw left attempt backoff maxBackoff lo :
  8 <= lo -> lo * 2 ^ Z.of_nat left <= backoff -> lo * 2 ^ Z.of_nat left <= maxBackoff ->
  let '(evs, out) := sendDataWithRetry sendOk raw left attempt backoff maxBackoff in
  out <> Panicked
  /\ Forall (fun n => 0 < n) (boundsOf evs)
  /\ Forall (fun d => lo <= d <= Z.max backoff maxBackoff) (sleepsOf evs)
  /\ (length (sendsOf evs) <= left)%nat
  /\ (out = GaveUp -> length (sleepsOf evs) = left).
Proof.
  revert attempt backoff.
  induction left as [|left IH]; intros attempt backoff Hlo Hb Hm;
    cbn [sendDataWithRetry].
  - by repeat split.
  - destruct (sendOk attempt); [cbn; repeat split; try done; lia|].
    cbv zeta. unfold times1_5.
    assert (Hpow : 2 ^ Z.of_nat (S left) = 2 * 2 ^ Z.of_nat left)
      by (rewrite Nat2Z.inj_succ, Z.pow_succ_r; lia).
    assert (Hpos : 0 < 2 ^ Z.of_nat left) by (apply Z.pow_pos_nonneg; lia).
    rewrite Hpow in Hb, Hm.
    assert (Hb0 : 0 <= backoff) by nia.
    rewrite (Z.quot_div_nonneg (backoff * 3) 2) by lia.
    set (b1 := backoff * 3 / 2).
    assert (Hb1 : backoff <= b1) by (subst b1; zdiv).
    set (b2 := if maxBackoff <? b1 then maxBackoff else b1).
    assert (Hb2 : 2 * (lo * 2 ^ Z.of_nat left) <= b2 <= maxBackoff).
    { subst b2. destruct (maxBackoff <? b1) eqn:E;
        [apply Z.ltb_lt in E|apply Z.ltb_ge in E]; lia. }
    rewrite (Z.quot_div_nonneg b2 2) by lia.
    set (n := b2 / 2).
    assert (Hn : lo * 2 ^ Z.of_nat left <= n /\ 2 * n <= b2) by (subst n; zdiv).
    assert (Hn0 : 0 < n) by nia.
    destruct (n <=? 0) eqn:En; [apply Z.leb_le in En; lia|].
    pose proof (Z.mod_pos_bound (raw attempt) n Hn0) as Hraw.
    set (jitter := raw attempt mod n + n).
    assert (Hj : n <= jitter < 2 * n) by (subst jitter; lia).
    destruct (0 <? jitter) eqn:Ej; [|apply Z.ltb_ge in Ej; lia].
    specialize (IH (S attempt) jitter Hlo ltac:(lia) ltac:(lia)).
    destruct (sendDataWithRetry sendOk raw left (S attempt) jitter maxBackoff)
      as [evs out].
    destruct IH as (Hout & Hbounds & Hsleeps & Hsends & Hgave).
    cbn [boundsOf sleepsOf sendsOf length].
    split; [done|]. split; [by constructor|]. split; [|split; [lia|]].
    + constructor; [nia|].
      eapply Forall_impl; [exact Hsleeps|]. cbn. intros d Hd. lia.
    + intros Hg. by rewrite (Hgave Hg).
Qed.

(** X25. [sendDataWithRetry] never makes [rand.Int63n] panic when the
    initial and the maximal back-off are at least [8 * 2^maxRetries]
    nanoseconds, as they are where it is called (5 retries, 50 ms, 2 s):
    every bound passed to [rand.Int63n] is positive, [SendData] is called
    at most [maxRetries] times, and every sleep lies between
    [min(initialBackoff, maxBackoff) / 2^maxRetries] and
    [max(initialBackoff, maxBackoff)]; when the loop gives up it has slept
    after every attempt, the last one included.  Both durations are taken
    below [2^51] nanoseconds, where the [float64] product by 1.5 is
    exact. *)
Theorem sendDataWithRetry_never_panics sendOk raw maxRetries initialBackoff maxBackoff :
  8 * 2 ^ Z.of_nat maxRetries <= initialBackoff <= 2 ^ 51 ->
  8 * 2 ^ Z.of_nat maxRetries <= maxBackoff <= 2 ^ 51 ->
  let run := sendDataWithRetry sendOk raw maxRetries 0 initialBackoff maxBackoff in
  snd run <> Panicked
  /\ Forall (fun n => 0 < n) (boundsOf (fst run))
  /\ Forall (fun d => Z.min initialBackoff maxBackoff / 2 ^ Z.of_nat maxRetries <= d
                      <= Z.max initialBackoff maxBackoff)
       (sleepsOf (fst run))
  /\ (length (sendsOf (fst run)) <= maxRetries)%nat
  /\ (snd run = GaveUp -> length (sleepsOf (fst run)) = maxRetries).
Proof.
  intros [Hb _] [Hm _] run. subst run.
  assert (Hpos : 0 < 2 ^ Z.of_nat maxRetries) by (apply Z.pow_pos_nonneg; lia).
  set (lo := Z.min initialBackoff maxBackoff / 2 ^ Z.of_nat maxRetries).
  assert (Hlo : 8 <= lo).
  { subst lo. apply Z.div_le_lower_bound; lia. }
  assert (Hmul : lo * 2 ^ Z.of_nat maxRetries <= Z.min initialBackoff maxBackoff).
  { subst lo. rewrite Z.mul_comm. apply Z.mul_div_le. lia. }
  pose proof (sendDataWithRetry_bounds sendOk raw maxRetries 0 initialBackoff
                maxBackoff lo Hlo ltac:(lia) ltac:(lia)) as H.
  by destruct (sendDataWithRetry sendOk raw maxRetries 0 initialBackoff maxBackoff).
Qed.

Lemma sendDataWithRetry_never_panics_witness :
  let run := sendDataWithRetry neverSent sampleRaw 5 0 (50 * millisecond) (2 * second) in
  snd run <> Panicked
  /\ Forall (fun n => 0 < n) (boundsOf (fst run))
  /\ length (sleepsOf (fst run)) = 5%nat.
Proof.
  intros run.
  destruct (sendDataWithRetry_never_panics neverSent sampleRaw 5 (50 * millisecond)
              (2 * second)) as (Hp & Hb & _ & _ & Hg);
    [split; vm_compute; discriminate|split; vm_compute; discriminate|].
  split; [exact Hp|]. split; [exact Hb|]. apply Hg. vm_compute. reflexivity.
Defined.

Lemma sendInitial_sleeps sendOk raw left attempt :
  (attempt + left <= 5)%nat ->
  let '(evs, out) := sendInitial sendOk raw left attempt in
  out <> Panicked
  /\ Forall (fun n => 0 < n) (boundsOf evs)
  /\ Forall2 jittered (seq attempt (length (sleepsOf evs))) (sleepsOf evs)
  /\ (length (sendsOf evs) <= left)%nat
  /\ (out = GaveUp -> length (sleepsOf evs) = left).
Proof.
  revert attempt. induction left as [|left IH]; intros attempt Hle;
    cbn [sendInitial].
  - repeat split; try done; try constructor.
  - destruct (sendOk attempt).
    { cbn. repeat split; try done; try lia; try constructor. }
    cbv zeta.
    set (delay0 := 50 * millisecond * 2 ^ Z.of_nat attempt).
    assert (Hd0 : 50 * millisecond <= delay0 <= 800 * millisecond
                  /\ 25 * millisecond * 2 ^ Z.of_nat attempt * 2 = delay0).
    { subst delay0. unfold millisecond, Session.millisecond.
      assert (Ha : (attempt <= 4)%nat) by lia.
      destruct attempt as [|[|[|[|[|?]]]]]; [..|lia]; cbn; lia. }
    destruct Hd0 as [Hd0 Hhalf].
    destruct (2 * second <? delay0) eqn:Ecap.
    { apply Z.ltb_lt in Ecap. unfold second, Session.second, millisecond,
        Session.millisecond in *. lia. }
    destruct (delay0 <=? 0) eqn:E0.
    { apply Z.leb_le in E0. unfold millisecond, Session.millisecond in *. lia. }
    assert (Hpos : 0 < delay0) by (unfold millisecond, Session.millisecond in *; lia).
    pose proof (Z.mod_pos_bound (raw attempt) delay0 Hpos) as Hraw.
    rewrite (Z.quot_div_nonneg delay0 2) by lia.
    set (jitter := raw attempt mod delay0 + delay0 / 2).
    assert (Hj : delay0 / 2 <= jitter < delay0 + delay0 / 2) by (subst jitter; lia).
    assert (Hhalf2 : delay0 / 2 * 2 = delay0) by zdiv.
    assert (Hj0 : 0 < jitter).
    { unfold millisecond, Session.millisecond in *. lia. }
    destruct (0 <? jitter) eqn:Ej; [|apply Z.ltb_ge in Ej; lia].
    specialize (IH (S attempt) ltac:(lia)).
    destruct (sendInitial sendOk raw left (S attempt)) as [evs out].
    destruct IH as (Hout & Hbounds & Hsleeps & Hsends & Hgave).
    cbn [boundsOf sleepsOf sendsOf length seq].
    split; [done|]. split; [by constructor|]. split; [|split; [lia|]].
    + constructor; [|exact Hsleeps].
      unfold jittered. rewrite <- Hhalf in Hj. lia.
    + intros Hg. by rewrite (Hgave Hg).
Qed.

(** X26. The initial chunk of a connection is passed to [SendData] at most
    five times; after failed attempt number [i] (from 0) the forwarder
    sleeps between [25 ms * 2^i] and [75 ms * 2^i], also after the fifth
    failure, and [rand.Int63n] is only called with a positive bound. *)
Theorem sendInitial_schedule sendOk raw :
  let run := sendInitial sendOk raw 5 0 in
  snd run <> Panicked
  /\ Forall (fun n => 0 < n) (boundsOf (fst run))
  /\ Forall2 jittered (seq 0 (length (sleepsOf (fst run)))) (sleepsOf (fst run))
  /\ (length (sendsOf (fst run)) <= 5)%nat
  /\ (snd run = GaveUp -> length (sleepsOf (fst run)) = 5%nat).
Proof.
  intros run. subst run.
  pose proof (sendInitial_sleeps sendOk raw 5 0 ltac:(lia)) as H.
  by destruct (sendInitial sendOk raw 5 0).
Qed.

End RetryLoops.

(** ** [maskString] *)

Section MaskFacts.
Import GoStrings Mask.

(** X27. [maskString] shows at most the first two and the last two bytes
    of a string: its result has 4 or 8 bytes, a string of at most four
    bytes is hidden altogether, and two longer strings with the same first
    two and last two bytes are masked alike, whatever lies between. *)
Theorem maskString_hides_middle a b middle middle' :
  length a = 2%nat -> length b = 2%nat -> middle <> [] -> middle' <> [] ->
  maskString (a ++ middle ++ b) = a ++ B "****" ++ b
  /\ maskString (a ++ middle ++ b) = maskString (a ++ middle' ++ b)
  /\ (forall s, (length s <= 4)%nat -> maskString s = B "****")
  /\ (forall s, length (maskString s) = 4%nat \/ length (maskString s) = 8%nat).
Proof.
  intros Ha Hb Hm Hm'.
  assert (Hmask : forall m, m <> [] -> maskString (a ++ m ++ b) = a ++ B "****" ++ b).
  { intros m Hne. unfold maskString. rewrite !length_app, Ha, Hb.
    destruct (Z.of_nat (2 + (length m + 2)) <=? 4) eqn:E.
    { apply Z.leb_le in E. destruct m; [done|]. cbn [length] in E. lia. }
    rewrite firstn_app, Ha. rewrite firstn_all2 by lia.
    replace (2 - 2)%nat with 0%nat by lia. cbn [firstn]. rewrite app_nil_r.
    replace (2 + (length m + 2) - 2)%nat with (length a + length m)%nat by lia.
    by rewrite (app_assoc a m b), <- length_app, drop_app_length. }
  split; [by apply Hmask|]. split; [by rewrite !Hmask|]. split.
  - intros s Hs. unfold maskString.
    destruct (Z.of_nat (length s) <=? 4) eqn:E; [done|]. apply Z.leb_gt in E. lia.
  - intros s. unfold maskString.
    destruct (Z.of_nat (length s) <=? 4) eqn:E; [by left|right].
    apply Z.leb_gt in E. rewrite !length_app, length_firstn, length_skipn.
    change (length (B "****")) with 4%nat. lia.
Qed.

Lemma maskString_hides_middle_witness :
  maskString (B "hxp_3f9a_secret_77") = B "hx****77"
  /\ maskString (B "hxp_3f9a_secret_77") = maskString (B "hx-another-token-77").
Proof.
  destruct (maskString_hides_middle (B "hx") (B "77") (B "p_3f9a_secret_")
              (B "-another-token-")) as (H1 & H2 & _);
    [reflexivity|reflexivity|discriminate|discriminate|].
  split; [exact H1|exact H2].
Defined.

End MaskFacts.

(** ** The validation URL of the session and of the [tcp] command *)

Section ValidationURL.
Import GoStrings.

(** X28. A configured validation URL is used by [Client.Connect] and by
    the [tcp] command alike.  When none is configured, the [tcp] command
    always validates the token at [https://SERVER/AuthToken/validate],
    whereas [Connect] does so only when TLS is enabled: with TLS disabled
    it sends the token to [http://SERVER/AuthToken/validate], and the two
    then use different URLs. *)
Theorem validation_urls cfg :
  let server := Session.ServerAddress cfg in
  (Session.AuthValidationURL cfg <> EmptyString ->
   Session.validationURLOf cfg = Session.AuthValidationURL cfg
   /\ Cmd.tcpValidationURL cfg = Session.AuthValidationURL cfg)
  /\ (Session.AuthValidationURL cfg = EmptyString ->
      Cmd.tcpValidationURL cfg = ("https://" +:+ server +:+ "/AuthToken/validate")%string
      /\ (Session.TLSEnabled cfg = true ->
          Session.validationURLOf cfg = Cmd.tcpValidationURL cfg)
      /\ (Session.TLSEnabled cfg = false ->
          Session.validationURLOf cfg
          = ("http://" +:+ server +:+ "/AuthToken/validate")%string
          /\ Session.validationURLOf cfg <> Cmd.tcpValidationURL cfg)).
Proof.
  intros server. unfold Session.validationURLOf, Cmd.tcpValidationURL. fold server.
  split.
  - intros Hne. by rewrite !decide_False by done.
  - intros He. rewrite !decide_True by done. split; [done|]. split.
    + by intros ->.
    + intros ->. split; [done|]. intros H. cbv [append] in H. discriminate H.
Qed.

End ValidationURL.
